(** * Deirokay statements: a shallow embedding and its properties

    The development follows [deirokay/statements.py] and the package
    [deirokay/statements/] ([not_null.py], [statistic_in_interval.py]).

    Conventions of the embedding.
    - A Python exception is a value of [Py.exn]; a method that may raise
      returns [Py.Err A].
    - An options dictionary is held as a record with one field per expected
      key ([None] when the key is absent), read after template rendering;
      the keys of the dictionary, in insertion order, are kept as a list,
      because [_validate_options] iterates over them.
    - A statement instance is a record of its attributes; a method that
      assigns attributes returns the updated instance.
    - A DataFrame is its list of rows; a cell is [None] when null. The
      columns are read off the first row, so a frame without rows is taken
      to have columns.
    - Percentages ([100.0 * k / n]) are held as exact rationals, with a
      separate [NaN] for [0/0]; binary64 rounding is not modelled. *)

From Stdlib Require Import ZArith QArith Qabs Bool List Lia.
From stdpp Require Import base gmap strings list.

Local Open Scope string_scope.
Local Open Scope Z_scope.

(** ** Python results and numbers *)

Module Py.

(** The text of a [ValueError]. The message of [_validate_options] is
    held as its three interpolated parts: the class name, the unexpected
    keys and the listed valid parameters. *)
Inductive message : Type :=
| InvalidParameters (cls_name : string) (unexpected valid : list string)
| Text (s : string).

(** The exceptions raised by the modelled code. *)
Inductive exn : Type :=
| ValueError (msg : message)
| NotImplementedError (msg : string)
| KeyError
| TypeError
| IndexError
| AttributeError
| AssertionError.

Inductive Err (A : Type) : Type :=
| Ok (a : A)
| Raise (e : exn).
Arguments Ok {A} a.
Arguments Raise {A} e.

Definition bind {A B} (m : Err A) (k : A -> Err B) : Err B :=
  match m with
  | Ok a => k a
  | Raise e => Raise e
  end.

(** [assert cond] *)
Definition assert (cond : bool) : Err unit :=
  if cond then Ok tt else Raise AssertionError.

(** [self.attr] for an attribute that is assigned outside [__init__]. *)
Definition getattr {A} (field : option A) : Err A :=
  match field with
  | Some a => Ok a
  | None => Raise AttributeError
  end.

(** [d.get(key, default)] on an optional field. *)
Definition get {A} (field : option A) (default : A) : A :=
  match field with
  | Some a => a
  | None => default
  end.

(** A Python float obtained from a quotient of counts, held as the exact
    rational it stands for: rounding is not modelled on this type. *)
Inductive pyfloat : Type :=
| NaN
| Fin (q : Q).

(** [float(100.0 * k / n)] with [k] a numpy integer: [0/0] and [k/0] give
    a non-finite float and a warning, not an exception; only [0/0] can
    occur, since [k <= n]. *)
Definition percent (k n : nat) : pyfloat :=
  match n with
  | O => NaN
  | S _ => Fin (Qmake (100 * Z.of_nat k) (Pos.of_nat n))
  end.

(** [a >= b], [a <= b], [a == b], [a != b] on floats. *)
Definition fle (a b : pyfloat) : bool :=
  match a, b with
  | Fin x, Fin y => Qle_bool x y
  | _, _ => false
  end.
Definition fge (a b : pyfloat) : bool := fle b a.
Definition feq (a b : pyfloat) : bool :=
  match a, b with
  | Fin x, Fin y => Qeq_bool x y
  | _, _ => false
  end.
Definition fne (a b : pyfloat) : bool := negb (feq a b).
Definition flt (a b : pyfloat) : bool :=
  match a, b with
  | Fin x, Fin y => negb (Qle_bool y x)
  | _, _ => false
  end.

Definition f0 : pyfloat := Fin 0%Q.
Definition f100 : pyfloat := Fin 100%Q.

End Py.
Export Py.

Notation "'let*' x ':=' m 'in' k" := (Py.bind m (fun x => k))
  (at level 10, x pattern, m at level 100, k at level 200).
Notation "m ';;' k" := (Py.bind m (fun _ => k))
  (at level 100, k at level 200, right associativity).

(** ** BaseStatement *)

Module BaseStatement.

(** The class attributes read by [_validate_options]. *)
Record StatementClass : Type := {
  cls_name : string;              (* cls.__name__ *)
  name : string;
  expected_parameters : list string;
  table_only : bool
}.

(** [BaseStatement.expected_parameters] *)
Definition base_expected_parameters : list string :=
  ["type"; "severity"; "location"].

Definition cls : StatementClass := {|
  cls_name := "BaseStatement";
  name := "base_statement";
  expected_parameters := base_expected_parameters;
  table_only := false
|}.

(** [cls.expected_parameters + BaseStatement.expected_parameters] *)
Definition allowed_parameters (c : StatementClass) : list string :=
  expected_parameters c ++ base_expected_parameters.

(** [_validate_options]; [options] is the list of keys of the dictionary
    in insertion order. *)
Definition _validate_options (c : StatementClass) (options : list string)
  : Err unit :=
  let unexpected_parameters :=
    filter (fun option => option ∉ allowed_parameters c) options in
  match unexpected_parameters with
  | [] => Ok tt
  | _ :: _ =>
      Raise (ValueError
               (InvalidParameters (cls_name c) unexpected_parameters
                  (expected_parameters c)))
  end.

(** The keys every statement accepts, as they appear in a typed options
    record; [other_keys] are the keys of the dictionary that the record
    does not read. *)
Record universal : Type := {
  type_ : option string;
  severity : option Z;
  location : option string;
  other_keys : list string
}.

Definition present {A} (key : string) (field : option A) : list string :=
  match field with
  | Some _ => [key]
  | None => []
  end.

Definition universal_keys (u : universal) : list string :=
  present "type" (type_ u) ++ present "severity" (severity u)
  ++ present "location" (location u) ++ other_keys u.

Definition no_universal : universal :=
  {| type_ := None; severity := None; location := None; other_keys := [] |}.

(** [__init__]: validation comes first; [rest] stands for what the
    subclass constructor does after [super().__init__]. The rendering of
    string options by [_parse_options] is the work of the template engine:
    the options records hold the rendered values. *)
Definition __init__ {A} (c : StatementClass) (keys : list string)
    (rest : Err A) : Err A :=
  _validate_options c keys ;; rest.

(** The defaults of [report] and [result]. *)
Definition report {DF} (df : DF) : list (string * Z) := [].
Definition result {R} (report : R) : bool := true.
Definition profile {DF A} (df : DF) : Err A :=
  Raise (NotImplementedError "").

End BaseStatement.

(** ** RowCount *)

Module RowCount.
Import BaseStatement.

Definition cls : StatementClass := {|
  cls_name := "RowCount";
  name := "row_count";
  expected_parameters := ["min"; "max"];
  table_only := true
|}.

Record options : Type := {
  common : universal;
  opt_min : option Z;
  opt_max : option Z
}.

Definition keys (o : options) : list string :=
  universal_keys (common o)
  ++ present "min" (opt_min o) ++ present "max" (opt_max o).

(** The instance attributes [self.min] and [self.max] ([None] when the
    option is absent). *)
Record t : Type := {
  min : option Z;
  max : option Z
}.

Definition __init__ (o : options) : Err t :=
  BaseStatement.__init__ cls (keys o)
    (Ok {| min := opt_min o; max := opt_max o |}).

(** The report dictionary [{'rows': row_count}]. *)
Record report_t : Type := { rows : Z }.

Definition report {Row} (self : t) (df : list Row) : report_t :=
  let row_count := Z.of_nat (length df) in
  {| rows := row_count |}.

Definition result (self : t) (report : report_t) : bool :=
  let row_count := rows report in
  if match min self with
     | Some m => negb (m <=? row_count)
     | None => false
     end
  then false
  else if match max self with
          | Some m => negb (row_count <=? m)
          | None => false
          end
  then false
  else true.

Definition profile {Row} (df : list Row) : options :=
  let row_count := Z.of_nat (length df) in
  {| common := {| type_ := Some "row_count"; severity := None;
                  location := None; other_keys := [] |};
     opt_min := Some row_count;
     opt_max := Some row_count |}.

End RowCount.

(** ** DataFrames *)

Module Frame.

(** A frame is its list of rows; the cells of a row are aligned with the
    columns by position, and a null cell is [None]. *)
Abbreviation row V := (list (option V)) (only parsing).
Abbreviation DataFrame V := (list (list (option V))) (only parsing).

Section Frame.
Context {V : Type} `{Countable V}.

(** [len(df)] *)
Definition len (df : DataFrame V) : nat := length df.

(** A row all of whose cells are null. *)
Definition all_null (r : row V) : Prop :=
  Forall (fun c => c = None) r.

(** [df.isnull()] *)
Definition isnull (df : DataFrame V) : list (list bool) :=
  map (map (fun c : option V => bool_decide (c = None))) df.

(** [.any(axis=1)] and [.all(axis=1)] on a boolean frame. *)
Definition any_axis1 (m : list (list bool)) : list bool :=
  map (existsb id) m.
Definition all_axis1 (m : list (list bool)) : list bool :=
  map (forallb id) m.

(** [~mask] and [mask.sum()] on a boolean series. *)
Definition invert (mask : list bool) : list bool := map negb mask.
Definition sum (mask : list bool) : nat :=
  length (filter (fun b : bool => b = true) mask).

(** The number of rows of [df] equal to [r]; pandas compares rows cell
    by cell and takes two null cells as equal. *)
Definition occurrences (r : row V) (df : DataFrame V) : nat :=
  length (filter (fun r' => r' = r) df).

(** The number of columns, read off the first row. A frame without rows
    does not tell its columns: it is taken to have some. *)
Definition width (df : DataFrame V) : nat :=
  match df with
  | [] => O
  | r :: _ => length r
  end.
Definition no_columns (df : DataFrame V) : bool :=
  match df with
  | [] => false
  | r :: _ => bool_decide (length r = O)
  end.

(** [df.empty]: no rows, or no columns. *)
Definition empty (df : DataFrame V) : bool :=
  bool_decide (len df = O) || no_columns df.

(** [df.duplicated(keep=False)]: every row that occurs more than once
    is marked, the first and last occurrences included; the series is
    empty when the frame is. *)
Definition duplicated_keep_False (df : DataFrame V) : list bool :=
  if empty df then []
  else map (fun r => bool_decide (1 < occurrences r df)%nat) df.

(** [df[col] for col in df.columns]: the columns of a frame. *)
Definition column (j : nat) (df : DataFrame V) : list (option V) :=
  map (fun r => default None (r !! j)) df.
Definition columns (df : DataFrame V) : list (list (option V)) :=
  map (fun j => column j df) (seq 0 (width df)).

(** [pd.concat(df[col] for col in df.columns)]; pandas raises when there
    is no column to concatenate. *)
Definition pooled (df : DataFrame V) : Err (list (option V)) :=
  if no_columns df
  then Raise (ValueError (Text "No objects to concatenate"))
  else Ok (concat (columns df)).

(** [series.value_counts().to_dict()]: the frequency of every distinct
    value that is not null. The dictionary is held as a finite map: the
    order of its keys is not modelled. *)
Fixpoint value_counts (series : list (option V)) : gmap V nat :=
  match series with
  | [] => ∅
  | None :: rest => value_counts rest
  | Some v :: rest =>
      let counts := value_counts rest in
      <[v := S (default O (counts !! v))]> counts
  end.

End Frame.
End Frame.

(** ** Unique *)

Module Unique.
Import BaseStatement.

Definition cls : StatementClass := {|
  cls_name := "Unique";
  name := "unique";
  expected_parameters := ["at_least_%"];
  table_only := false
|}.

Record options : Type := {
  common : universal;
  opt_at_least_perc : option pyfloat
}.

Definition keys (o : options) : list string :=
  universal_keys (common o) ++ present "at_least_%" (opt_at_least_perc o).

Record t : Type := { at_least_perc : pyfloat }.

Definition __init__ (o : options) : Err t :=
  BaseStatement.__init__ cls (keys o)
    (Ok {| at_least_perc := Py.get (opt_at_least_perc o) f100 |}).

Record report_t : Type := {
  unique_rows : Z;
  unique_rows_perc : pyfloat
}.

Section WithValues.
Context {V : Type} `{Countable V}.

Definition report (self : t) (df : Frame.DataFrame V) : report_t :=
  let unique := Frame.invert (Frame.duplicated_keep_False df) in
  {| unique_rows := Z.of_nat (Frame.sum unique);
     unique_rows_perc := percent (Frame.sum unique) (length unique) |}.

Definition profile (df : Frame.DataFrame V) : options :=
  let unique := Frame.invert (Frame.duplicated_keep_False df) in
  {| common := {| type_ := Some "unique"; severity := None;
                  location := None; other_keys := [] |};
     opt_at_least_perc :=
       Some (percent (Frame.sum unique) (length unique)) |}.
End WithValues.

Definition result (self : t) (report : report_t) : bool :=
  fge (unique_rows_perc report) (at_least_perc self).

End Unique.

(** ** NotNull ([deirokay/statements/not_null.py]) *)

Module NotNull.
Import BaseStatement.

Definition cls : StatementClass := {|
  cls_name := "NotNull";
  name := "not_null";
  expected_parameters := ["at_least_%"; "at_most_%"; "multicolumn_logic"];
  table_only := false
|}.

Record options : Type := {
  common : universal;
  opt_at_least_perc : option pyfloat;
  opt_at_most_perc : option pyfloat;
  opt_multicolumn_logic : option string
}.

Definition keys (o : options) : list string :=
  universal_keys (common o)
  ++ present "at_least_%" (opt_at_least_perc o)
  ++ present "at_most_%" (opt_at_most_perc o)
  ++ present "multicolumn_logic" (opt_multicolumn_logic o).

Record t : Type := {
  at_least_perc : pyfloat;
  at_most_perc : pyfloat;
  multicolumn_logic : string
}.

Definition __init__ (o : options) : Err t :=
  BaseStatement.__init__ cls (keys o)
    (let self := {|
       at_least_perc := Py.get (opt_at_least_perc o) f100;
       at_most_perc := Py.get (opt_at_most_perc o) f100;
       multicolumn_logic := Py.get (opt_multicolumn_logic o) "any" |} in
     assert (bool_decide (multicolumn_logic self ∈ ["any"; "all"])) ;;
     Ok self).

(** The statement dictionary [{'type': 'not_null'}] of [profile], with an
    [at_least_%] or without. *)
Definition inferred (at_least : option pyfloat) : options :=
  {| common := {| type_ := Some "not_null"; severity := None;
                  location := None; other_keys := [] |};
     opt_at_least_perc := at_least;
     opt_at_most_perc := None;
     opt_multicolumn_logic := None |}.

Record report_t : Type := {
  null_rows : Z;
  null_rows_perc : pyfloat;
  not_null_rows : Z;
  not_null_rows_perc : pyfloat
}.

Section WithValues.
Context {V : Type} `{Countable V}.

(** The series [not_nulls] of [report]. *)
Definition not_nulls (logic : string) (df : Frame.DataFrame V)
  : list bool :=
  if bool_decide (logic = "all")
  then (*  REMINDER: ~all == any *)
    Frame.invert (Frame.any_axis1 (Frame.isnull df))
  else Frame.invert (Frame.all_axis1 (Frame.isnull df)).

Definition report (self : t) (df : Frame.DataFrame V) : report_t :=
  let not_nulls := not_nulls (multicolumn_logic self) df in
  {| null_rows := Z.of_nat (Frame.sum (Frame.invert not_nulls));
     null_rows_perc :=
       percent (Frame.sum (Frame.invert not_nulls)) (length not_nulls);
     not_null_rows := Z.of_nat (Frame.sum not_nulls);
     not_null_rows_perc :=
       percent (Frame.sum not_nulls) (length not_nulls) |}.

Definition profile (df : Frame.DataFrame V) : Err options :=
  let not_nulls := Frame.invert (Frame.all_axis1 (Frame.isnull df)) in
  let statement := {|
    common := {| type_ := Some "not_null"; severity := None;
                 location := None; other_keys := [] |};
    opt_at_least_perc := None;
    opt_at_most_perc := None;
    opt_multicolumn_logic := None |} in
  let at_least_perc := percent (Frame.sum not_nulls) (length not_nulls) in
  if feq at_least_perc f0
  then Raise (NotImplementedError
                "Statement is useless when all rows are null.")
  else if fne at_least_perc f100
  then Ok {| common := common statement;
             opt_at_least_perc := Some at_least_perc;
             opt_at_most_perc := opt_at_most_perc statement;
             opt_multicolumn_logic := opt_multicolumn_logic statement |}
  else Ok statement.

(** [NotNull.profile] as [deirokay/statements.py] has it: both bounds
    are set to the observed percentage and the logic is written out. *)
Definition profile_statements_py (df : Frame.DataFrame V) : options :=
  let not_nulls := Frame.invert (Frame.all_axis1 (Frame.isnull df)) in
  {| common := {| type_ := Some "not_null"; severity := None;
                  location := None; other_keys := [] |};
     opt_at_least_perc :=
       Some (percent (Frame.sum not_nulls) (length not_nulls));
     opt_at_most_perc :=
       Some (percent (Frame.sum not_nulls) (length not_nulls));
     opt_multicolumn_logic := Some "any" |}.
End WithValues.

Definition result (self : t) (report : report_t) : bool :=
  if negb (fge (not_null_rows_perc report) (at_least_perc self))
  then false
  else if negb (fle (not_null_rows_perc report) (at_most_perc self))
  then false
  else true.

End NotNull.

(** ** Contain *)

Module Contain.
Import BaseStatement.

Definition cls : StatementClass := {|
  cls_name := "Contain";
  name := "contain";
  expected_parameters :=
    ["rule"; "values"; "parser"; "occurrences_per_value";
     "min_occurrences"; "max_occurrences"; "verbose"];
  table_only := false
|}.

(** An occurrence bound: an integer or [np.inf]. *)
Inductive bound : Type :=
| Int (z : Z)
| Inf.

#[export] Instance bound_eq_dec : EqDecision bound.
Proof. solve_decision. Defined.

(** [a <= b] *)
Definition ble (a b : bound) : bool :=
  match a, b with
  | Int x, Int y => (x <=? y)%Z
  | _, Inf => true
  | Inf, Int _ => false
  end.

(** [min_value <= count <= max_value] *)
Definition within (min_value : bound) (count : nat) (max_value : bound)
  : bool :=
  ble min_value (Int (Z.of_nat count))
  && ble (Int (Z.of_nat count)) max_value.

(** The tables of [_set_default_minmax_occurrences]; a dictionary lookup
    with a key outside the table raises [KeyError]. *)
Definition min_occurrences_rule_default (rule : string) : Err bound :=
  if bool_decide (rule = "all") then Ok (Int 1)
  else if bool_decide (rule = "only") then Ok (Int 0)
  else if bool_decide (rule = "all_and_only") then Ok (Int 1)
  else Raise KeyError.
Definition max_occurrences_rule_default (rule : string) : Err bound :=
  if bool_decide (rule = "all") then Ok Inf
  else if bool_decide (rule = "only") then Ok Inf
  else if bool_decide (rule = "all_and_only") then Ok Inf
  else Raise KeyError.

(** [d[key]] on an optional field. *)
Definition getitem {A} (field : option A) : Err A :=
  match field with
  | Some a => Ok a
  | None => Raise KeyError
  end.

(** A loop whose body may raise. *)
Fixpoint for_each {A S} (body : S -> A -> Err S) (s : S) (l : list A)
  : Err S :=
  match l with
  | [] => Ok s
  | a :: rest => let* s' := body s a in for_each body s' rest
  end.

Section WithValues.
Context {Raw V Ser : Type} `{Countable V}.

(** What [get_treater_instance] returns for the [parser] option: the
    conversion of raw configuration values ([__call__]) and the
    serialization of values for the report ([serialize(...)['values']]).
    The parser subsystem is a collaborator of the statements. *)
Record Treater : Type := {
  treat : list Raw -> list V;
  serialize : list V -> list Ser
}.

(** An entry of [occurrences_per_value]; its [values] is one raw value
    or a list of them. *)
Inductive one_or_many : Type :=
| One (value : Raw)
| Many (values : list Raw).

Record occurrence : Type := {
  occ_values : one_or_many;
  occ_min_occurrences : option bound;
  occ_max_occurrences : option bound
}.

Record options : Type := {
  common : universal;
  opt_rule : option string;
  opt_values : option (list Raw);
  opt_parser : option Treater;
  opt_occurrences_per_value : option (list occurrence);
  opt_min_occurrences : option bound;
  opt_max_occurrences : option bound;
  opt_verbose : option bool
}.

Definition keys (o : options) : list string :=
  universal_keys (common o)
  ++ present "rule" (opt_rule o)
  ++ present "values" (opt_values o)
  ++ present "parser" (opt_parser o)
  ++ present "occurrences_per_value" (opt_occurrences_per_value o)
  ++ present "min_occurrences" (opt_min_occurrences o)
  ++ present "max_occurrences" (opt_max_occurrences o)
  ++ present "verbose" (opt_verbose o).

(** The attributes of an instance. The last three are assigned by
    [report] and [result], not by [__init__]. *)
Record t : Type := {
  rule : string;
  treater : Treater;
  values : list V;
  min_occurrences : bound;
  max_occurrences : bound;
  occurrences_per_value : list occurrence;
  verbose : bool;
  value_count : option (gmap V nat);
  min_max_boundaries : option (gmap V (bound * bound));
  values_scope_filter : option (list V)
}.

Definition _set_default_minmax_occurrences (rule : string)
    (min_occurrences max_occurrences : option bound)
  : Err (bound * bound) :=
  let* mn :=
    match min_occurrences with
    | None => min_occurrences_rule_default rule
    | Some m => Ok m
    end in
  let* mx :=
    match max_occurrences with
    | None => max_occurrences_rule_default rule
    | Some m => Ok m
    end in
  Ok (mn, mx).

Definition _assert_parameters (rule : string) (mn mx : bound)
  : Err unit :=
  assert (bool_decide (rule ∈ ["all"; "only"; "all_and_only"])) ;;
  assert (ble (Int 0) mn) ;;
  assert (ble (Int 0) mx).

Definition __init__ (o : options) : Err t :=
  BaseStatement.__init__ cls (keys o)
    (let* rule := getitem (opt_rule o) in
     let* treater := getitem (opt_parser o) in
     let* raw_values := getitem (opt_values o) in
     let values := treat treater raw_values in
     let occurrences_per_value :=
       Py.get (opt_occurrences_per_value o) [] in
     let verbose := Py.get (opt_verbose o) true in
     let* (mn, mx) :=
       _set_default_minmax_occurrences rule
         (opt_min_occurrences o) (opt_max_occurrences o) in
     _assert_parameters rule mn mx ;;
     Ok {| rule := rule; treater := treater; values := values;
           min_occurrences := mn; max_occurrences := mx;
           occurrences_per_value := occurrences_per_value;
           verbose := verbose;
           value_count := None; min_max_boundaries := None;
           values_scope_filter := None |}).

Definition set_value_count (self : t) (vc : gmap V nat) : t :=
  {| rule := rule self; treater := treater self; values := values self;
     min_occurrences := min_occurrences self;
     max_occurrences := max_occurrences self;
     occurrences_per_value := occurrences_per_value self;
     verbose := verbose self;
     value_count := Some vc;
     min_max_boundaries := min_max_boundaries self;
     values_scope_filter := values_scope_filter self |}.

Definition set_min_max_boundaries (self : t)
    (b : gmap V (bound * bound)) : t :=
  {| rule := rule self; treater := treater self; values := values self;
     min_occurrences := min_occurrences self;
     max_occurrences := max_occurrences self;
     occurrences_per_value := occurrences_per_value self;
     verbose := verbose self;
     value_count := value_count self;
     min_max_boundaries := Some b;
     values_scope_filter := values_scope_filter self |}.

Definition set_values_scope_filter (self : t) (l : list V) : t :=
  {| rule := rule self; treater := treater self; values := values self;
     min_occurrences := min_occurrences self;
     max_occurrences := max_occurrences self;
     occurrences_per_value := occurrences_per_value self;
     verbose := verbose self;
     value_count := value_count self;
     min_max_boundaries := min_max_boundaries self;
     values_scope_filter := Some l |}.

(** The report dictionary; [value_rel_frequency] is present when
    [verbose] is set. A dictionary built by [dict(zip(keys, values))]
    is held as the list of its pairs. *)
Record report_t : Type := {
  value_frequency : list (Ser * Z);
  value_rel_frequency : option (list (Ser * pyfloat))
}.

Definition empty_report : report_t :=
  {| value_frequency := []; value_rel_frequency := None |}.

(** [report] assigns [self.value_count] and returns the report. *)
Definition report (self : t) (df : Frame.DataFrame V)
  : Err (report_t * t) :=
  let* series := Frame.pooled df in
  let count_isin := Frame.value_counts series in
  let self := set_value_count self count_isin in
  let items := map_to_list count_isin in
  let keys := serialize (treater self) (map fst items) in
  let values := map (fun kv => Z.of_nat (snd kv)) items in
  let total := foldr Nat.add O (map snd items) in
  Ok ({| value_frequency := zip keys values;
         value_rel_frequency :=
           if verbose self
           then Some (zip keys
                        (map (fun kv => percent (snd kv) total) items))
           else None |},
      self).

(** The values listed by an override group, after
    [[values] if not isinstance(values, list) else values] and the
    treater. *)
Definition occurrence_values (self : t) (o : occurrence) : list V :=
  treat (treater self)
    match occ_values o with
    | One v => [v]
    | Many l => l
    end.

(** The two item assignments on [min_max_boundaries[value]]; the first
    raises [KeyError] when [value] has no entry. *)
Definition assign_bounds (self : t) (o : occurrence)
    (b : gmap V (bound * bound)) (value : V)
  : Err (gmap V (bound * bound)) :=
  let* _ := getitem (b !! value) in
  Ok (<[value := (Py.get (occ_min_occurrences o) (min_occurrences self),
                  Py.get (occ_max_occurrences o) (max_occurrences self))]>
        b).

Definition global_boundaries (self : t) : gmap V (bound * bound) :=
  foldl (fun b value =>
           <[value := (min_occurrences self, max_occurrences self)]> b)
    ∅ (values self).

Definition dedicated_boundaries (self : t)
    (b : gmap V (bound * bound)) : Err (gmap V (bound * bound)) :=
  for_each (fun b o => for_each (assign_bounds self o) b
                         (occurrence_values self o))
    b (occurrences_per_value self).

Definition _set_min_max_boundaries (self : t) (value_count : gmap V nat)
  : Err t :=
  (* Global boundaries *)
  let min_max_boundaries := global_boundaries self in
  (* Dedicated boundaries *)
  let* min_max_boundaries :=
    dedicated_boundaries self min_max_boundaries in
  Ok (set_min_max_boundaries self min_max_boundaries).

(** The keys of [min_max_boundaries] whose [max_occurrences] is not 0
    (in the order of [map_to_list], not in insertion order). *)
Definition _set_values_scope (self : t) : Err t :=
  let* b := getattr (min_max_boundaries self) in
  let values_col :=
    map fst (filter (fun kv : V * (bound * bound) =>
                       snd (snd kv) ≠ Int 0) (map_to_list b)) in
  Ok (set_values_scope_filter self values_col).

(** The loop of [_check_interval] over [self.values]: every iteration
    reads [self.min_max_boundaries] and [self.rule] anew, so an instance
    without boundaries raises [AttributeError] at the first value, and not
    at all when there is no value. *)
Fixpoint check_interval_loop (self : t) (value_count : gmap V nat)
    (values : list V) : Err bool :=
  match values with
  | [] => Ok true
  | value :: rest =>
      let* b := getattr (min_max_boundaries self) in
      let* (min_value, max_value) := getitem (b !! value) in
      match value_count !! value with
      | Some count =>
          if negb (within min_value count max_value)
          then Ok false
          else check_interval_loop self value_count rest
      | None =>
          if bool_decide (rule self ≠ "only")
             && bool_decide (max_value ≠ Int 0)
             && bool_decide (min_value ≠ Int 0)
          then Ok false
          else check_interval_loop self value_count rest
      end
  end.

Definition _check_interval (self : t) (value_count : gmap V nat)
  : Err bool :=
  check_interval_loop self value_count (values self).

Definition _check_all (self : t) (value_count : gmap V nat) : Err bool :=
  let* scope := getattr (values_scope_filter self) in
  let values_in_col : gset V := dom value_count in
  let values : gset V := list_to_set scope in
  if bool_decide (values ∖ values_in_col ≠ ∅) then Ok false else Ok true.

Definition _check_only (self : t) (value_count : gmap V nat) : Err bool :=
  let* scope := getattr (values_scope_filter self) in
  let values_in_col : gset V := dom value_count in
  let values : gset V := list_to_set scope in
  if bool_decide (values_in_col ∖ values ≠ ∅) then Ok false else Ok true.

(** [_check_rule] falls off its end, returning [None], for a rule that
    is none of the three; [result] takes that for a failure. *)
Definition _check_rule (self : t) (value_count : gmap V nat)
  : Err (option bool) :=
  if bool_decide (rule self = "all")
  then let* r := _check_all self value_count in Ok (Some r)
  else if bool_decide (rule self = "only")
  then let* r := _check_only self value_count in Ok (Some r)
  else if bool_decide (rule self = "all_and_only")
  then let* is_check_all := _check_all self value_count in
       let* is_check_only := _check_only self value_count in
       Ok (Some (is_check_all && is_check_only))
  else Ok None.

(** [result] reads [self.value_count], assigns [min_max_boundaries] and
    [values_scope_filter], and returns the verdict; its [report]
    argument is not used. *)
Definition result (self : t) (report : report_t) : Err (bool * t) :=
  let* value_count := getattr (value_count self) in
  let* self := _set_min_max_boundaries self value_count in
  let* self := _set_values_scope self in
  let* interval := _check_interval self value_count in
  if negb interval then Ok (false, self)
  else
    let* rule_ok := _check_rule self value_count in
    if negb (default false rule_ok) then Ok (false, self)
    else Ok (true, self).

(** [__call__] *)
Definition __call__ (self : t) (df : Frame.DataFrame V)
  : Err (report_t * bool * t) :=
  let* (internal_report, self) := report self df in
  let* (verdict, self) := result self internal_report in
  Ok (internal_report, verdict, self).

End WithValues.

Arguments Treater : clear implicits.
Arguments occurrence : clear implicits.
Arguments one_or_many : clear implicits.
Arguments report_t : clear implicits.

End Contain.

(** ** StatisticInInterval ([deirokay/statements/statistic_in_interval.py]) *)

Module StatisticInInterval.
Import BaseStatement.

Definition cls : StatementClass := {|
  cls_name := "StatisticInInterval";
  name := "statistic_in_interval";
  expected_parameters :=
    ["statistic"; "<"; "<="; ">"; ">="; "=="; "!=";
     "combination_logic"; "atol"; "rtol"];
  table_only := false
|}.

(** The numbers a statistic and its thresholds are made of, with the
    operations [result] applies to them: the four order comparisons, and
    [math.isclose(a, b, abs_tol=atol, rel_tol=rtol)] on two numbers, which
    raises for a negative tolerance. The defaults of [atol] and [rtol] are
    [0.0] and [1e-09]. *)
Class Number (F : Type) : Type := {
  lt : F -> F -> bool;
  le : F -> F -> bool;
  ge : F -> F -> bool;
  gt : F -> F -> bool;
  isclose : F -> F -> F -> F -> Err bool;
  default_atol : F;
  default_rtol : F
}.

(** [str.lower] on ASCII letters. *)
Definition lower_ascii (c : Ascii.ascii) : Ascii.ascii :=
  let n := Ascii.nat_of_ascii c in
  if (65 <=? n)%nat && (n <=? 90)%nat
  then Ascii.ascii_of_nat (n + 32)
  else c.
Fixpoint lower (s : string) : string :=
  match s with
  | EmptyString => EmptyString
  | String c rest => String (lower_ascii c) (lower rest)
  end.

Definition allowed_statistics : list string :=
  ["min"; "max"; "mean"; "std"; "var"; "count";
   "nunique"; "sum"; "median"; "mode"].

(** What a loop body does next: go on, or return from [result]. *)
Inductive flow : Type :=
| Continue
| Return (verdict : bool).

(** The shape shared by the six comparator blocks:
    [if passed: if not and_logic: return True]
    [else: if and_logic: return False]. *)
Definition exit_on (and_logic passed : bool) : flow :=
  if passed
  then if negb and_logic then Return true else Continue
  else if and_logic then Return false else Continue.

(** Statements in sequence: what follows is run unless a [return] was
    reached. *)
Definition and_then (first next : Err flow) : Err flow :=
  let* f := first in
  match f with
  | Continue => next
  | Return b => Ok (Return b)
  end.

Section WithNumbers.
Context {F : Type} `{Number F}.

Record options : Type := {
  common : universal;
  opt_statistic : option string;
  opt_less_than : option F;
  opt_less_or_equal_to : option F;
  opt_greater_than : option F;
  opt_greater_or_equal_to : option F;
  opt_equal_to : option F;
  opt_not_equal_to : option F;
  opt_combination_logic : option string;
  opt_atol : option F;
  opt_rtol : option F
}.

Definition keys (o : options) : list string :=
  universal_keys (common o)
  ++ present "statistic" (opt_statistic o)
  ++ present "<" (opt_less_than o)
  ++ present "<=" (opt_less_or_equal_to o)
  ++ present ">" (opt_greater_than o)
  ++ present ">=" (opt_greater_or_equal_to o)
  ++ present "==" (opt_equal_to o)
  ++ present "!=" (opt_not_equal_to o)
  ++ present "combination_logic" (opt_combination_logic o)
  ++ present "atol" (opt_atol o)
  ++ present "rtol" (opt_rtol o).

Record t : Type := {
  statistic : string;
  combination_logic : string;
  less_than : option F;
  less_or_equal_to : option F;
  equal_to : option F;
  not_equal_to : option F;
  greater_or_equal_to : option F;
  greater_than : option F;
  atol : F;
  rtol : F
}.

Definition __init__ (o : options) : Err t :=
  BaseStatement.__init__ cls (keys o)
    (let* statistic :=
       match opt_statistic o with
       | Some s => Ok s
       | None => Raise KeyError
       end in
     assert (bool_decide (statistic ∈ allowed_statistics)) ;;
     let combination_logic :=
       lower (Py.get (opt_combination_logic o) "and") in
     assert (bool_decide (combination_logic ∈ ["and"; "or"])) ;;
     Ok {| statistic := statistic;
           combination_logic := combination_logic;
           less_than := opt_less_than o;
           less_or_equal_to := opt_less_or_equal_to o;
           equal_to := opt_equal_to o;
           not_equal_to := opt_not_equal_to o;
           greater_or_equal_to := opt_greater_or_equal_to o;
           greater_than := opt_greater_than o;
           atol := Py.get (opt_atol o) default_atol;
           rtol := Py.get (opt_rtol o) default_rtol |}).

(** [report['actual_value']]: one number, a list of numbers, or a list
    of lists of numbers. *)
Inductive actual_value_t : Type :=
| Scalar (v : F)
| Flat (vs : list F)
| Nested (vss : list (list F)).

Record report_t : Type := { actual_value : actual_value_t }.

(** The list [result] iterates over. An empty list raises [IndexError]
    at [actual_value[0]]. *)
Definition measured_values (a : actual_value_t) : Err (list F) :=
  match a with
  | Scalar v => Ok [v]
  | Flat [] => Raise IndexError
  | Flat vs => Ok vs
  | Nested [] => Raise IndexError
  | Nested vss => Ok (concat vss)
  end.

(** [math.isclose(value, threshold, abs_tol=..., rel_tol=...)] where the
    threshold is an attribute that may be [None]: a [None] argument
    raises [TypeError]. *)
Definition math_isclose (value : F) (threshold : option F)
    (abs_tol rel_tol : F) : Err bool :=
  match threshold with
  | None => Raise TypeError
  | Some b => isclose value b abs_tol rel_tol
  end.

Definition and_logic (self : t) : bool :=
  bool_decide (combination_logic self = "and").

(** The conditions of the six blocks. *)
Definition less_than_passes (self : t) (value threshold : F)
  : Err bool := Ok (lt value threshold).
Definition less_or_equal_to_passes (self : t) (value threshold : F)
  : Err bool := Ok (le value threshold).
Definition equal_to_passes (self : t) (value : F) : Err bool :=
  math_isclose value (equal_to self) (atol self) (rtol self).
Definition not_equal_to_passes (self : t) (value : F) : Err bool :=
  let* close :=
    math_isclose value (equal_to self) (atol self) (rtol self) in
  Ok (negb close).
Definition greater_or_equal_to_passes (self : t) (value threshold : F)
  : Err bool := Ok (ge value threshold).
Definition greater_than_passes (self : t) (value threshold : F)
  : Err bool := Ok (gt value threshold).

(** A block: skipped when the comparator is not configured. *)
Definition block {A} (self : t) (configured : option A)
    (passes : A -> Err bool) : Err flow :=
  match configured with
  | None => Ok Continue
  | Some threshold =>
      let* passed := passes threshold in
      Ok (exit_on (and_logic self) passed)
  end.

(** The body of the loop over the measured values. *)
Definition body (self : t) (value : F) : Err flow :=
  and_then (block self (less_than self) (less_than_passes self value))
 (and_then (block self (less_or_equal_to self)
              (less_or_equal_to_passes self value))
 (and_then (block self (equal_to self)
              (fun _ => equal_to_passes self value))
 (and_then (block self (not_equal_to self)
              (fun _ => not_equal_to_passes self value))
 (and_then (block self (greater_or_equal_to self)
              (greater_or_equal_to_passes self value))
           (block self (greater_than self)
              (greater_than_passes self value)))))).

Fixpoint loop (self : t) (values : list F) : Err bool :=
  match values with
  | [] => Ok (and_logic self)
  | value :: rest =>
      let* f := body self value in
      match f with
      | Return verdict => Ok verdict
      | Continue => loop self rest
      end
  end.

Definition result (self : t) (report : report_t) : Err bool :=
  let* values := measured_values (actual_value report) in
  loop self values.

(** The comparisons [result] makes on one value, in the order of the six
    blocks; a comparator that is not configured makes none. *)
Definition comparison {A} (configured : option A) (passes : A -> Err bool)
  : list (Err bool) :=
  match configured with
  | None => []
  | Some threshold => [passes threshold]
  end.

Definition comparisons (self : t) (value : F) : list (Err bool) :=
  (comparison (less_than self) (less_than_passes self value)
   ++ comparison (less_or_equal_to self) (less_or_equal_to_passes self value)
   ++ comparison (equal_to self) (fun _ => equal_to_passes self value)
   ++ comparison (not_equal_to self) (fun _ => not_equal_to_passes self value)
   ++ comparison (greater_or_equal_to self)
        (greater_or_equal_to_passes self value)
   ++ comparison (greater_than self) (greater_than_passes self value))%list.

(** The comparisons over the measured values, value by value. *)
Definition all_comparisons (self : t) (values : list F) : list (Err bool) :=
  concat (map (comparisons self) values).

(** The instance with another threshold for ['!=']. *)
Definition with_not_equal_to (self : t) (threshold : option F) : t :=
  {| statistic := statistic self;
     combination_logic := combination_logic self;
     less_than := less_than self;
     less_or_equal_to := less_or_equal_to self;
     equal_to := equal_to self;
     not_equal_to := threshold;
     greater_or_equal_to := greater_or_equal_to self;
     greater_than := greater_than self;
     atol := atol self;
     rtol := rtol self |}.

(** Whether a comparator with this threshold makes [result] return at
    [value]: under 'and' when the comparison fails, under 'or' when it
    holds. *)
Definition exits_at (self : t) (configured : option F)
    (compare : F -> F -> bool) (value : F) : bool :=
  match configured with
  | None => false
  | Some threshold =>
      Bool.eqb (compare value threshold) (negb (and_logic self))
  end.

End WithNumbers.

(** A sequence of comparisons run until one makes [result] return. *)
Fixpoint first_exit (and_logic : bool) (tests : list (Err bool))
  : Err flow :=
  match tests with
  | [] => Ok Continue
  | test :: rest =>
      and_then (let* passed := test in Ok (exit_on and_logic passed))
        (first_exit and_logic rest)
  end.

(** The outcome of a run of comparisons: the verdict of the first exit,
    or that of the logic when there is none. *)
Definition run (al : bool) (tests : list (Err bool)) : Err bool :=
  let* f := first_exit al tests in
  Ok match f with
     | Return verdict => verdict
     | Continue => al
     end.

Arguments options : clear implicits.
Arguments t : clear implicits.
Arguments report_t : clear implicits.
Arguments actual_value_t : clear implicits.

End StatisticInInterval.

(** ** Exact rationals as numbers

    [pyfloat] as an instance of [StatisticInInterval.Number]: the order
    comparisons are false on [NaN], and [math.isclose] follows its CPython
    definition, evaluated without rounding. *)

Module ExactNumber.
Import StatisticInInterval.

Definition fsub (a b : pyfloat) : pyfloat :=
  match a, b with
  | Fin x, Fin y => Fin (x - y)
  | _, _ => NaN
  end.
Definition fmul (a b : pyfloat) : pyfloat :=
  match a, b with
  | Fin x, Fin y => Fin (x * y)
  | _, _ => NaN
  end.
Definition fabs (a : pyfloat) : pyfloat :=
  match a with
  | Fin x => Fin (Qabs x)
  | NaN => NaN
  end.

Definition isclose (a b abs_tol rel_tol : pyfloat) : Err bool :=
  if flt rel_tol f0 || flt abs_tol f0
  then Raise (ValueError (Text "tolerances must be non-negative"))
  else if feq a b then Ok true
  else
    let diff := fabs (fsub b a) in
    Ok (fle diff (fabs (fmul rel_tol b))
        || fle diff (fabs (fmul rel_tol a))
        || fle diff abs_tol).

#[export] Instance number : Number pyfloat := {|
  lt := flt;
  le := fle;
  ge := fge;
  gt := fun a b => flt b a;
  StatisticInInterval.isclose := isclose;
  default_atol := Fin 0%Q;
  default_rtol := Fin (1 # 1000000000)%Q
|}.

(** Decimal literals of the examples. *)
Definition dec (num : Z) (den : positive) : pyfloat := Fin (num # den)%Q.

End ExactNumber.

(** ** StatisticInInterval: the report and the options *)

Module StatisticInIntervalReport.
Import StatisticInInterval.

(** What pandas and [float] do for [report], on a column [C]:
    [getattr(df[col], statistic)()] gives a result [R]; [float(v)] converts
    the result of a statistic other than ['mode']; for ['mode'] the result
    is a series and [float(vv) for vv in v] converts its elements. Each of
    them may raise. *)
Class Statistics (C R F : Type) : Type := {
  compute : string -> C -> Err R;
  float_of : R -> Err F;
  floats_of : R -> Err (list F)
}.

(** A list comprehension whose element expression may raise. *)
Fixpoint comprehension {A B} (f : A -> Err B) (l : list A) : Err (list B) :=
  match l with
  | [] => Ok []
  | a :: rest =>
      let* b := f a in
      let* bs := comprehension f rest in
      Ok (b :: bs)
  end.

Section WithStatistics.
Context {C R F : Type} `{Statistics C R F}.

(** The list [actual_value] of [report], before it is packed; [df] is
    given as the list of its columns, in the order of [df.columns]. *)
Definition actual_values (self : t F) (df : list C) : Err (list F) :=
  let* actual_value := comprehension (compute (statistic self)) df in
  if bool_decide (statistic self = "mode")
  then let* per_column := comprehension floats_of actual_value in
       Ok (concat per_column)
  else comprehension float_of actual_value.

(** [list(actual_value) if len(actual_value) > 1 else actual_value[0]] *)
Definition pack (actual_value : list F) : Err (actual_value_t F) :=
  if bool_decide (1 < length actual_value)%nat
  then Ok (Flat actual_value)
  else match actual_value with
       | [] => Raise IndexError
       | v :: _ => Ok (Scalar v)
       end.

Definition report (self : t F) (df : list C) : Err (report_t F) :=
  let* actual_value := actual_values self df in
  let* packed := pack actual_value in
  Ok {| actual_value := packed |}.

End WithStatistics.

(** The options with another [combination_logic]. *)
Definition with_combination_logic {F} (o : options F)
    (logic : option string) : options F :=
  {| common := common o;
     opt_statistic := opt_statistic o;
     opt_less_than := opt_less_than o;
     opt_less_or_equal_to := opt_less_or_equal_to o;
     opt_greater_than := opt_greater_than o;
     opt_greater_or_equal_to := opt_greater_or_equal_to o;
     opt_equal_to := opt_equal_to o;
     opt_not_equal_to := opt_not_equal_to o;
     opt_combination_logic := logic;
     opt_atol := opt_atol o;
     opt_rtol := opt_rtol o |}.

End StatisticInIntervalReport.

(** ** Unique, over the arithmetic of floats

    [Unique.report] and [Unique.result] as above, with the floats and
    their operations left to an interface, so that what is proved of them
    holds of the binary64 arithmetic the program runs on, where products
    and quotients are rounded. *)

Module UniqueFloat.
Import BaseStatement.

(** What [report], [result] and [__init__] ask of floats: the float of an
    integer count (numpy converts the integer operand of a product or a
    quotient with a float), the product, the quotient of numpy (a division
    by zero gives a float that is not finite and a warning, not an
    exception), the comparison [>=], and the literal [100.0]. *)
Class Float64 (F : Type) : Type := {
  float_of_count : nat -> F;
  float_mul : F -> F -> F;
  float_div : F -> F -> F;
  float_ge : F -> F -> bool;
  float_100 : F
}.

Section WithFloats.
Context {F : Type} `{Float64 F}.

Record options : Type := {
  common : universal;
  opt_at_least_perc : option F
}.

Definition keys (o : options) : list string :=
  universal_keys (common o) ++ present "at_least_%" (opt_at_least_perc o).

Record t : Type := { at_least_perc : F }.

Definition __init__ (o : options) : Err t :=
  BaseStatement.__init__ Unique.cls (keys o)
    (Ok {| at_least_perc := Py.get (opt_at_least_perc o) float_100 |}).

Record report_t : Type := {
  unique_rows : Z;
  unique_rows_perc : F
}.

Section WithValues.
Context {V : Type} `{Countable V}.

(** [unique = ~df.duplicated(keep=False)];
    ['unique_rows': int(unique.sum())];
    ['unique_rows_%': float(100.0*unique.sum()/len(unique))]. *)
Definition report (self : t) (df : Frame.DataFrame V) : report_t :=
  let unique := Frame.invert (Frame.duplicated_keep_False df) in
  {| unique_rows := Z.of_nat (Frame.sum unique);
     unique_rows_perc :=
       float_div (float_mul float_100 (float_of_count (Frame.sum unique)))
         (float_of_count (length unique)) |}.

End WithValues.

(** [report.get('unique_rows_%') >= self.at_least_perc] *)
Definition result (self : t) (report : report_t) : bool :=
  float_ge (unique_rows_perc report) (at_least_perc self).

End WithFloats.

Arguments options : clear implicits.
Arguments t : clear implicits.
Arguments report_t : clear implicits.

(** Exact rationals as floats, to evaluate examples whose percentages and
    thresholds are far enough apart for rounding not to matter. A quotient
    by zero is [NaN]. *)
Definition exact_div (a b : pyfloat) : pyfloat :=
  match a, b with
  | Fin x, Fin y => if Qeq_bool y 0 then NaN else Fin (x / y)
  | _, _ => NaN
  end.

#[export] Instance exact : Float64 pyfloat := {|
  float_of_count := fun k => Fin (inject_Z (Z.of_nat k));
  float_mul := ExactNumber.fmul;
  float_div := exact_div;
  float_ge := fge;
  float_100 := f100
|}.

End UniqueFloat.

(** ** Sample configurations and frames *)

Module Examples.

(** NotNull instances with the default thresholds. *)
Definition not_null_any : NotNull.t :=
  {| NotNull.at_least_perc := f100; NotNull.at_most_perc := f100;
     NotNull.multicolumn_logic := "any" |}.
Definition not_null_all : NotNull.t :=
  {| NotNull.at_least_perc := f100; NotNull.at_most_perc := f100;
     NotNull.multicolumn_logic := "all" |}.

(** A treater for integer values that are configured as integers. *)
Definition int_treater : Contain.Treater Z Z Z :=
  {| Contain.treat := id; Contain.serialize := id |}.

Definition contain_common : BaseStatement.universal :=
  {| BaseStatement.type_ := Some "contain"; BaseStatement.severity := None;
     BaseStatement.location := None; BaseStatement.other_keys := [] |}.

(** Rule ['only'] on the values 1, 2, 3; a first override group sets a
    minimum of 2 for the values 1 and 2, a second one sets a maximum of 5
    for the value 2. *)
Definition contain_overrides : Contain.options (Raw:=Z) (V:=Z) (Ser:=Z) :=
  {| Contain.common := contain_common;
     Contain.opt_rule := Some "only";
     Contain.opt_values := Some [1; 2; 3];
     Contain.opt_parser := Some int_treater;
     Contain.opt_occurrences_per_value :=
       Some [ {| Contain.occ_values := Contain.Many [1; 2];
                 Contain.occ_min_occurrences := Some (Contain.Int 2);
                 Contain.occ_max_occurrences := None |};
              {| Contain.occ_values := Contain.One 2;
                 Contain.occ_min_occurrences := None;
                 Contain.occ_max_occurrences := Some (Contain.Int 5) |} ];
     Contain.opt_min_occurrences := None;
     Contain.opt_max_occurrences := None;
     Contain.opt_verbose := None |}.

(** Rule ['only'] on the values 1 and 2, with a minimum of 3 occurrences
    for the value 2. *)
Definition contain_only_min : Contain.options (Raw:=Z) (V:=Z) (Ser:=Z) :=
  {| Contain.common := contain_common;
     Contain.opt_rule := Some "only";
     Contain.opt_values := Some [1; 2];
     Contain.opt_parser := Some int_treater;
     Contain.opt_occurrences_per_value :=
       Some [ {| Contain.occ_values := Contain.One 2;
                 Contain.occ_min_occurrences := Some (Contain.Int 3);
                 Contain.occ_max_occurrences := None |} ];
     Contain.opt_min_occurrences := None;
     Contain.opt_max_occurrences := None;
     Contain.opt_verbose := None |}.

Definition contain_only_min_instance
  : Contain.t (Raw:=Z) (V:=Z) (Ser:=Z) :=
  {| Contain.rule := "only"; Contain.treater := int_treater;
     Contain.values := [1; 2];
     Contain.min_occurrences := Contain.Int 0;
     Contain.max_occurrences := Contain.Inf;
     Contain.occurrences_per_value :=
       [ {| Contain.occ_values := Contain.One 2;
            Contain.occ_min_occurrences := Some (Contain.Int 3);
            Contain.occ_max_occurrences := None |} ];
     Contain.verbose := true; Contain.value_count := None;
     Contain.min_max_boundaries := None;
     Contain.values_scope_filter := None |}.

(** [{'type': 'statistic_in_interval', 'statistic': 'mean', '<': 0,
    '!=': 5}] and the same with ['combination_logic': 'or'] and ['<': 2]. *)
Definition interval_common : BaseStatement.universal :=
  {| BaseStatement.type_ := Some "statistic_in_interval";
     BaseStatement.severity := None; BaseStatement.location := None;
     BaseStatement.other_keys := [] |}.

Definition interval_options (logic : option string) (less not_equal : Z)
  : StatisticInInterval.options pyfloat :=
  {| StatisticInInterval.common := interval_common;
     StatisticInInterval.opt_statistic := Some "mean";
     StatisticInInterval.opt_less_than := Some (Fin (inject_Z less));
     StatisticInInterval.opt_less_or_equal_to := None;
     StatisticInInterval.opt_greater_than := None;
     StatisticInInterval.opt_greater_or_equal_to := None;
     StatisticInInterval.opt_equal_to := None;
     StatisticInInterval.opt_not_equal_to := Some (Fin (inject_Z not_equal));
     StatisticInInterval.opt_combination_logic := logic;
     StatisticInInterval.opt_atol := None;
     StatisticInInterval.opt_rtol := None |}.

(** The instances the constructor builds from these options. *)
Definition interval_instance (logic : string) (less not_equal : Z)
  : StatisticInInterval.t pyfloat :=
  {| StatisticInInterval.statistic := "mean";
     StatisticInInterval.combination_logic := logic;
     StatisticInInterval.less_than := Some (Fin (inject_Z less));
     StatisticInInterval.less_or_equal_to := None;
     StatisticInInterval.equal_to := None;
     StatisticInInterval.not_equal_to := Some (Fin (inject_Z not_equal));
     StatisticInInterval.greater_or_equal_to := None;
     StatisticInInterval.greater_than := None;
     StatisticInInterval.atol := Fin 0%Q;
     StatisticInInterval.rtol := Fin (1 # 1000000000)%Q |}.

(** [{'statistic': 'mean', '>': 0.4, '<': 0.6}] *)
Definition between_instance : StatisticInInterval.t pyfloat :=
  {| StatisticInInterval.statistic := "mean";
     StatisticInInterval.combination_logic := "and";
     StatisticInInterval.less_than := Some (Fin (6 # 10));
     StatisticInInterval.less_or_equal_to := None;
     StatisticInInterval.equal_to := None;
     StatisticInInterval.not_equal_to := None;
     StatisticInInterval.greater_or_equal_to := None;
     StatisticInInterval.greater_than := Some (Fin (4 # 10));
     StatisticInInterval.atol := Fin 0%Q;
     StatisticInInterval.rtol := Fin (1 # 1000000000)%Q |}.

(** [{'statistic': 'count', '==': 5, '!=': 7, 'combination_logic': 'or'}] *)
Definition equal_and_not_equal_instance : StatisticInInterval.t pyfloat :=
  {| StatisticInInterval.statistic := "count";
     StatisticInInterval.combination_logic := "or";
     StatisticInInterval.less_than := None;
     StatisticInInterval.less_or_equal_to := None;
     StatisticInInterval.equal_to := Some (Fin 5%Q);
     StatisticInInterval.not_equal_to := Some (Fin 7%Q);
     StatisticInInterval.greater_or_equal_to := None;
     StatisticInInterval.greater_than := None;
     StatisticInInterval.atol := Fin 0%Q;
     StatisticInInterval.rtol := Fin (1 # 1000000000)%Q |}.

Definition scalar_report (q : Q) : StatisticInInterval.report_t pyfloat :=
  {| StatisticInInterval.actual_value :=
       StatisticInInterval.Scalar (Fin q) |}.

(** A treater for string values that are configured as strings. *)
Definition str_treater : Contain.Treater string string string :=
  {| Contain.treat := id; Contain.serialize := id |}.

(** [{'type': 'contain', 'rule': rule, 'values': values, 'parser': ...}]
    with the override groups [overrides]. *)
Definition contain_strings (rule : string) (values : list string)
    (overrides : option (list (Contain.occurrence string)))
  : Contain.options (Raw:=string) (V:=string) (Ser:=string) :=
  {| Contain.common := contain_common;
     Contain.opt_rule := Some rule;
     Contain.opt_values := Some values;
     Contain.opt_parser := Some str_treater;
     Contain.opt_occurrences_per_value := overrides;
     Contain.opt_min_occurrences := None;
     Contain.opt_max_occurrences := None;
     Contain.opt_verbose := None |}.

(** One column holding the given values. *)
Definition one_column {V} (values : list (option V)) : Frame.DataFrame V :=
  map (fun v => [v]) values.

(** The verdict of a statement built from [o] and run on [df]. *)
Definition contain_verdict
    (o : Contain.options (Raw:=string) (V:=string) (Ser:=string))
    (df : Frame.DataFrame string) : Err bool :=
  let* self := Contain.__init__ o in
  let* (detail, verdict, _) := Contain.__call__ self df in
  Ok verdict.

Definition not_null_verdict (at_least : Q) (df : Frame.DataFrame Z)
  : Err (pyfloat * bool) :=
  let* self :=
    NotNull.__init__
      {| NotNull.common := BaseStatement.no_universal;
         NotNull.opt_at_least_perc := Some (Fin at_least);
         NotNull.opt_at_most_perc := None;
         NotNull.opt_multicolumn_logic := None |} in
  let report := NotNull.report self df in
  Ok (NotNull.not_null_rows_perc report, NotNull.result self report).

(** The report [{'actual_value': 1.0}]. *)
Definition one_value : StatisticInInterval.report_t pyfloat :=
  {| StatisticInInterval.actual_value :=
       StatisticInInterval.Scalar (Fin 1%Q) |}.

(** [{'statistic': 'count', '==': 5, '!=': 7}], with the default logic *)
Definition equal_and_not_equal_and_instance
  : StatisticInInterval.t pyfloat :=
  {| StatisticInInterval.statistic := "count";
     StatisticInInterval.combination_logic := "and";
     StatisticInInterval.less_than := None;
     StatisticInInterval.less_or_equal_to := None;
     StatisticInInterval.equal_to := Some (Fin 5%Q);
     StatisticInInterval.not_equal_to := Some (Fin 7%Q);
     StatisticInInterval.greater_or_equal_to := None;
     StatisticInInterval.greater_than := None;
     StatisticInInterval.atol := Fin 0%Q;
     StatisticInInterval.rtol := Fin (1 # 1000000000)%Q |}.

End Examples.

(** A decidable proposition about concrete data, settled by evaluating its
    decision procedure. *)
Ltac by_evaluation :=
  apply (bool_decide_unpack _); vm_compute; exact I.

(** * Properties *)

(** ** Option validation *)

Module BaseStatementFacts.
Import BaseStatement.

Lemma filter_nil_iff (c : StatementClass) (keys : list string) :
  filter (fun option => option ∉ allowed_parameters c) keys = []
  <-> Forall (fun k => k ∈ allowed_parameters c) keys.
Proof.
  induction keys as [|k keys IH]; simpl.
  - split; [constructor | reflexivity].
  - rewrite filter_cons.
    destruct (decide (k ∉ allowed_parameters c)) as [Hk|Hk].
    + split; [discriminate |]. intros HF. inversion HF; subst. contradiction.
    + rewrite IH. split.
      * intros HF. constructor; [| exact HF].
        destruct (decide (k ∈ allowed_parameters c));
          [assumption | contradiction].
      * intros HF. inversion HF; assumption.
Qed.

(** C5, as the code has it. A configuration with a key outside the
    statement's own [expected_parameters] and the universal ones makes
    [_validate_options], and with it every constructor, raise a
    [ValueError] whose message carries the class name, the offending keys
    in the order of the configuration, and the statement's own
    [expected_parameters] (the universal keys are not listed); a
    configuration whose keys are all allowed passes validation. *)
Theorem validate_options_spec (c : StatementClass) (keys : list string) :
  (Exists (fun k => k ∉ allowed_parameters c) keys ->
     let unexpected :=
       filter (fun k => k ∉ allowed_parameters c) keys in
     unexpected <> []
     /\ (forall k, k ∈ unexpected <-> k ∈ keys /\ k ∉ allowed_parameters c)
     /\ _validate_options c keys
        = Raise (ValueError (InvalidParameters (cls_name c) unexpected
                               (expected_parameters c)))
     /\ forall (A : Type) (rest : Err A),
          __init__ c keys rest
          = Raise (ValueError (InvalidParameters (cls_name c) unexpected
                                 (expected_parameters c))))
  /\ (Forall (fun k => k ∈ allowed_parameters c) keys ->
        _validate_options c keys = Ok tt
        /\ forall (A : Type) (rest : Err A), __init__ c keys rest = rest).
Proof.
  split.
  - intros HE unexpected.
    assert (Hne : unexpected <> []).
    { intros Hnil. apply filter_nil_iff in Hnil.
      apply Exists_exists in HE as (k & Hin & Hk).
      rewrite Forall_forall in Hnil. apply Hk, Hnil.
      exact Hin. }
    assert (Hv : _validate_options c keys
                 = Raise (ValueError (InvalidParameters (cls_name c)
                            unexpected (expected_parameters c)))).
    { unfold _validate_options. fold unexpected.
      destruct unexpected; [contradiction | reflexivity]. }
    split; [exact Hne |]. split.
    { intros k. unfold unexpected. rewrite list_elem_of_filter. tauto. }
    split; [exact Hv |].
    intros A rest. unfold __init__. rewrite Hv. reflexivity.
  - intros HF. apply filter_nil_iff in HF.
    assert (Hv : _validate_options c keys = Ok tt).
    { unfold _validate_options. rewrite HF. reflexivity. }
    split; [exact Hv |].
    intros A rest. unfold __init__. rewrite Hv. reflexivity.
Qed.

Lemma validate_options_spec_witness :
  _validate_options NotNull.cls ["type"; "at_most"; "at_least_%"; "scope"]
  = Raise (ValueError (InvalidParameters "NotNull" ["at_most"; "scope"]
             ["at_least_%"; "at_most_%"; "multicolumn_logic"]))
  /\ _validate_options NotNull.cls ["type"; "at_least_%"; "severity"]
     = Ok tt.
Proof.
  split.
  - refine (proj1 (proj2 (proj2
      (proj1 (validate_options_spec NotNull.cls
                ["type"; "at_most"; "at_least_%"; "scope"]) _)))).
    apply Exists_cons_tl, Exists_cons_hd. by_evaluation.
  - refine (proj1 (proj2 (validate_options_spec NotNull.cls
              ["type"; "at_least_%"; "severity"]) _)).
    repeat constructor; by_evaluation.
Defined.

(** C5, as stated, fails: the message of the error lists the statement's
    own parameters and leaves out the universal keys, which are allowed. *)
Lemma validate_options_message_omits_universal_keys :
  ~ (exists cls_name unexpected valid,
       _validate_options Unique.cls ["foo"]
       = Raise (ValueError (InvalidParameters cls_name unexpected valid))
       /\ forall k, k ∈ allowed_parameters Unique.cls -> k ∈ valid).
Proof.
  intros (n & u & v & Heq & Hall).
  vm_compute in Heq. injection Heq as _ _ Hv. subst v.
  specialize (Hall "type").
  assert (Hin : "type" ∈ allowed_parameters Unique.cls).
  { by_evaluation. }
  apply Hall in Hin. revert Hin. by_evaluation.
Qed.

End BaseStatementFacts.

(** ** RowCount *)

Module RowCountFacts.
Import BaseStatement RowCount.

Lemma profile_keys {Row} (df : list Row) :
  keys (profile df) = ["type"; "min"; "max"].
Proof. reflexivity. Qed.

Lemma profile_validates {Row} (df : list Row) :
  _validate_options cls (keys (profile df)) = Ok tt.
Proof. rewrite profile_keys. vm_compute. reflexivity. Qed.

(** C7. For every DataFrame, the statement built from
    [RowCount.profile(df)] has [min = max = len(df)], and its [result] on
    [report(df)] of that same DataFrame is true. *)
Theorem profile_round_trip {Row} (df : list Row) :
  opt_min (profile df) = Some (Z.of_nat (length df))
  /\ opt_max (profile df) = Some (Z.of_nat (length df))
  /\ (let* self := RowCount.__init__ (profile df) in
      Ok (result self (report self df))) = Ok true.
Proof.
  split; [reflexivity |]. split; [reflexivity |].
  unfold RowCount.__init__, BaseStatement.__init__.
  rewrite profile_validates. simpl.
  unfold result, report. simpl.
  rewrite Z.leb_refl. reflexivity.
Qed.

End RowCountFacts.

(** ** Frames: rows, masks and counts *)

Module FrameFacts.
Import Frame.

Lemma lookup_map {A B} (f : A -> B) (l : list A) (i : nat) :
  map f l !! i = option_map f (l !! i).
Proof.
  revert i. induction l as [|a l IH]; intros [|i]; simpl; auto.
Qed.

Lemma sum_cons (b : bool) (mask : list bool) :
  sum (b :: mask) = ((if b then 1 else 0) + sum mask)%nat.
Proof.
  unfold sum. rewrite filter_cons.
  destruct b; destruct (decide _); simpl; congruence.
Qed.

Lemma sum_le_length (mask : list bool) : (sum mask <= length mask)%nat.
Proof. unfold sum. apply length_filter. Qed.

Lemma sum_invert (mask : list bool) :
  (sum (invert mask) + sum mask = length mask)%nat.
Proof.
  induction mask as [|b mask IH]; [reflexivity |].
  change (invert (b :: mask)) with (negb b :: invert mask).
  rewrite !sum_cons. destruct b; simpl; lia.
Qed.

(** [sum] counts the rows on which the mask's predicate holds. *)
Lemma sum_map {A} (p : A -> bool) (l : list A) :
  sum (map p l) = length (filter (fun a => p a = true) l).
Proof.
  induction l as [|a l IH]; [reflexivity |].
  simpl map. rewrite sum_cons, filter_cons, IH.
  destruct (p a); destruct (decide _); simpl; congruence.
Qed.

Lemma sum_zero (mask : list bool) :
  sum mask = O <-> Forall (fun b => b = false) mask.
Proof.
  induction mask as [|b mask IH].
  - split; [constructor | reflexivity].
  - rewrite sum_cons. destruct b; simpl.
    + split; [lia |]. intros HF. inversion HF; discriminate.
    + rewrite IH. split.
      * intros HF. constructor; [reflexivity | exact HF].
      * intros HF. inversion HF; assumption.
Qed.

Lemma sum_full (mask : list bool) :
  sum mask = length mask <-> Forall (fun b => b = true) mask.
Proof.
  induction mask as [|b mask IH].
  - split; [constructor | reflexivity].
  - rewrite sum_cons. pose proof (sum_le_length mask) as Hle.
    destruct b; simpl.
    + split.
      * intros Hs. constructor; [reflexivity |]. apply IH. lia.
      * intros HF. inversion HF; subst. f_equal. by apply IH.
    + split; [lia |]. intros HF. inversion HF; discriminate.
Qed.

Section Rows.
Context {V : Type} `{Countable V}.
Implicit Types (df : DataFrame V) (r : row V).

Lemma occurrences_cons r r' df :
  occurrences r (r' :: df)
  = ((if decide (r' = r) then 1 else 0) + occurrences r df)%nat.
Proof.
  unfold occurrences. rewrite filter_cons.
  destruct (decide (r' = r)); reflexivity.
Qed.

Lemma occurrences_pos r df i :
  df !! i = Some r -> (1 <= occurrences r df)%nat.
Proof.
  revert i. induction df as [|r' df IH]; intros [|i] Hi;
    try discriminate; rewrite occurrences_cons.
  - injection Hi as ->. rewrite decide_True by reflexivity. lia.
  - specialize (IH i Hi). lia.
Qed.

Lemma occurrences_pos_inv r df :
  (1 <= occurrences r df)%nat -> exists i, df !! i = Some r.
Proof.
  induction df as [|r' df IH]; rewrite ?occurrences_cons.
  - unfold occurrences; simpl; lia.
  - destruct (decide (r' = r)) as [->|Hne].
    + intros _. by exists O.
    + intros Hocc. destruct IH as [i Hi]; [lia |]. by exists (S i).
Qed.

(** Two distinct positions holding [r] make [r] occur twice. *)
Lemma occurrences_two r df i j :
  (i < j)%nat -> df !! i = Some r -> df !! j = Some r ->
  (2 <= occurrences r df)%nat.
Proof.
  revert i j. induction df as [|r' df IH]; intros i j Hlt Hi Hj;
    [discriminate |].
  rewrite occurrences_cons.
  destruct i as [|i], j as [|j]; try lia.
  - injection Hi as ->. rewrite decide_True by reflexivity.
    pose proof (occurrences_pos r df j Hj). lia.
  - assert (2 <= occurrences r df)%nat by (apply (IH i j); [lia | done..]).
    lia.
Qed.

Lemma occurrences_two_inv r df :
  (2 <= occurrences r df)%nat ->
  exists i j, (i < j)%nat /\ df !! i = Some r /\ df !! j = Some r.
Proof.
  induction df as [|r' df IH]; rewrite ?occurrences_cons.
  - unfold occurrences; simpl; lia.
  - destruct (decide (r' = r)) as [->|Hne].
    + intros Hocc.
      destruct (occurrences_pos_inv r df) as [j Hj]; [lia |].
      exists O, (S j). repeat split; [lia | done..].
    + intros Hocc. destruct IH as (i & j & Hlt & Hi & Hj); [lia |].
      exists (S i), (S j). repeat split; [lia | done..].
Qed.

(** A row is alone iff no other position holds an identical row. *)
Lemma occurrences_one r df i :
  df !! i = Some r ->
  (occurrences r df = 1%nat <-> forall j, df !! j = Some r -> j = i).
Proof.
  intros Hi. pose proof (occurrences_pos r df i Hi) as Hpos. split.
  - intros Hone j Hj.
    destruct (Nat.lt_trichotomy i j) as [Hlt|[Heq|Hgt]]; [| done |].
    + pose proof (occurrences_two r df i j Hlt Hi Hj). lia.
    + pose proof (occurrences_two r df j i Hgt Hj Hi). lia.
  - intros Huniq.
    destruct (decide (2 <= occurrences r df)%nat) as [Htwo|]; [| lia].
    destruct (occurrences_two_inv r df Htwo) as (a & b & Hlt & Ha & Hb).
    apply Huniq in Ha, Hb. lia.
Qed.

Lemma unique_mask_lookup df i r :
  empty df = false ->
  df !! i = Some r ->
  invert (duplicated_keep_False df) !! i
  = Some (bool_decide (occurrences r df = 1%nat)).
Proof.
  intros Hempty Hi. unfold invert, duplicated_keep_False. rewrite Hempty.
  rewrite !lookup_map, Hi. simpl. f_equal.
  pose proof (occurrences_pos r df i Hi).
  destruct (decide (1 < occurrences r df)%nat).
  - rewrite bool_decide_eq_true_2 by done.
    rewrite bool_decide_eq_false_2 by lia. reflexivity.
  - rewrite bool_decide_eq_false_2 by done.
    rewrite bool_decide_eq_true_2 by lia. reflexivity.
Qed.

Lemma unique_mask_sum df :
  empty df = false ->
  sum (invert (duplicated_keep_False df))
  = length (filter (fun r => occurrences r df = 1%nat) df).
Proof.
  intros Hempty. unfold invert, duplicated_keep_False. rewrite Hempty.
  rewrite map_map, sum_map.
  assert (Hgen : forall l : DataFrame V,
            (forall r, r ∈ l -> 1 <= occurrences r df)%nat ->
            length (filter (fun r =>
               negb (bool_decide (1 < occurrences r df)%nat) = true) l)
            = length (filter (fun r => occurrences r df = 1%nat) l)).
  { induction l as [|r l IH]; intros Hl; [reflexivity |].
    rewrite !filter_cons.
    pose proof (Hl r ltac:(left)) as Hr.
    assert (Hrest : forall r0, r0 ∈ l -> (1 <= occurrences r0 df)%nat)
      by (intros; apply Hl; by right).
    specialize (IH Hrest).
    destruct (decide (occurrences r df = 1%nat)) as [Hone|Hmany].
    - rewrite decide_True; [simpl; congruence |].
      rewrite bool_decide_eq_false_2 by lia. reflexivity.
    - rewrite decide_False; [exact IH |].
      rewrite bool_decide_eq_true_2 by lia. simpl. discriminate. }
  apply Hgen. intros r Hr.
  apply list_elem_of_lookup in Hr as [i Hi].
  by apply (occurrences_pos r df i).
Qed.

Lemma length_unique_mask df :
  empty df = false ->
  length (invert (duplicated_keep_False df)) = length df.
Proof.
  intros Hempty. unfold invert, duplicated_keep_False. rewrite Hempty.
  by rewrite !length_map.
Qed.

Lemma not_empty_rows df : empty df = false -> df <> [].
Proof. by destruct df. Qed.

End Rows.
End FrameFacts.

(** ** Percentages *)

Module PyFacts.

Lemma Zpos_of_nat_S (n : nat) : Z.pos (Pos.of_nat (S n)) = Z.of_nat (S n).
Proof. rewrite <- Pos.of_nat_succ, Zpos_P_of_succ_nat. lia. Qed.

Lemma percent_S (k n : nat) :
  percent k (S n) = Fin (100 * Z.of_nat k # Pos.of_nat (S n)).
Proof. reflexivity. Qed.

(** The percentage is [0.0] exactly when the count is 0 of a positive
    total. *)
Lemma percent_zero (k n : nat) :
  feq (percent k n) f0 = true <-> n <> O /\ k = O.
Proof.
  destruct n as [|n]; simpl.
  - split; [discriminate | intros [Hn _]; contradiction].
  - rewrite Qeq_bool_iff. unfold Qeq. simpl Qnum. simpl Qden.
    split.
    + intros Hq. split; [discriminate | lia].
    + intros [_ ->]. reflexivity.
Qed.

(** The percentage is [100.0] exactly when the count is the whole of a
    positive total. *)
Lemma percent_hundred (k n : nat) :
  feq (percent k n) f100 = true <-> n <> O /\ k = n.
Proof.
  destruct n as [|n].
  - simpl. split; [discriminate | intros [Hn _]; contradiction].
  - rewrite percent_S. unfold f100, feq. rewrite Qeq_bool_iff.
    unfold Qeq. simpl Qnum. simpl Qden. rewrite Zpos_of_nat_S.
    split.
    + intros Hq. split; [discriminate | lia].
    + intros [_ ->]. lia.
Qed.

End PyFacts.

(** ** Unique *)

Module UniqueFacts.
Import BaseStatement FrameFacts UniqueFloat.

Section WithValues.
Context {F : Type} `{Float64 F} {V : Type} `{Countable V}.

(** C8. On a DataFrame that is not empty (it has rows, and columns), for
    an instance the constructor returns, and whatever the arithmetic of
    floats: the mask of [report] marks a row unique iff no other position
    holds an identical row, so every member of a group of two or more
    identical rows is not unique; [unique_rows] is the number of rows that
    occur once; the reported percentage is the float of
    [100.0 * unique_rows / len(df)]; and [result] passes iff that
    percentage is [>=] the threshold [at_least_%] of the options, which is
    [100.0] when the option is absent and the configured value
    otherwise. *)
Theorem report_result_spec (o : options F) (self : t F)
    (df : Frame.DataFrame V) :
  UniqueFloat.__init__ o = Ok self ->
  Frame.empty df = false ->
  let unique := Frame.invert (Frame.duplicated_keep_False df) in
  let alone :=
    length (filter (fun r => Frame.occurrences r df = 1%nat) df) in
  let percentage :=
    float_div (float_mul float_100 (float_of_count alone))
      (float_of_count (length df)) in
  (forall i r, df !! i = Some r ->
     (unique !! i = Some true <-> forall j, df !! j = Some r -> j = i))
  /\ (forall i j r, i <> j -> df !! i = Some r -> df !! j = Some r ->
        unique !! i = Some false)
  /\ unique_rows (report self df) = Z.of_nat alone
  /\ unique_rows_perc (report self df) = percentage
  /\ result self (report self df)
     = float_ge percentage (Py.get (opt_at_least_perc o) float_100)
  /\ (opt_at_least_perc o = None ->
      (result self (report self df) = true
       <-> float_ge percentage float_100 = true))
  /\ (forall threshold,
        opt_at_least_perc o = Some threshold ->
        (result self (report self df) = true
         <-> float_ge percentage threshold = true)).
Proof.
  intros Hinit Hne unique alone percentage.
  assert (Hmask : forall i r, df !! i = Some r ->
            (unique !! i = Some true
             <-> forall j, df !! j = Some r -> j = i)).
  { intros i r Hi. unfold unique.
    rewrite (unique_mask_lookup df i r Hne Hi).
    rewrite <- (occurrences_one r df i Hi). split.
    - intros Heq. injection Heq as Heq. by apply bool_decide_eq_true in Heq.
    - intros Hone. f_equal. by apply bool_decide_eq_true. }
  assert (Hself : at_least_perc self
                  = Py.get (opt_at_least_perc o) float_100).
  { revert Hinit. unfold UniqueFloat.__init__, BaseStatement.__init__.
    destruct (_validate_options Unique.cls (keys o)); simpl;
      [| discriminate].
    intros Heq. by injection Heq as <-. }
  assert (Hperc : unique_rows_perc (report self df) = percentage).
  { unfold report, percentage, alone. simpl.
    by rewrite (unique_mask_sum df Hne), (length_unique_mask df Hne). }
  assert (Hresult : result self (report self df)
            = float_ge percentage (Py.get (opt_at_least_perc o) float_100)).
  { unfold result. by rewrite Hperc, Hself. }
  split; [exact Hmask |]. split.
  { intros i j r Hij Hi Hj. unfold unique.
    rewrite (unique_mask_lookup df i r Hne Hi). f_equal.
    apply bool_decide_eq_false. intros Hone.
    pose proof (proj1 (occurrences_one r df i Hi) Hone) as Huniq.
    apply Hij. symmetry. by apply Huniq. }
  split.
  { unfold report. simpl. by rewrite (unique_mask_sum df Hne). }
  split; [exact Hperc |]. split; [exact Hresult |]. split.
  - intros Hopt. rewrite Hresult, Hopt. reflexivity.
  - intros threshold Hopt. rewrite Hresult, Hopt. reflexivity.
Qed.

End WithValues.

(** Three rows of one column, two of them identical, and a threshold of
    50: one row is unique, and the percentage, a third of 100, is below the
    threshold. *)
Lemma report_result_spec_witness :
  let o := {| common := no_universal;
              opt_at_least_perc := Some (Fin 50%Q) |} in
  let self := {| at_least_perc := Fin 50%Q |} in
  let df : Frame.DataFrame Z := [[Some 7]; [Some 8]; [Some 7]] in
  UniqueFloat.__init__ o = Ok self
  /\ unique_rows (report self df) = 1
  /\ result self (report self df) = false.
Proof.
  intros o self df.
  assert (Hinit : UniqueFloat.__init__ o = Ok self)
    by (vm_compute; reflexivity).
  destruct (report_result_spec o self df Hinit eq_refl)
    as (_ & _ & Hrows & _ & Hresult & _).
  split; [exact Hinit |]. split.
  - rewrite Hrows. vm_compute. reflexivity.
  - rewrite Hresult. vm_compute. reflexivity.
Defined.

End UniqueFacts.

(** ** NotNull *)

Module NotNullFacts.
Import BaseStatement Frame NotNull FrameFacts PyFacts.

Section WithValues.
Context {V : Type} `{Countable V}.

Lemma all_isnull (r : Frame.row V) :
  forallb id (map (fun c : option V => bool_decide (c = None)) r) = true
  <-> all_null r.
Proof.
  unfold all_null. induction r as [|c r IH]; simpl.
  - split; [constructor | reflexivity].
  - rewrite andb_true_iff, IH. unfold id. rewrite bool_decide_eq_true.
    split.
    + intros [Hc Hr]. by constructor.
    + intros HF. inversion HF; by subst.
Qed.

(** The mask of the rows that have a cell that is not null. *)
Lemma any_mask_lookup (df : Frame.DataFrame V) (i : nat) (r : Frame.row V) :
  df !! i = Some r ->
  Frame.invert (Frame.all_axis1 (Frame.isnull df)) !! i
  = Some (bool_decide (~ all_null r)).
Proof.
  intros Hi. unfold Frame.invert, Frame.all_axis1, Frame.isnull.
  rewrite !lookup_map, Hi. simpl. f_equal.
  destruct (decide (all_null r)) as [Hr|Hr].
  - rewrite (proj2 (all_isnull r) Hr).
    symmetry. apply bool_decide_eq_false. tauto.
  - rewrite bool_decide_eq_true_2 by done.
    destruct (forallb id _) eqn:Hf; [| reflexivity].
    apply all_isnull in Hf. contradiction.
Qed.

Lemma any_mask_zero (df : Frame.DataFrame V) :
  Frame.sum (Frame.invert (Frame.all_axis1 (Frame.isnull df))) = O
  <-> Forall all_null df.
Proof.
  rewrite sum_zero.
  unfold Frame.invert, Frame.all_axis1, Frame.isnull.
  induction df as [|r df IH]; simpl.
  - split; constructor.
  - split; intros HF; inversion HF as [|? ? Hhd Htl]; subst;
      (constructor; [| by apply IH]).
    + apply negb_false_iff in Hhd. by apply all_isnull.
    + apply negb_false_iff. by apply all_isnull.
Qed.

Lemma any_mask_full (df : Frame.DataFrame V) :
  Frame.sum (Frame.invert (Frame.all_axis1 (Frame.isnull df))) = length df
  <-> Forall (fun r => ~ all_null r) df.
Proof.
  assert (Hlen : length (Frame.invert (Frame.all_axis1 (Frame.isnull df)))
                 = length df).
  { unfold Frame.invert, Frame.all_axis1, Frame.isnull.
    by rewrite !length_map. }
  rewrite <- Hlen, sum_full.
  unfold Frame.invert, Frame.all_axis1, Frame.isnull.
  clear Hlen. induction df as [|r df IH]; simpl.
  - split; constructor.
  - split; intros HF; inversion HF as [|? ? Hhd Htl]; subst;
      (constructor; [| by apply IH]).
    + apply negb_true_iff in Hhd. intros Hr. apply all_isnull in Hr.
      congruence.
    + apply negb_true_iff. destruct (forallb id _) eqn:Hf; [| reflexivity].
      apply all_isnull in Hf. contradiction.
Qed.

(** [NotNull.profile] of [deirokay/statements.py] counts the rows in the
    same way and writes the logic ['any'] into the statement. *)
Lemma profile_statements_py_any (df : Frame.DataFrame V) :
  opt_multicolumn_logic (profile_statements_py df) = Some "any"
  /\ opt_at_least_perc (profile_statements_py df)
     = Some (not_null_rows_perc (report Examples.not_null_any df))
  /\ opt_at_most_perc (profile_statements_py df)
     = Some (not_null_rows_perc (report Examples.not_null_any df)).
Proof.
  unfold profile_statements_py, report, not_nulls. simpl.
  repeat split; do 2 f_equal;
    unfold Frame.invert, Frame.all_axis1, Frame.isnull;
    by rewrite !length_map.
Qed.

(** C6, as the code has it. [profile] counts a row as not null when at
    least one of its cells is not null, which is what [report] does under
    the multicolumn logic ['any'], the default: with [p] the not-null
    percentage of that report, [profile] raises "Statement is useless when
    all rows are null." when [p] is [0.0] (the sample has rows and every
    cell is null), and otherwise returns a statement whose [at_least_%] is
    [p], left out when [p] is [100.0] (the sample has rows and each has a
    cell that is not null). *)
Theorem profile_spec (self : t) (df : Frame.DataFrame V) :
  multicolumn_logic self = "any" ->
  let p := not_null_rows_perc (report self df) in
  (forall i r, df !! i = Some r ->
     (not_nulls (multicolumn_logic self) df !! i = Some true
      <-> ~ all_null r))
  /\ profile df
     = (if feq p f0
        then Raise (NotImplementedError
                      "Statement is useless when all rows are null.")
        else Ok (inferred (if feq p f100 then None else Some p)))
  /\ (feq p f0 = true <-> df <> [] /\ Forall all_null df)
  /\ (feq p f100 = true <-> df <> [] /\ Forall (fun r => ~ all_null r) df).
Proof.
  intros Hany p.
  assert (Hmask : not_nulls (multicolumn_logic self) df
                  = Frame.invert (Frame.all_axis1 (Frame.isnull df))).
  { rewrite Hany. reflexivity. }
  assert (Hp : p = percent
                 (Frame.sum (Frame.invert (Frame.all_axis1 (Frame.isnull df))))
                 (length df)).
  { unfold p, report. simpl. rewrite Hmask. f_equal.
    unfold Frame.invert, Frame.all_axis1, Frame.isnull.
    by rewrite !length_map. }
  assert (Hlen : length (Frame.invert (Frame.all_axis1 (Frame.isnull df)))
                 = length df).
  { unfold Frame.invert, Frame.all_axis1, Frame.isnull.
    by rewrite !length_map. }
  assert (Hnil : length df <> O <-> df <> []).
  { destruct df; simpl; split; congruence. }
  split.
  { intros i r Hi. rewrite Hmask, (any_mask_lookup df i r Hi). split.
    - intros Heq. injection Heq as Heq. by apply bool_decide_eq_true in Heq.
    - intros Hr. f_equal. by apply bool_decide_eq_true. }
  split.
  { unfold profile. rewrite Hlen, <- Hp. unfold fne.
    destruct (feq p f0); [reflexivity |].
    destruct (feq p f100); reflexivity. }
  split.
  - rewrite Hp, percent_zero, any_mask_zero, Hnil. reflexivity.
  - rewrite Hp, percent_hundred, any_mask_full, Hnil. reflexivity.
Qed.

End WithValues.

(** Two rows of two columns, one row with a value: half of the rows are not
    null. *)
Lemma profile_spec_witness :
  profile (V:=Z) [[Some 1; None]; [None; None]]
  = Ok (inferred (Some (Fin (100 # 2)))).
Proof.
  destruct (profile_spec (V:=Z) Examples.not_null_any
              [[Some 1; None]; [None; None]] eq_refl) as (_ & Hprofile & _).
  rewrite Hprofile. reflexivity.
Defined.

(** C6, as stated, fails: a row with one null cell and one value is null
    under the logic ['all'], so the sample is 100% null there, and yet
    [profile] returns a statement. *)
Lemma profile_not_all_logic :
  let df : Frame.DataFrame Z := [[Some 1; None]] in
  not_null_rows_perc (report Examples.not_null_all df) = Fin (0 # 1)
  /\ profile df = Ok (inferred None)
  /\ ~ (feq (not_null_rows_perc (report Examples.not_null_all df)) f0 = true ->
        exists msg, profile df = Raise (NotImplementedError msg)).
Proof.
  repeat split.
  intros Hclaim. destruct Hclaim as [msg Hmsg]; [reflexivity |].
  discriminate Hmsg.
Qed.

End NotNullFacts.

(** ** Contain *)

Module ContainFacts.
Import BaseStatement Contain.

Section WithValues.
Context {Raw V Ser : Type} `{Countable V}.

Local Abbreviation t := (Contain.t (Raw:=Raw) (V:=V) (Ser:=Ser)).
Local Abbreviation boundaries := (gmap V (bound * bound)).

(** *** Boundary resolution *)

(** Case analysis on the membership tests of a goal. *)
Ltac decide_membership :=
  repeat case_decide; try done; exfalso; set_unfold; intuition congruence.

(** The pair an override group assigns. *)
Local Abbreviation override self g :=
  (Py.get (occ_min_occurrences g) (min_occurrences self),
   Py.get (occ_max_occurrences g) (max_occurrences self)).

Lemma global_boundaries_fold (self : t) (l : list V) (b : boundaries) (v : V) :
  foldl (fun b value =>
           <[value := (min_occurrences self, max_occurrences self)]> b) b l
  !! v
  = if decide (v ∈ l)
    then Some (min_occurrences self, max_occurrences self)
    else b !! v.
Proof.
  revert b. induction l as [|x l IH]; intros b; simpl.
  - reflexivity.
  - rewrite IH. destruct (decide (v = x)) as [->|Hne].
    + rewrite lookup_insert_eq. decide_membership.
    + rewrite lookup_insert_ne by done.
      decide_membership.
Qed.

Lemma global_boundaries_lookup (self : t) (v : V) :
  global_boundaries self !! v
  = if decide (v ∈ values self)
    then Some (min_occurrences self, max_occurrences self)
    else None.
Proof.
  unfold global_boundaries. rewrite global_boundaries_fold.
  destruct (decide _); [reflexivity | apply lookup_empty].
Qed.

(** One override group: it succeeds iff every listed value has an entry,
    and then re-assigns the listed values and no other. *)
Lemma assign_group_ok (self : t) (g : occurrence Raw) (vs : list V)
    (b b' : boundaries) :
  for_each (assign_bounds self g) b vs = Ok b' ->
  (forall v, v ∈ vs -> is_Some (b !! v))
  /\ (forall v, b' !! v
                = if decide (v ∈ vs) then Some (override self g) else b !! v)
  /\ (forall v, is_Some (b' !! v) <-> is_Some (b !! v)).
Proof.
  revert b. induction vs as [|x vs IH]; intros b; simpl.
  - intros Heq. injection Heq as <-. split; [| split].
    + intros v Hv. by apply elem_of_nil in Hv.
    + reflexivity.
    + reflexivity.
  - unfold assign_bounds at 1. destruct (b !! x) as [p|] eqn:Hx; simpl;
      [| discriminate].
    intros Hrest. destruct (IH _ Hrest) as (Hdom & Hlook & Hsome).
    assert (Hins : forall v,
              is_Some (<[x := override self g]> b !! v) <-> is_Some (b !! v)).
    { intros v. destruct (decide (v = x)) as [->|Hne].
      - rewrite lookup_insert_eq, Hx. split; eauto.
      - by rewrite lookup_insert_ne. }
    split; [| split].
    + intros v Hv. apply elem_of_cons in Hv as [->|Hv]; [by rewrite Hx |].
      apply Hins, Hdom, Hv.
    + intros v. rewrite Hlook. destruct (decide (v = x)) as [->|Hne].
      * rewrite lookup_insert_eq. decide_membership.
      * rewrite lookup_insert_ne by done.
        decide_membership.
    + intros v. rewrite Hsome. apply Hins.
Qed.

Lemma assign_group_total (self : t) (g : occurrence Raw) (vs : list V)
    (b : boundaries) :
  (forall v, v ∈ vs -> is_Some (b !! v)) ->
  exists b', for_each (assign_bounds self g) b vs = Ok b'.
Proof.
  revert b. induction vs as [|x vs IH]; intros b Hdom; simpl.
  - by exists b.
  - unfold assign_bounds at 1.
    destruct (Hdom x ltac:(left)) as [p Hx]. rewrite Hx. simpl.
    apply IH. intros v Hv. destruct (decide (v = x)) as [->|Hne].
    + rewrite lookup_insert_eq. eauto.
    + rewrite lookup_insert_ne by done. apply Hdom. by right.
Qed.

(** All the override groups, in their order: a value keeps the pair of the
    last group that lists it. *)
Lemma dedicated_boundaries_ok (self : t) (groups : list (occurrence Raw))
    (b b' : boundaries) :
  for_each (fun b g => for_each (assign_bounds self g) b
                         (occurrence_values self g)) b groups = Ok b' ->
  (forall v, (forall g, g ∈ groups -> v ∉ occurrence_values self g) ->
             b' !! v = b !! v)
  /\ (forall pre g post v,
        groups = (pre ++ g :: post)%list ->
        v ∈ occurrence_values self g ->
        (forall g', g' ∈ post -> v ∉ occurrence_values self g') ->
        b' !! v = Some (override self g))
  /\ (forall v, is_Some (b' !! v) <-> is_Some (b !! v)).
Proof.
  revert b. induction groups as [|o rest IH]; intros b; simpl.
  - intros Heq. injection Heq as <-. split; [| split].
    + reflexivity.
    + intros [|? ?] ? ? ? Hnil; discriminate Hnil.
    + reflexivity.
  - destruct (for_each (assign_bounds self o) b (occurrence_values self o))
      as [b1|e] eqn:Hgroup; simpl; [| discriminate].
    intros Hrest.
    destruct (assign_group_ok self o _ b b1 Hgroup) as (_ & Hlook1 & Hsome1).
    destruct (IH b1 Hrest) as (Hout & Hlast & Hsome).
    split; [| split].
    + intros v Hv. rewrite Hout.
      * rewrite Hlook1. case_decide as Hd; [| reflexivity].
        exfalso. revert Hd. apply Hv. left.
      * intros g Hg. apply Hv. by right.
    + intros pre g post v Hsplit Hin Hpost.
      destruct pre as [|o' pre]; simpl in Hsplit;
        injection Hsplit as -> ->.
      * rewrite (Hout v Hpost), Hlook1. by case_decide.
      * by apply (Hlast pre g post v).
    + intros v. rewrite Hsome. apply Hsome1.
Qed.

Lemma dedicated_boundaries_total (self : t) (groups : list (occurrence Raw))
    (b : boundaries) :
  (forall g v, g ∈ groups -> v ∈ occurrence_values self g ->
               is_Some (b !! v)) ->
  exists b', for_each (fun b g => for_each (assign_bounds self g) b
                                    (occurrence_values self g)) b groups
             = Ok b'.
Proof.
  revert b. induction groups as [|o rest IH]; intros b Hdom; simpl.
  - by exists b.
  - destruct (assign_group_total self o (occurrence_values self o) b)
      as [b1 Hb1].
    { intros v Hv. apply (Hdom o v); [left | done]. }
    rewrite Hb1. simpl. apply IH. intros g v Hg Hv.
    destruct (assign_group_ok self o _ b b1 Hb1) as (_ & _ & Hsome).
    apply Hsome. apply (Hdom g v); [by right | done].
Qed.

Lemma init_inv (o : options) (self : t) :
  Contain.__init__ o = Ok self ->
  opt_rule o = Some (rule self)
  /\ rule self ∈ ["all"; "only"; "all_and_only"]
  /\ _set_default_minmax_occurrences (rule self)
       (opt_min_occurrences o) (opt_max_occurrences o)
     = Ok (min_occurrences self, max_occurrences self)
  /\ (exists raw, opt_values o = Some raw
                  /\ values self = treat (treater self) raw)
  /\ occurrences_per_value self = Py.get (opt_occurrences_per_value o) [].
Proof.
  unfold Contain.__init__, BaseStatement.__init__.
  destruct (_validate_options cls (keys o)); cbn [Py.bind]; [| discriminate].
  destruct (opt_rule o) as [r|]; cbn [Py.bind getitem]; [| discriminate].
  destruct (opt_parser o) as [tr|]; cbn [Py.bind getitem]; [| discriminate].
  destruct (opt_values o) as [raw|]; cbn [Py.bind getitem]; [| discriminate].
  destruct (_set_default_minmax_occurrences r _ _) as [[mn mx]|] eqn:Hdef;
    cbn [Py.bind]; [| discriminate].
  unfold _assert_parameters, assert.
  destruct (bool_decide (r ∈ ["all"; "only"; "all_and_only"])) eqn:Hrule;
    cbn [Py.bind]; [| discriminate].
  destruct (ble (Int 0) mn); cbn [Py.bind]; [| discriminate].
  destruct (ble (Int 0) mx); cbn [Py.bind]; [| discriminate].
  intros Heq. injection Heq as <-. simpl.
  apply bool_decide_eq_true in Hrule.
  repeat split; try done. by exists raw.
Qed.

(** C2. For an instance built by the constructor: the global pair is the
    configured one, with minimum 1 under the rules ['all'] and
    ['all_and_only'], minimum 0 under ['only'] and maximum infinity where it
    is not configured; [_set_min_max_boundaries] gives every value of
    [values] that no override group lists the global pair, gives a value
    listed by override groups the pair of the last group that lists it, each
    side falling back to the global one where the group does not set it, and
    gives no other value an entry; and it returns whenever the override
    groups list values of [values] only. *)
Theorem set_min_max_boundaries_spec (o : options) (self : t)
    (value_count : gmap V nat) :
  Contain.__init__ o = Ok self ->
  ((opt_min_occurrences o = None ->
      (rule self = "all" -> min_occurrences self = Int 1)
      /\ (rule self = "only" -> min_occurrences self = Int 0)
      /\ (rule self = "all_and_only" -> min_occurrences self = Int 1))
   /\ (opt_max_occurrences o = None -> max_occurrences self = Inf)
   /\ (forall m, opt_min_occurrences o = Some m -> min_occurrences self = m)
   /\ (forall m, opt_max_occurrences o = Some m -> max_occurrences self = m))
  /\ (forall self',
        _set_min_max_boundaries self value_count = Ok self' ->
        exists b,
          min_max_boundaries self' = Some b
          /\ (forall v,
                v ∈ values self ->
                (forall g, g ∈ occurrences_per_value self ->
                           v ∉ occurrence_values self g) ->
                b !! v = Some (min_occurrences self, max_occurrences self))
          /\ (forall pre g post v,
                occurrences_per_value self = (pre ++ g :: post)%list ->
                v ∈ occurrence_values self g ->
                (forall g', g' ∈ post -> v ∉ occurrence_values self g') ->
                b !! v
                = Some (Py.get (occ_min_occurrences g) (min_occurrences self),
                        Py.get (occ_max_occurrences g) (max_occurrences self)))
          /\ (forall v, v ∉ values self -> b !! v = None))
  /\ ((forall g v, g ∈ occurrences_per_value self ->
                   v ∈ occurrence_values self g -> v ∈ values self) ->
      exists self', _set_min_max_boundaries self value_count = Ok self').
Proof.
  intros Hinit.
  destruct (init_inv o self Hinit) as (_ & Hrule & Hdef & _ & _).
  split; [| split].
  - revert Hdef. unfold _set_default_minmax_occurrences.
    unfold min_occurrences_rule_default, max_occurrences_rule_default.
    destruct (opt_min_occurrences o) as [m|], (opt_max_occurrences o) as [m'|];
      repeat case_bool_decide; simpl; intros Hdef; try discriminate;
      injection Hdef as <- <-; repeat split; congruence.
  - intros self' Hset. unfold _set_min_max_boundaries in Hset.
    destruct (dedicated_boundaries self (global_boundaries self))
      as [b|e] eqn:Hded; simpl in Hset; [| discriminate].
    injection Hset as <-. exists b. split; [reflexivity |].
    destruct (dedicated_boundaries_ok self _ _ b Hded)
      as (Hout & Hlast & Hsome).
    split; [| split].
    + intros v Hv Hno. rewrite (Hout v Hno), global_boundaries_lookup.
      by case_decide.
    + exact Hlast.
    + intros v Hv. destruct (b !! v) as [p|] eqn:Hb; [| reflexivity].
      exfalso. assert (Hs : is_Some (b !! v)) by (rewrite Hb; eauto).
      apply Hsome in Hs. rewrite global_boundaries_lookup in Hs.
      case_decide; [contradiction |]. by destruct Hs.
  - intros Hlisted.
    destruct (dedicated_boundaries_total self (occurrences_per_value self)
                (global_boundaries self)) as [b Hb].
    { intros g v Hg Hv. rewrite global_boundaries_lookup.
      rewrite decide_True by (by apply (Hlisted g v)). eauto. }
    exists (set_min_max_boundaries self b).
    unfold _set_min_max_boundaries, dedicated_boundaries. by rewrite Hb.
Qed.

(** *** The interval check *)

Lemma boundaries_cover_values (self self' : t) (vc : gmap V nat) :
  _set_min_max_boundaries self vc = Ok self' ->
  exists b, min_max_boundaries self' = Some b
            /\ rule self' = rule self
            /\ values self' = values self
            /\ forall v, v ∈ values self -> is_Some (b !! v).
Proof.
  unfold _set_min_max_boundaries.
  destruct (dedicated_boundaries self (global_boundaries self))
    as [b|e] eqn:Hded; simpl; [| discriminate].
  intros Heq. injection Heq as <-. exists b. repeat split.
  intros v Hv.
  destruct (dedicated_boundaries_ok self _ _ b Hded) as (_ & _ & Hsome).
  apply Hsome. rewrite global_boundaries_lookup.
  rewrite decide_True by done. eauto.
Qed.

Lemma check_interval_loop_spec (self : t) (b : boundaries)
    (vc : gmap V nat) (values : list V) :
  min_max_boundaries self = Some b ->
  (forall v, v ∈ values -> is_Some (b !! v)) ->
  exists verdict,
    check_interval_loop self vc values = Ok verdict
    /\ (verdict = true <->
        forall v mn mx, v ∈ values -> b !! v = Some (mn, mx) ->
          match vc !! v with
          | Some count => within mn count mx = true
          | None => ~ (rule self <> "only" /\ mx <> Int 0 /\ mn <> Int 0)
          end).
Proof.
  intros Hbound.
  induction values as [|x values IH]; intros Hcover.
  - exists true. split; [reflexivity |]. split; [| reflexivity].
    intros _ v mn mx Hv. by apply elem_of_nil in Hv.
  - destruct (Hcover x ltac:(left)) as [[mn mx] Hx].
    destruct IH as (verdict & Hloop & Hverdict).
    { intros v Hv. apply Hcover. by right. }
    simpl. rewrite Hbound. simpl. rewrite Hx. simpl.
    destruct (vc !! x) as [count|] eqn:Hcount.
    + destruct (within mn count mx) eqn:Hwithin; simpl.
      * exists verdict. split; [exact Hloop |]. rewrite Hverdict. split.
        -- intros Hrest v mn' mx' Hv Hb.
           apply elem_of_cons in Hv as [->|Hv]; [| by apply Hrest].
           rewrite Hx in Hb. injection Hb as <- <-. by rewrite Hcount.
        -- intros Hall v mn' mx' Hv Hb. apply Hall; [by right | done].
      * exists false. split; [reflexivity |]. split; [discriminate |].
        intros Hall. specialize (Hall x mn mx ltac:(left) Hx).
        rewrite Hcount in Hall. congruence.
    + destruct (bool_decide (rule self <> "only")
                && bool_decide (mx <> Int 0)
                && bool_decide (mn <> Int 0)) eqn:Hmissing.
      * exists false. split; [reflexivity |]. split; [discriminate |].
        intros Hall. specialize (Hall x mn mx ltac:(left) Hx).
        rewrite Hcount in Hall. exfalso. apply Hall.
        apply andb_true_iff in Hmissing as [Hmissing Hmn].
        apply andb_true_iff in Hmissing as [Hrule Hmx].
        apply bool_decide_eq_true in Hrule, Hmx, Hmn. done.
      * exists verdict. split; [exact Hloop |]. rewrite Hverdict. split.
        -- intros Hrest v mn' mx' Hv Hb.
           apply elem_of_cons in Hv as [->|Hv]; [| by apply Hrest].
           rewrite Hx in Hb. injection Hb as <- <-. rewrite Hcount.
           intros (Hrule & Hmx & Hmn).
           rewrite !bool_decide_eq_true_2 in Hmissing by done.
           discriminate.
        -- intros Hall v mn' mx' Hv Hb. apply Hall; [by right | done].
Qed.

(** C1. Once the boundaries are resolved, [_check_interval] returns, and it
    returns true exactly when every expected value passes: a value that is
    observed has its frequency between its resolved minimum and maximum; a
    value that is not observed fails only when the rule is not ['only'] and
    both of its resolved bounds are not 0. Under the rule ['only'] the
    verdict is therefore settled by the observed values alone, whatever
    minimum an override gives to a value that is absent. *)
Theorem check_interval_spec (self self' : t) (vc value_count : gmap V nat) :
  _set_min_max_boundaries self vc = Ok self' ->
  exists b verdict,
    min_max_boundaries self' = Some b
    /\ (forall v, v ∈ values self -> is_Some (b !! v))
    /\ _check_interval self' value_count = Ok verdict
    /\ (verdict = true <->
        forall v mn mx, v ∈ values self -> b !! v = Some (mn, mx) ->
          match value_count !! v with
          | Some count =>
              ble mn (Int (Z.of_nat count)) = true
              /\ ble (Int (Z.of_nat count)) mx = true
          | None => ~ (rule self <> "only" /\ mx <> Int 0 /\ mn <> Int 0)
          end)
    /\ (rule self = "only" ->
        (verdict = true <->
         forall v mn mx count,
           v ∈ values self -> b !! v = Some (mn, mx) ->
           value_count !! v = Some count ->
           ble mn (Int (Z.of_nat count)) = true
           /\ ble (Int (Z.of_nat count)) mx = true)).
Proof.
  intros Hset.
  destruct (boundaries_cover_values self self' vc Hset)
    as (b & Hb & Hrule & Hvalues & Hcover).
  rewrite <- Hvalues in Hcover.
  destruct (check_interval_loop_spec self' b value_count (values self')
              Hb Hcover) as (verdict & Hloop & Hverdict).
  rewrite Hrule, Hvalues in Hverdict. rewrite Hvalues in Hcover.
  exists b, verdict.
  assert (Hiff : verdict = true <->
            forall v mn mx, v ∈ values self -> b !! v = Some (mn, mx) ->
              match value_count !! v with
              | Some count =>
                  ble mn (Int (Z.of_nat count)) = true
                  /\ ble (Int (Z.of_nat count)) mx = true
              | None =>
                  ~ (rule self <> "only" /\ mx <> Int 0 /\ mn <> Int 0)
              end).
  { rewrite Hverdict. split; intros Hall v mn mx Hv Hbv;
      specialize (Hall v mn mx Hv Hbv);
      destruct (value_count !! v); try done;
      unfold within in *; by apply andb_true_iff. }
  split; [exact Hb |]. split; [exact Hcover |]. split.
  { exact Hloop. }
  split; [exact Hiff |].
  intros Honly. rewrite Hiff. split.
  - intros Hall v mn mx count Hv Hbv Hcount.
    specialize (Hall v mn mx Hv Hbv). by rewrite Hcount in Hall.
  - intros Hobs v mn mx Hv Hbv.
    destruct (value_count !! v) as [count|] eqn:Hcount.
    + by apply (Hobs v mn mx count).
    + intros (Hrule' & _). by apply Hrule'.
Qed.

(** *** The report argument of [result] *)

(** C9. After [report(df)] has returned on an instance, [result] gives the
    same outcome for any two reports, the empty one included: the instance
    holds the frequency map of [df], whatever an earlier [report] or
    [result] had stored on it, and [result] reads that map and not its
    argument. *)
Theorem result_ignores_report (self self1 : t) (df : Frame.DataFrame V)
    (internal_report report1 report2 : report_t Ser) :
  report self df = Ok (internal_report, self1) ->
  result self1 report1 = result self1 report2
  /\ result self1 report1 = result self1 empty_report
  /\ (exists series,
        Frame.pooled df = Ok series
        /\ value_count self1 = Some (Frame.value_counts series))
  /\ (forall df0 report0 self0,
        report self df0 = Ok (report0, self0) ->
        report self0 df = Ok (internal_report, self1))
  /\ (forall b scope,
        result (set_values_scope_filter (set_min_max_boundaries self1 b)
                  scope) report1
        = result self1 report2)
  /\ __call__ self df
     = (let* (verdict, self2) := result self1 report1 in
        Ok (internal_report, verdict, self2)).
Proof.
  unfold report. intros Hreport.
  destruct (Frame.pooled df) as [series|e] eqn:Hpooled; simpl in Hreport;
    [| discriminate].
  injection Hreport as <- <-.
  split; [reflexivity |]. split; [reflexivity |].
  split; [by exists series |].
  split.
  { intros df0 report0 self0 Hreport0.
    destruct (Frame.pooled df0) as [series0|e0]; simpl in Hreport0;
      [| discriminate].
    injection Hreport0 as <- <-. reflexivity. }
  split.
  { intros b scope. unfold result. simpl. unfold _set_min_max_boundaries.
    set (self1 := set_value_count self (Frame.value_counts series)).
    change (dedicated_boundaries
              (set_values_scope_filter (set_min_max_boundaries self1 b) scope)
              (global_boundaries
                 (set_values_scope_filter (set_min_max_boundaries self1 b)
                    scope)))
      with (dedicated_boundaries self1 (global_boundaries self1)).
    destruct (dedicated_boundaries self1 (global_boundaries self1));
      reflexivity. }
  unfold __call__, report. rewrite Hpooled. reflexivity.
Qed.

End WithValues.

(** The instance built from [Examples.contain_overrides]: the value 2 has
    the maximum of the later group and the global minimum, not the minimum
    of the earlier group; the value 1 keeps the pair of the first group; the
    value 3 has the global pair of the rule ['only']. *)
Lemma set_min_max_boundaries_spec_witness :
  exists (self self' : Contain.t (Raw:=Z) (V:=Z) (Ser:=Z))
         (b : gmap Z (bound * bound)),
    Contain.__init__ Examples.contain_overrides = Ok self
    /\ _set_min_max_boundaries self (∅ : gmap Z nat) = Ok self'
    /\ min_max_boundaries self' = Some b
    /\ b !! 1 = Some (Int 2, Inf)
    /\ b !! 2 = Some (Int 0, Int 5)
    /\ b !! 3 = Some (Int 0, Inf)
    /\ b !! 4 = None.
Proof.
  assert (Hinit : exists self,
            Contain.__init__ Examples.contain_overrides = Ok self
            /\ values self = [1; 2; 3]
            /\ min_occurrences self = Int 0 /\ max_occurrences self = Inf
            /\ occurrences_per_value self
               = [ {| occ_values := Many [1; 2];
                      occ_min_occurrences := Some (Int 2);
                      occ_max_occurrences := None |};
                   {| occ_values := One 2;
                      occ_min_occurrences := None;
                      occ_max_occurrences := Some (Int 5) |} ]
            /\ treater self = Examples.int_treater).
  { eexists. split; [vm_compute; reflexivity |]. repeat split. }
  destruct Hinit as (self & Hinit & Hvalues & Hmin & Hmax & Hgroups & Htreat).
  destruct (set_min_max_boundaries_spec Examples.contain_overrides self
              (∅ : gmap Z nat) Hinit) as (_ & Hresolve & Htotal).
  destruct Htotal as [self' Hset].
  { intros g v Hg Hv. rewrite Hgroups in Hg. rewrite Hvalues.
    unfold occurrence_values in Hv. rewrite Htreat in Hv.
    set_unfold. destruct Hg as [->|[->|[]]]; simpl in Hv; set_unfold; tauto. }
  destruct (Hresolve self' Hset) as (b & Hb & Hglobal & Hlast & Hnone).
  exists self, self', b.
  split; [exact Hinit |]. split; [exact Hset |]. split; [exact Hb |].
  assert (Hvals : forall g, occurrence_values self g
                            = match occ_values g with
                              | One v => [v]
                              | Many l => l
                              end).
  { intros g. unfold occurrence_values. by rewrite Htreat. }
  split; [| split; [| split]].
  - rewrite (Hlast [] _ _ 1 Hgroups); rewrite ?Hvals, ?Hmin, ?Hmax; simpl.
    + reflexivity.
    + set_unfold. tauto.
    + intros g' Hg'. rewrite Hvals. set_unfold. destruct Hg' as [->|[]].
      simpl. set_unfold. lia.
  - rewrite (Hlast [_] _ [] 2 Hgroups); rewrite ?Hvals, ?Hmin, ?Hmax; simpl.
    + reflexivity.
    + set_unfold. tauto.
    + intros g' Hg'. by apply elem_of_nil in Hg'.
  - rewrite (Hglobal 3); rewrite ?Hvalues, ?Hmin, ?Hmax;
      [reflexivity | set_unfold; tauto |].
    intros g Hg. rewrite Hgroups in Hg. rewrite Hvals.
    set_unfold. destruct Hg as [->|[->|[]]]; simpl; set_unfold; lia.
  - apply Hnone. rewrite Hvalues. set_unfold. lia.
Defined.

(** The instance built from [Examples.contain_only_min], rule ['only']: the
    value 2 has a minimum of 3 and does not occur, and the interval check
    passes. *)
Lemma check_interval_spec_witness :
  exists self' : Contain.t (Raw:=Z) (V:=Z) (Ser:=Z),
    Contain.__init__ Examples.contain_only_min
    = Ok Examples.contain_only_min_instance
    /\ _set_min_max_boundaries Examples.contain_only_min_instance
         (∅ : gmap Z nat) = Ok self'
    /\ _check_interval self' ({[ 1 := 1%nat ]} : gmap Z nat) = Ok true.
Proof.
  destruct (_set_min_max_boundaries Examples.contain_only_min_instance
              (∅ : gmap Z nat)) as [self'|e] eqn:Hset;
    [| vm_compute in Hset; discriminate Hset].
  exists self'. split; [vm_compute; reflexivity |]. split; [reflexivity |].
  destruct (check_interval_spec Examples.contain_only_min_instance self'
              (∅ : gmap Z nat) ({[ 1 := 1%nat ]} : gmap Z nat) Hset)
    as (b & verdict & Hb & _ & Hcheck & _ & Honly).
  rewrite Hcheck. f_equal. apply Honly; [reflexivity |].
  intros v mn mx count Hv Hbv Hcount.
  apply lookup_singleton_Some in Hcount as [<- <-].
  vm_compute in Hset. injection Hset as <-.
  injection Hb as <-. vm_compute in Hbv. injection Hbv as <- <-.
  split; reflexivity.
Defined.

(** One column holding the value 1 once: [report] returns, and [result]
    gives for the report it returned what it gives for the empty one. *)
Lemma result_ignores_report_witness :
  exists (internal_report : report_t Z)
         (self1 : Contain.t (Raw:=Z) (V:=Z) (Ser:=Z)),
    report Examples.contain_only_min_instance [[Some 1]]
    = Ok (internal_report, self1)
    /\ result self1 internal_report = result self1 empty_report.
Proof.
  destruct (report Examples.contain_only_min_instance [[Some 1]])
    as [[internal_report self1]|e] eqn:Hreport;
    [| vm_compute in Hreport; discriminate Hreport].
  exists internal_report, self1. split; [reflexivity |].
  exact (proj1 (result_ignores_report Examples.contain_only_min_instance
                  self1 [[Some 1]] internal_report internal_report
                  empty_report Hreport)).
Defined.

End ContainFacts.

(** ** StatisticInInterval *)

Module StatisticInIntervalFacts.
Import BaseStatement StatisticInInterval.

Lemma and_then_continue (m : Err flow) : and_then m (Ok Continue) = m.
Proof. destruct m as [[|b]|e]; reflexivity. Qed.

Lemma and_then_assoc (a b c : Err flow) :
  and_then (and_then a b) c = and_then a (and_then b c).
Proof. destruct a as [[|v]|e]; reflexivity. Qed.

Lemma first_exit_app (al : bool) (l1 l2 : list (Err bool)) :
  first_exit al (l1 ++ l2)%list
  = and_then (first_exit al l1) (first_exit al l2).
Proof.
  induction l1 as [|x l1 IH]; simpl.
  - by destruct (first_exit al l2) as [[|v]|e].
  - by rewrite IH, and_then_assoc.
Qed.

(** The comparisons that pass, one after the other, do not make [result]
    return under 'and'; those that fail do not under 'or'. *)
Lemma first_exit_prefix (al : bool) (pre : list (Err bool)) :
  Forall (fun test => test = Ok al) pre -> first_exit al pre = Ok Continue.
Proof.
  induction 1 as [|x pre -> _ IH]; simpl; [reflexivity |].
  rewrite IH. by destruct al.
Qed.

Section WithNumbers.
Context {F : Type} `{Number F}.

Lemma block_first_exit {A} (self : t F) (configured : option A)
    (passes : A -> Err bool) :
  block self configured passes
  = first_exit (and_logic self) (comparison configured passes).
Proof.
  destruct configured as [a|]; simpl; [| reflexivity].
  by rewrite and_then_continue.
Qed.

Lemma body_first_exit (self : t F) (value : F) :
  body self value = first_exit (and_logic self) (comparisons self value).
Proof.
  unfold body, comparisons.
  by rewrite !first_exit_app, !block_first_exit.
Qed.

(** [result] runs the comparisons in order, up to the first that makes it
    return; when none does, the verdict is that of the logic. *)
Lemma loop_first_exit (self : t F) (values : list F) :
  loop self values
  = let* f := first_exit (and_logic self) (all_comparisons self values) in
    Ok match f with
       | Return verdict => verdict
       | Continue => and_logic self
       end.
Proof.
  induction values as [|value values IH]; [reflexivity |].
  unfold all_comparisons. simpl.
  rewrite first_exit_app, <- body_first_exit.
  destruct (body self value) as [[|v]|e]; simpl; [| reflexivity..].
  exact IH.
Qed.

Lemma and_logic_or (self : t F) :
  combination_logic self = "or" -> and_logic self = false.
Proof. intros Hor. unfold and_logic. by rewrite Hor. Qed.

Lemma and_logic_and (self : t F) :
  combination_logic self = "and" -> and_logic self = true.
Proof. intros Hand. unfold and_logic. by rewrite Hand. Qed.

(** C4. With the comparisons of the configured comparators taken value by
    value in the order [result] makes them: under 'and', the first one that
    fails makes [result] return false, whatever comes after it; under 'or',
    the first one that passes makes [result] return true; when every
    comparison passes under 'and', or fails under 'or', the loop runs to
    its end and [result] returns true under 'and' and false under 'or'. *)
Theorem combination_logic_spec (self : t F) (report : report_t F)
    (values : list F) :
  measured_values (actual_value report) = Ok values ->
  (combination_logic self = "and" ->
     (forall pre rest,
        all_comparisons self values = (pre ++ Ok false :: rest)%list ->
        Forall (fun test => test = Ok true) pre ->
        result self report = Ok false)
     /\ (Forall (fun test => test = Ok true) (all_comparisons self values) ->
         result self report = Ok true))
  /\ (combination_logic self = "or" ->
        (forall pre rest,
           all_comparisons self values = (pre ++ Ok true :: rest)%list ->
           Forall (fun test => test = Ok false) pre ->
           result self report = Ok true)
        /\ (Forall (fun test => test = Ok false)
              (all_comparisons self values) ->
            result self report = Ok false)).
Proof.
  intros Hvalues. unfold result. rewrite Hvalues. simpl.
  rewrite loop_first_exit. split.
  - intros Hand. rewrite (and_logic_and self Hand). split.
    + intros pre rest -> Hpre.
      rewrite first_exit_app, (first_exit_prefix true pre Hpre).
      reflexivity.
    + intros Hall. by rewrite (first_exit_prefix true _ Hall).
  - intros Hor. rewrite (and_logic_or self Hor). split.
    + intros pre rest -> Hpre.
      rewrite first_exit_app, (first_exit_prefix false pre Hpre).
      reflexivity.
    + intros Hall. by rewrite (first_exit_prefix false _ Hall).
Qed.

(** C3. With both ['=='] and ['!='] configured, the condition of the
    ['!='] block is the negation of the tolerance test of the value against
    the ['=='] threshold: it passes exactly when the value is not close to
    that threshold, and the ['!='] threshold takes no part in [result].
    In [result] itself, on a report whose first measured value gets past
    the ['<'] and ['<='] blocks: under 'and', a value close to the ['==']
    threshold makes [result] return false at the ['!='] block; under 'or',
    a value that is not close to the ['=='] threshold makes [result] return
    true at the ['!='] block; either way the verdict is the opposite of the
    one the logic gives a run without exit. Without the ['!='] comparator,
    and with ['=='] alone, the verdict on one value is the tolerance test
    against the ['=='] threshold. *)
Theorem not_equal_to_compares_with_equal_to (self : t F) (e n value : F) :
  equal_to self = Some e ->
  not_equal_to self = Some n ->
  not_equal_to_passes self value
  = (let* close := isclose value e (atol self) (rtol self) in
     Ok (negb close))
  /\ (not_equal_to_passes self value = Ok true
      <-> isclose value e (atol self) (rtol self) = Ok false)
  /\ (not_equal_to_passes self value = Ok false
      <-> isclose value e (atol self) (rtol self) = Ok true)
  /\ block self (not_equal_to self) (fun _ => not_equal_to_passes self value)
     = (let* close := isclose value e (atol self) (rtol self) in
        Ok (exit_on (and_logic self) (negb close)))
  /\ (forall n' report,
        result (with_not_equal_to self (Some n')) report
        = result self report)
  /\ (forall report rest,
        measured_values (actual_value report) = Ok (value :: rest) ->
        exits_at self (less_than self) lt value = false ->
        exits_at self (less_or_equal_to self) le value = false ->
        result self report
        = (let* close := isclose value e (atol self) (rtol self) in
           Ok (negb (and_logic self)))
        /\ (combination_logic self = "and" ->
            isclose value e (atol self) (rtol self) = Ok true ->
            result self report = Ok false)
        /\ (combination_logic self <> "and" ->
            isclose value e (atol self) (rtol self) = Ok false ->
            result self report = Ok true))
  /\ (forall report,
        measured_values (actual_value report) = Ok [value] ->
        less_than self = None -> less_or_equal_to self = None ->
        greater_or_equal_to self = None -> greater_than self = None ->
        result (with_not_equal_to self None) report
        = isclose value e (atol self) (rtol self)).
Proof.
  intros He Hn.
  assert (Hpasses : not_equal_to_passes self value
                    = (let* close := isclose value e (atol self) (rtol self) in
                       Ok (negb close))).
  { unfold not_equal_to_passes, math_isclose. by rewrite He. }
  split; [exact Hpasses |]. rewrite Hpasses.
  split; [| split; [| split; [| split; [| split]]]].
  - destruct (isclose value e (atol self) (rtol self)) as [[|]|err]; simpl;
      split; congruence.
  - destruct (isclose value e (atol self) (rtol self)) as [[|]|err]; simpl;
      split; congruence.
  - rewrite Hn. simpl.
    by destruct (isclose value e (atol self) (rtol self)).
  - intros n' report. unfold result.
    destruct (measured_values (actual_value report)) as [values|err];
      [simpl | reflexivity].
    induction values as [|v values IH]; [reflexivity |].
    simpl. rewrite IH.
    replace (body (with_not_equal_to self (Some n')) v) with (body self v);
      [reflexivity |].
    unfold body. simpl. rewrite Hn. reflexivity.
  - intros report rest Hvalues Hlt Hle.
    assert (Hresult : result self report
              = (let* close := isclose value e (atol self) (rtol self) in
                 Ok (negb (and_logic self)))).
    { unfold result. rewrite Hvalues. cbn [Py.bind loop].
      unfold body, block, equal_to_passes, not_equal_to_passes, math_isclose,
        less_than_passes, less_or_equal_to_passes.
      revert Hlt Hle. unfold exits_at. rewrite He, Hn.
      destruct (less_than self) as [t1|], (less_or_equal_to self) as [t2|];
        cbn [Py.bind and_then];
        repeat match goal with
               | |- context [lt ?a ?b] => destruct (lt a b)
               | |- context [le ?a ?b] => destruct (le a b)
               end;
        destruct (isclose value e (atol self) (rtol self)) as [[|]|err];
        destruct (and_logic self); cbn; intros Hlt Hle;
        try discriminate; reflexivity. }
    split; [exact Hresult |]. rewrite Hresult. split.
    + intros Hand ->. cbn. by rewrite (and_logic_and self Hand).
    + intros Hor ->. cbn. unfold and_logic.
      by rewrite (bool_decide_eq_false_2 _ Hor).
  - intros report Hvalues Hlt Hle Hge Hgt.
    unfold result. rewrite Hvalues. cbn [Py.bind loop].
    unfold body, block, equal_to_passes, math_isclose.
    cbn [less_than less_or_equal_to equal_to not_equal_to
         greater_or_equal_to greater_than with_not_equal_to atol rtol].
    rewrite Hlt, Hle, Hge, Hgt, He.
    change (and_logic (with_not_equal_to self None)) with (and_logic self).
    destruct (isclose value e (atol self) (rtol self)) as [[|]|err];
      destruct (and_logic self); reflexivity.
Qed.

(** C10, as the code has it. Without ['=='] and with ['!='], on a report
    with at least one measured value, [result] raises [TypeError] unless a
    ['<'] or ['<='] comparator makes it return at the first value, in which
    case it returns the verdict of that early exit (false under 'and', true
    under 'or'); with neither ['<'] nor ['<='] configured it always
    raises. *)
Theorem not_equal_to_without_equal_to (self : t F) (report : report_t F)
    (n value : F) (rest : list F) :
  equal_to self = None ->
  not_equal_to self = Some n ->
  measured_values (actual_value report) = Ok (value :: rest) ->
  result self report
  = (if exits_at self (less_than self) lt value
        || exits_at self (less_or_equal_to self) le value
     then Ok (negb (and_logic self))
     else Raise TypeError)
  /\ (less_than self = None -> less_or_equal_to self = None ->
      result self report = Raise TypeError).
Proof.
  intros He Hn Hvalues.
  assert (Hraise : not_equal_to_passes self value = Raise TypeError).
  { unfold not_equal_to_passes, math_isclose. by rewrite He. }
  assert (Hresult : result self report
            = (if exits_at self (less_than self) lt value
                  || exits_at self (less_or_equal_to self) le value
               then Ok (negb (and_logic self))
               else Raise TypeError)).
  { unfold result. rewrite Hvalues. simpl. unfold body, exits_at.
    rewrite He, Hn. simpl. rewrite Hraise.
    destruct (less_than self) as [t1|], (less_or_equal_to self) as [t2|];
      simpl; unfold less_than_passes, less_or_equal_to_passes; simpl;
      repeat match goal with
             | |- context [lt ?a ?b] => destruct (lt a b)
             | |- context [le ?a ?b] => destruct (le a b)
             end;
      destruct (and_logic self); reflexivity. }
  split; [exact Hresult |].
  intros Hlt Hle. rewrite Hresult. unfold exits_at. by rewrite Hlt, Hle.
Qed.

End WithNumbers.

Import ExactNumber.

(** A mean of 0.5 lies between 0.4 and 0.6, a mean of 0.7 does not: the
    comparison with ['<'] fails first. *)
Lemma combination_logic_spec_witness :
  result Examples.between_instance (Examples.scalar_report (5 # 10)) = Ok true
  /\ result Examples.between_instance (Examples.scalar_report (7 # 10))
     = Ok false.
Proof.
  split.
  - refine (proj2 (proj1 (combination_logic_spec Examples.between_instance
               (Examples.scalar_report (5 # 10)) [Fin (5 # 10)] eq_refl)
             eq_refl) _).
    vm_compute. repeat constructor.
  - refine (proj1 (proj1 (combination_logic_spec Examples.between_instance
               (Examples.scalar_report (7 # 10)) [Fin (7 # 10)] eq_refl)
             eq_refl) [] [Ok true] _ _).
    + vm_compute. reflexivity.
    + constructor.
Defined.

(** With ['==': 5] and ['!=': 7]: under 'or', [result] returns true on the
    value 7, which is the ['!='] threshold and is not close to 5; under
    'and', it returns false on the value 5, which is far from the ['!=']
    threshold and close to 5. *)
Lemma not_equal_to_compares_with_equal_to_witness :
  result Examples.equal_and_not_equal_instance (Examples.scalar_report 7)
  = Ok true
  /\ result Examples.equal_and_not_equal_and_instance
       (Examples.scalar_report 5)
     = Ok false.
Proof.
  split.
  - destruct (not_equal_to_compares_with_equal_to
                Examples.equal_and_not_equal_instance (Fin 5%Q) (Fin 7%Q)
                (Fin 7%Q) eq_refl eq_refl)
      as (_ & _ & _ & _ & _ & Hresult & _).
    destruct (Hresult (Examples.scalar_report 7) [] eq_refl eq_refl eq_refl)
      as (_ & _ & Hor).
    apply Hor; [discriminate | vm_compute; reflexivity].
  - destruct (not_equal_to_compares_with_equal_to
                Examples.equal_and_not_equal_and_instance (Fin 5%Q) (Fin 7%Q)
                (Fin 5%Q) eq_refl eq_refl)
      as (_ & _ & _ & _ & _ & Hresult & _).
    destruct (Hresult (Examples.scalar_report 5) [] eq_refl eq_refl eq_refl)
      as (_ & Hand & _).
    apply Hand; [reflexivity | vm_compute; reflexivity].
Defined.

(** With ['<': 2] and ['!=': 5] under 'and', the value 1 passes ['<'] and
    reaches the ['!='] block. *)
Lemma not_equal_to_without_equal_to_witness :
  result (Examples.interval_instance "and" 2 5) Examples.one_value
  = Raise TypeError.
Proof.
  rewrite (proj1 (not_equal_to_without_equal_to
                    (Examples.interval_instance "and" 2 5) Examples.one_value
                    (Fin 5%Q) (Fin 1%Q) [] eq_refl eq_refl eq_refl)).
  vm_compute. reflexivity.
Defined.

(** C10, as stated, fails: with ['<': 0] and ['!=': 5] under the default
    logic, the value 1 fails ['<'] and [result] returns false before the
    ['!='] block is reached. *)
Lemma not_equal_to_without_equal_to_may_return :
  StatisticInInterval.__init__ (Examples.interval_options None 0 5)
  = Ok (Examples.interval_instance "and" 0 5)
  /\ equal_to (Examples.interval_instance "and" 0 5) = None
  /\ not_equal_to (Examples.interval_instance "and" 0 5) = Some (Fin 5%Q)
  /\ measured_values (actual_value Examples.one_value) = Ok [Fin 1%Q]
  /\ result (Examples.interval_instance "and" 0 5) Examples.one_value
     = Ok false
  /\ result (Examples.interval_instance "and" 0 5) Examples.one_value
     <> Raise TypeError.
Proof.
  repeat split; try (vm_compute; reflexivity).
  vm_compute. discriminate.
Qed.

End StatisticInIntervalFacts.

(** ** The scenarios of the specification, evaluated *)

Module Scenarios.
Import Examples.

(** Column [x = [1, 1, 2, 3, None]]: 80% of the rows are not null. *)
Example not_null_at_least_80 :
  not_null_verdict 80
    (one_column [Some 1; Some 1; Some 2; Some 3; None])
  = Ok (Fin (400 # 5), true).
Proof. vm_compute. reflexivity. Qed.

Example not_null_at_least_90 :
  exists perc,
    not_null_verdict 90
      (one_column [Some 1; Some 1; Some 2; Some 3; None])
    = Ok (perc, false).
Proof. eexists. vm_compute. reflexivity. Qed.

(** Pooled values [['a', 'a', 'b']], rule ['all'] on ['a', 'b', 'c']: the
    value ['c'] is required and absent. *)
Example contain_all_missing_value :
  contain_verdict (contain_strings "all" ["a"; "b"; "c"] None)
    (one_column [Some "a"; Some "a"; Some "b"])
  = Ok false.
Proof. vm_compute. reflexivity. Qed.

(** Rule ['all_and_only'] on ['a', 'b', 'c']: the observed values must be
    exactly these. *)
Example contain_all_and_only :
  contain_verdict (contain_strings "all_and_only" ["a"; "b"; "c"] None)
    (one_column [Some "c"; Some "a"; Some "b"; Some "a"])
  = Ok true
  /\ contain_verdict (contain_strings "all_and_only" ["a"; "b"; "c"] None)
       (one_column [Some "c"; Some "a"; Some "b"; Some "d"])
     = Ok false.
Proof. split; vm_compute; reflexivity. Qed.

(** Rule ['only'] on ['a'] with a maximum of 0 for ['a']: the value is
    forbidden. *)
Example contain_only_forbidden_value :
  let forbidden :=
    Some [ {| Contain.occ_values := Contain.Many ["a"];
              Contain.occ_min_occurrences := None;
              Contain.occ_max_occurrences := Some (Contain.Int 0) |} ] in
  contain_verdict (contain_strings "only" ["a"] forbidden)
    (one_column [Some "a"])
  = Ok false
  /\ contain_verdict (contain_strings "only" ["a"] forbidden)
       (one_column [None])
     = Ok true.
Proof. split; vm_compute; reflexivity. Qed.

(** An override group that lists a value outside [values] makes [result]
    raise. *)
Example contain_override_outside_values :
  contain_verdict
    (contain_strings "all" ["a"]
       (Some [ {| Contain.occ_values := Contain.One "b";
                  Contain.occ_min_occurrences := None;
                  Contain.occ_max_occurrences := Some (Contain.Int 0) |} ]))
    (one_column [Some "a"])
  = Raise KeyError.
Proof. vm_compute. reflexivity. Qed.

End Scenarios.

(** * Further properties of the statements *)

(** ** RowCount: what the inferred statement accepts *)

Module RowCountMore.
Import BaseStatement RowCount.

(** X1. The statement inferred from [df] accepts a table exactly when it has as
    many rows as [df]. *)
Theorem inferred_statement_is_exact {Row Row'} (df : list Row)
    (df' : list Row') :
  (let* self := RowCount.__init__ (profile df) in
   Ok (result self (report self df')))
  = Ok (bool_decide (length df' = length df)).
Proof.
  unfold RowCount.__init__, BaseStatement.__init__.
  rewrite RowCountFacts.profile_validates. simpl.
  unfold result, report. simpl. f_equal.
  destruct (Z.leb_spec (Z.of_nat (length df)) (Z.of_nat (length df')));
    destruct (Z.leb_spec (Z.of_nat (length df')) (Z.of_nat (length df)));
    simpl; symmetry;
    first [apply bool_decide_eq_true; lia | apply bool_decide_eq_false; lia].
Qed.

(** With both bounds configured, [result] is the interval test; a minimum
    above the maximum is accepted by the constructor and rejects every
    table. *)
Theorem crossed_bounds_reject {Row} (o : options) (self : t)
    (lo hi : Z) (df : list Row) :
  RowCount.__init__ o = Ok self ->
  opt_min o = Some lo -> opt_max o = Some hi ->
  (result self (report self df) = true
   <-> lo <= Z.of_nat (length df) <= hi)
  /\ (hi < lo -> result self (report self df) = false).
Proof.
  unfold RowCount.__init__, BaseStatement.__init__.
  destruct (_validate_options cls (keys o)); simpl; [| discriminate].
  intros Heq Hlo Hhi. injection Heq as <-.
  unfold result, report. simpl. rewrite Hlo, Hhi.
  destruct (Z.leb_spec lo (Z.of_nat (length df)));
    destruct (Z.leb_spec (Z.of_nat (length df)) hi); simpl;
    split; try split; intros; try lia; try discriminate; reflexivity.
Qed.

Lemma crossed_bounds_reject_witness :
  exists self : t,
    RowCount.__init__
      {| common := no_universal; opt_min := Some 5; opt_max := Some 2 |}
    = Ok self
    /\ result self (report self [tt; tt; tt]) = false.
Proof.
  eexists. split; [vm_compute; reflexivity |].
  refine (proj2 (crossed_bounds_reject
                   {| common := no_universal; opt_min := Some 5;
                      opt_max := Some 2 |} _ 5 2 [tt; tt; tt]
                   eq_refl eq_refl eq_refl) _).
  lia.
Defined.

End RowCountMore.

(** ** Percentages, continued *)

Module PyMore.

Lemma fle_refl (q : Q) : fle (Fin q) (Fin q) = true.
Proof. simpl. apply Qle_bool_iff. apply Qle_refl. Qed.

Lemma percent_finite (k n : nat) :
  n <> O -> exists q, percent k n = Fin q.
Proof. destruct n; [contradiction |]. intros _. eexists. reflexivity. Qed.

(** A count that does not exceed the total gives at most [100.0]. *)
Lemma percent_le_hundred (k n : nat) :
  n <> O -> (k <= n)%nat -> fle (percent k n) f100 = true.
Proof.
  destruct n as [|n]; [contradiction |]. intros _ Hle.
  rewrite PyFacts.percent_S. unfold fle, f100. apply Qle_bool_iff.
  unfold Qle. simpl Qnum. simpl Qden. rewrite PyFacts.Zpos_of_nat_S. lia.
Qed.

(** It reaches [100.0] only when the count is the total. *)
Lemma percent_ge_hundred (k n : nat) :
  n <> O -> (k <= n)%nat ->
  (fge (percent k n) f100 = true <-> k = n).
Proof.
  destruct n as [|n]; [contradiction |]. intros _ Hle.
  rewrite PyFacts.percent_S. unfold fge, fle, f100. rewrite Qle_bool_iff.
  unfold Qle. simpl Qnum. simpl Qden. rewrite PyFacts.Zpos_of_nat_S. lia.
Qed.

End PyMore.

(** ** Unique: the default threshold and the inferred statement *)

Module UniqueMore.
Import BaseStatement Unique FrameFacts PyFacts PyMore.

Lemma filter_all {A} (P : A -> Prop) `{forall x, Decision (P x)}
    (l : list A) :
  length (filter P l) = length l <-> Forall P l.
Proof.
  split.
  - intros Hlen. apply Forall_forall. intros x Hx.
    destruct (decide (P x)) as [|Hn]; [assumption |].
    pose proof (length_filter_lt P l x Hx Hn). lia.
  - induction 1 as [|x l Hx _ IH]; [reflexivity |].
    rewrite filter_cons, decide_True by done. simpl. by rewrite IH.
Qed.

Section WithValues.
Context {V : Type} `{Countable V}.

Lemma all_alone_NoDup (df : Frame.DataFrame V) :
  Forall (fun r => Frame.occurrences r df = 1%nat) df <-> NoDup df.
Proof.
  rewrite NoDup_alt, Forall_forall. split.
  - intros Hall i j r Hi Hj.
    assert (Hr : r ∈ df) by (apply list_elem_of_lookup; eauto).
    pose proof (proj1 (occurrences_one r df j Hj) (Hall r Hr)) as Huniq.
    by apply Huniq.
  - intros Hnodup r Hr. apply list_elem_of_lookup in Hr as [i Hi].
    apply (occurrences_one r df i Hi). intros j Hj.
    by apply (Hnodup j i r).
Qed.

(** X2. With the default threshold of [100.0], a frame that is not empty
    passes exactly when no two of its rows are identical. *)
Theorem default_threshold_iff_no_duplicates (self : t)
    (df : Frame.DataFrame V) :
  at_least_perc self = Fin 100%Q ->
  Frame.empty df = false ->
  (result self (report self df) = true <-> NoDup df).
Proof.
  intros Hdefault Hempty. unfold result, report. simpl.
  rewrite Hdefault, (unique_mask_sum df Hempty),
    (length_unique_mask df Hempty).
  pose proof (not_empty_rows df Hempty) as Hrows.
  assert (Hlen : length df <> O) by (by destruct df).
  change (Fin 100%Q) with f100.
  rewrite percent_ge_hundred; [| exact Hlen | apply length_filter].
  rewrite filter_all. apply all_alone_NoDup.
Qed.

(** X3. The statement inferred by [profile] passes on the frame it was inferred
    from, unless that frame is empty: there the percentage is not a number
    and the comparison fails. *)
Theorem inferred_threshold_passes_unless_empty (df : Frame.DataFrame V) :
  (let* self := Unique.__init__ (profile df) in
   Ok (result self (report self df)))
  = Ok (negb (Frame.empty df)).
Proof.
  unfold Unique.__init__, BaseStatement.__init__.
  assert (Hkeys : _validate_options cls (keys (profile df)) = Ok tt)
    by (vm_compute; reflexivity).
  rewrite Hkeys. simpl. unfold result, report. simpl. f_equal.
  destruct (Frame.empty df) eqn:Hempty; simpl.
  - unfold Frame.duplicated_keep_False. rewrite Hempty. reflexivity.
  - rewrite (length_unique_mask df Hempty).
    pose proof (not_empty_rows df Hempty) as Hrows.
    destruct (percent_finite
                (Frame.sum (Frame.invert (Frame.duplicated_keep_False df)))
                (length df)) as [q ->]; [by destruct df |].
    apply fle_refl.
Qed.

End WithValues.

(** The statement on exact rationals is [UniqueFloat] at its exact
    instance. *)
Lemma exact_instance_agrees {V : Type} `{Countable V} (self : t)
    (df : Frame.DataFrame V) :
  let self' := {| UniqueFloat.at_least_perc := at_least_perc self |} in
  UniqueFloat.result (H:=UniqueFloat.exact) self'
    (UniqueFloat.report (H:=UniqueFloat.exact) self' df)
  = result self (report self df).
Proof.
  unfold UniqueFloat.result, UniqueFloat.report, result, report. simpl.
  set (k := Frame.sum (Frame.invert (Frame.duplicated_keep_False df))).
  destruct (length (Frame.invert (Frame.duplicated_keep_False df)))
    as [|n]; [reflexivity |].
  rewrite percent_S. unfold UniqueFloat.exact_div. simpl ExactNumber.fmul.
  unfold f100.
  assert (Hpos : Qeq_bool (inject_Z (Z.of_nat (S n))) 0 = false).
  { apply not_true_iff_false. rewrite Qeq_bool_iff. unfold Qeq. simpl. lia. }
  rewrite Hpos. unfold fge, fle.
  destruct (at_least_perc self) as [|q]; [reflexivity |].
  apply eq_true_iff_eq. rewrite !Qle_bool_iff.
  assert (Heq : (100 * inject_Z (Z.of_nat k) / inject_Z (Z.of_nat (S n))
                 == 100 * Z.of_nat k # Pos.of_nat (S n))%Q).
  { rewrite (Qmake_Qdiv (100 * Z.of_nat k) (Pos.of_nat (S n))).
    rewrite Zpos_of_nat_S, inject_Z_mult. reflexivity. }
  by rewrite Heq.
Qed.

Lemma default_threshold_iff_no_duplicates_witness :
  result {| at_least_perc := Fin 100%Q |}
    (report {| at_least_perc := Fin 100%Q |}
       ([[Some 1; None]; [Some 1; Some 2]] : Frame.DataFrame Z))
  = true.
Proof.
  apply (default_threshold_iff_no_duplicates (V:=Z)); [reflexivity.. |].
  by_evaluation.
Defined.

End UniqueMore.

(** ** NotNull: the two logics, the default thresholds, inferred statements *)

Module NotNullMore.
Import BaseStatement Frame NotNull FrameFacts PyFacts PyMore.

Section WithValues.
Context {V : Type} `{Countable V}.

(** A row none of whose cells is null. *)
Local Abbreviation no_null r := (Forall (fun c : option V => c <> None) r).

Lemma any_isnull (r : Frame.row V) :
  existsb id (map (fun c : option V => bool_decide (c = None)) r) = false
  <-> no_null r.
Proof.
  induction r as [|c r IH]; simpl.
  - split; [constructor | reflexivity].
  - rewrite orb_false_iff, IH. unfold id. rewrite bool_decide_eq_false.
    split.
    + intros [Hc Hr]. by constructor.
    + intros HF. inversion HF; by subst.
Qed.

Lemma any_mask_as_map (df : Frame.DataFrame V) :
  Frame.invert (Frame.all_axis1 (Frame.isnull df))
  = map (fun r => bool_decide (~ all_null r)) df.
Proof.
  unfold Frame.invert, Frame.all_axis1, Frame.isnull. rewrite !map_map.
  apply map_ext. intros r.
  destruct (forallb id _) eqn:Hf; simpl; symmetry.
  - apply bool_decide_eq_false. intros Hn. apply Hn.
    by apply NotNullFacts.all_isnull.
  - apply bool_decide_eq_true. intros Hr.
    apply NotNullFacts.all_isnull in Hr. congruence.
Qed.

Lemma all_mask_as_map (df : Frame.DataFrame V) :
  Frame.invert (Frame.any_axis1 (Frame.isnull df))
  = map (fun r => bool_decide (no_null r)) df.
Proof.
  unfold Frame.invert, Frame.any_axis1, Frame.isnull. rewrite !map_map.
  apply map_ext. intros r.
  destruct (existsb id _) eqn:Hf; simpl; symmetry.
  - apply bool_decide_eq_false. intros Hr. apply any_isnull in Hr.
    congruence.
  - apply bool_decide_eq_true. by apply any_isnull.
Qed.

Lemma sum_bool_decide {A} (P : A -> Prop) `{forall x, Decision (P x)}
    (l : list A) :
  Frame.sum (map (fun x => bool_decide (P x)) l) = length (filter P l).
Proof.
  rewrite sum_map. f_equal. apply list_filter_iff. intros x.
  apply bool_decide_eq_true.
Qed.

Lemma not_nulls_length (logic : string) (df : Frame.DataFrame V) :
  length (not_nulls logic df) = length df.
Proof.
  unfold not_nulls. case_bool_decide;
    unfold Frame.invert, Frame.any_axis1, Frame.all_axis1, Frame.isnull;
    by rewrite !length_map.
Qed.

(** X4. [report] splits the rows in two: the null and the not-null rows add up
    to the rows of the frame. A row counts as not null under the logic
    ['all'] when none of its cells is null, and under any other logic when
    not all of its cells are null. *)
Theorem report_counts (self : t) (df : Frame.DataFrame V) :
  null_rows (report self df) + not_null_rows (report self df)
  = Z.of_nat (length df)
  /\ not_null_rows (report self df)
     = Z.of_nat
         (if bool_decide (multicolumn_logic self = "all")
          then length (filter (fun r => no_null r) df)
          else length (filter (fun r => ~ all_null r) df)).
Proof.
  split.
  - unfold report. simpl.
    pose proof (sum_invert (not_nulls (multicolumn_logic self) df)) as Hsum.
    rewrite not_nulls_length in Hsum. lia.
  - unfold report, not_nulls. simpl. f_equal.
    case_bool_decide.
    + by rewrite all_mask_as_map, sum_bool_decide.
    + by rewrite any_mask_as_map, sum_bool_decide.
Qed.

(** X5. On a scope of one column the multicolumn logic makes no difference,
    and neither do the thresholds: any two instances give the same
    report. *)
Theorem one_column_scope_ignores_logic (self self' : t)
    (df : Frame.DataFrame V) :
  Forall (fun r => length r = 1%nat) df ->
  report self df = report self' df.
Proof.
  intros Hone.
  assert (Hmask : Frame.invert (Frame.any_axis1 (Frame.isnull df))
                  = Frame.invert (Frame.all_axis1 (Frame.isnull df))).
  { rewrite all_mask_as_map, any_mask_as_map.
    induction Hone as [|r df Hr _ IH]; [reflexivity |]. simpl.
    rewrite IH. f_equal.
    destruct r as [|c [|c' r]]; try discriminate.
    apply bool_decide_ext. unfold all_null. split.
    - intros HF Hn. inversion HF; inversion Hn; subst. contradiction.
    - intros Hn. constructor; [| constructor]. intros ->. apply Hn.
      by constructor. }
  assert (Hlogic : forall logic logic',
            not_nulls logic df = not_nulls logic' df).
  { intros logic logic'. unfold not_nulls.
    repeat case_bool_decide; congruence. }
  unfold report.
  by rewrite (Hlogic (multicolumn_logic self) (multicolumn_logic self')).
Qed.

(** X6. With the default thresholds a frame that has rows passes exactly when
    no row is counted as null: under ['all'] every cell has a value, under
    ['any'] every row has a cell with a value. *)
Theorem default_thresholds_iff_no_null_row (self : t)
    (df : Frame.DataFrame V) :
  at_least_perc self = Fin 100%Q ->
  at_most_perc self = Fin 100%Q ->
  df <> [] ->
  (result self (report self df) = true
   <-> if bool_decide (multicolumn_logic self = "all")
       then Forall (fun r => no_null r) df
       else Forall (fun r => ~ all_null r) df).
Proof.
  intros Hleast Hmost Hrows.
  assert (Hlen : length df <> O) by (by destruct df).
  assert (Hperc : not_null_rows_perc (report self df)
                  = percent (Frame.sum (not_nulls (multicolumn_logic self) df))
                      (length df)).
  { unfold report. cbn [not_null_rows_perc]. by rewrite not_nulls_length. }
  unfold result. rewrite Hperc, Hleast, Hmost.
  change (Fin 100%Q) with f100.
  pose proof (sum_le_length (not_nulls (multicolumn_logic self) df)) as Hle.
  rewrite not_nulls_length in Hle.
  rewrite (percent_le_hundred _ _ Hlen Hle).
  destruct (fge (percent (Frame.sum (not_nulls (multicolumn_logic self) df))
                   (length df)) f100) eqn:Hge; cbn [negb].
  - apply (percent_ge_hundred _ _ Hlen Hle) in Hge.
    split; [intros _ | reflexivity].
    revert Hge. unfold not_nulls. case_bool_decide.
    + rewrite all_mask_as_map, sum_bool_decide. apply UniqueMore.filter_all.
    + rewrite any_mask_as_map, sum_bool_decide. apply UniqueMore.filter_all.
  - split; [discriminate |]. intros Hall. exfalso.
    assert (Hfull : Frame.sum (not_nulls (multicolumn_logic self) df)
                    = length df).
    { revert Hall. unfold not_nulls. case_bool_decide.
      + rewrite all_mask_as_map, sum_bool_decide.
        apply UniqueMore.filter_all.
      + rewrite any_mask_as_map, sum_bool_decide.
        apply UniqueMore.filter_all. }
    apply (percent_ge_hundred _ _ Hlen Hle) in Hfull. congruence.
Qed.

Lemma any_sum_le (df : Frame.DataFrame V) :
  (Frame.sum (Frame.invert (Frame.all_axis1 (Frame.isnull df)))
   <= length df)%nat.
Proof.
  etransitivity; [apply sum_le_length |].
  unfold Frame.invert, Frame.all_axis1, Frame.isnull.
  by rewrite !length_map.
Qed.

Lemma init_inferred (least : option pyfloat) :
  NotNull.__init__ (inferred least)
  = Ok {| at_least_perc := Py.get least f100;
          at_most_perc := f100;
          multicolumn_logic := "any" |}.
Proof. destruct least; reflexivity. Qed.

(** X7. A statement that [profile] ([not_null.py]) returns passes on the frame
    it was inferred from, unless that frame has no rows: there the inferred
    [at_least_%] is not a number and the comparison fails. *)
Theorem inferred_statement_passes_unless_no_rows (df : Frame.DataFrame V)
    (o : options) :
  profile df = Ok o ->
  (let* self := NotNull.__init__ o in
   Ok (result self (report self df)))
  = Ok (bool_decide (df <> [])).
Proof.
  unfold profile.
  assert (Hlen : length (Frame.invert (Frame.all_axis1 (Frame.isnull df)))
                 = length df).
  { unfold Frame.invert, Frame.all_axis1, Frame.isnull.
    by rewrite !length_map. }
  rewrite Hlen.
  set (k := Frame.sum (Frame.invert (Frame.all_axis1 (Frame.isnull df)))).
  pose proof (any_sum_le df) as Hle. fold k in Hle.
  set (p := percent k (length df)).
  assert (Hreport : forall self, multicolumn_logic self = "any" ->
            not_null_rows_perc (report self df) = p).
  { intros self Hany. unfold report. cbn [not_null_rows_perc].
    rewrite not_nulls_length. unfold not_nulls. by rewrite Hany. }
  destruct (feq p f0) eqn:Hzero; [discriminate |].
  change (Ok {| common := {| type_ := Some "not_null"; severity := None;
                             location := None; other_keys := [] |};
                opt_at_least_perc := Some p;
                opt_at_most_perc := None;
                opt_multicolumn_logic := None |})
    with (Ok (inferred (Some p))).
  change (Ok {| common := {| type_ := Some "not_null"; severity := None;
                             location := None; other_keys := [] |};
                opt_at_least_perc := None;
                opt_at_most_perc := None;
                opt_multicolumn_logic := None |})
    with (Ok (inferred None)).
  assert (Hverdict : forall least,
            (least = Some p \/ (least = None /\ feq p f100 = true)) ->
            (let* self := NotNull.__init__ (inferred least) in
             Ok (result self (report self df)))
            = Ok (bool_decide (df <> []))).
  { intros least Hleast. rewrite init_inferred. cbn [Py.bind]. f_equal.
    unfold result. rewrite Hreport by reflexivity.
    cbn [at_least_perc at_most_perc].
    destruct (decide (df = [])) as [->|Hrows].
    - destruct Hleast as [->|[_ Hfull]]; [reflexivity | discriminate Hfull].
    - rewrite (bool_decide_eq_true_2 (df <> [])) by done.
      assert (Hn : length df <> O) by (by destruct df).
      unfold p in *. rewrite (percent_le_hundred k (length df) Hn Hle).
      destruct Hleast as [->|[-> Hfull]]; cbn [Py.get].
      + destruct (percent_finite k (length df) Hn) as [q ->].
        unfold fge. by rewrite fle_refl.
      + apply percent_hundred in Hfull as [_ Hfull].
        by rewrite (proj2 (percent_ge_hundred k (length df) Hn Hle) Hfull). }
  unfold fne. destruct (feq p f100) eqn:Hfull; cbn [negb];
    intros Heq; injection Heq as <-; apply Hverdict; auto.
Qed.

(** X8. The statement that [profile] of [statements.py] returns, with both
    bounds at the observed percentage, passes on its frame unless the frame
    has no rows. *)
Theorem statements_py_inferred_statement_passes (df : Frame.DataFrame V) :
  (let* self := NotNull.__init__ (profile_statements_py df) in
   Ok (result self (report self df)))
  = Ok (bool_decide (df <> [])).
Proof.
  unfold NotNull.__init__, BaseStatement.__init__.
  assert (Hkeys : _validate_options cls (keys (profile_statements_py df))
                  = Ok tt) by (vm_compute; reflexivity).
  rewrite Hkeys. simpl. unfold result, report. simpl.
  rewrite not_nulls_length. unfold not_nulls. simpl.
  assert (Hlen : length (Frame.invert (Frame.all_axis1 (Frame.isnull df)))
                 = length df).
  { unfold Frame.invert, Frame.all_axis1, Frame.isnull.
    by rewrite !length_map. }
  rewrite Hlen. f_equal.
  destruct df as [|r df'] eqn:Hdf.
  - reflexivity.
  - rewrite <- Hdf.
    rewrite (bool_decide_eq_true_2 (df <> [])) by (rewrite Hdf; discriminate).
    destruct (percent_finite
                (Frame.sum (Frame.invert (Frame.all_axis1 (Frame.isnull df))))
                (length df)) as [q ->]; [rewrite Hdf; discriminate |].
    unfold fge. by rewrite fle_refl.
Qed.

End WithValues.

Lemma one_column_scope_ignores_logic_witness :
  report Examples.not_null_all
    ([[Some 1]; [None]; [Some 3]] : Frame.DataFrame Z)
  = report Examples.not_null_any [[Some 1]; [None]; [Some 3]].
Proof.
  apply (one_column_scope_ignores_logic (V:=Z)). repeat constructor.
Defined.

Lemma default_thresholds_iff_no_null_row_witness :
  result Examples.not_null_all
    (report Examples.not_null_all
       ([[Some 1; Some 2]; [Some 3; None]] : Frame.DataFrame Z))
  <> true.
Proof.
  intros Hpass.
  apply (default_thresholds_iff_no_null_row (V:=Z) Examples.not_null_all
           [[Some 1; Some 2]; [Some 3; None]] eq_refl eq_refl) in Hpass;
    [| discriminate].
  simpl in Hpass. inversion Hpass as [|? ? _ Htl]. subst.
  inversion Htl as [|? ? Hrow _]. subst.
  inversion Hrow as [|? ? _ Hcells]. subst.
  inversion Hcells as [|? ? Hcell _]. by apply Hcell.
Defined.

Lemma inferred_statement_passes_unless_no_rows_witness :
  (let* self := NotNull.__init__ (inferred (Some (Fin (100 # 2)))) in
   Ok (result self
         (report self
            ([[Some 1; None]; [None; None]] : Frame.DataFrame Z))))
  = Ok true.
Proof.
  exact (inferred_statement_passes_unless_no_rows (V:=Z)
           [[Some 1; None]; [None; None]] _ eq_refl).
Defined.

End NotNullMore.

(** ** Contain: scope filter, verdict, errors *)

Module ContainMore.
Import BaseStatement Contain ContainFacts.

Lemma map_is_fmap {A B} (f : A -> B) (l : list A) : map f l = f <$> l.
Proof. induction l as [|a l IH]; [reflexivity |]. simpl. by rewrite IH. Qed.

Section WithValues.
Context {Raw V Ser : Type} `{Countable V}.

Local Abbreviation t := (Contain.t (Raw:=Raw) (V:=V) (Ser:=Ser)).
Local Abbreviation boundaries := (gmap V (bound * bound)).

(** *** The frequency map *)

Lemma value_counts_lookup (series : list (option V)) (v : V) :
  Frame.value_counts series !! v
  = match length (filter (fun c => c = Some v) series) with
    | O => None
    | S n => Some (S n)
    end.
Proof.
  induction series as [|[u|] series IH]; simpl.
  - apply lookup_empty.
  - rewrite filter_cons. destruct (decide (u = v)) as [->|Hne].
    + rewrite lookup_insert_eq, IH, decide_True by done. simpl.
      by destruct (length _).
    + rewrite lookup_insert_ne, IH by done.
      rewrite decide_False by congruence. reflexivity.
  - rewrite filter_cons, decide_False by discriminate. exact IH.
Qed.

Lemma value_counts_positive (series : list (option V)) (v : V) (n : nat) :
  Frame.value_counts series !! v = Some n -> (1 <= n)%nat.
Proof.
  rewrite value_counts_lookup. destruct (length _); [discriminate |].
  intros Heq. injection Heq as <-. lia.
Qed.

Lemma value_counts_observed (series : list (option V)) (v : V) :
  is_Some (Frame.value_counts series !! v) <-> Some v ∈ series.
Proof.
  rewrite value_counts_lookup. split.
  - destruct (filter _ series) as [|c l] eqn:Hf; simpl.
    + intros [? ?]. discriminate.
    + intros _. assert (Hc : c ∈ filter (fun c => c = Some v) series)
        by (rewrite Hf; left).
      apply list_elem_of_filter in Hc as [-> Hc]. exact Hc.
  - intros Hv.
    assert (Hc : Some v ∈ filter (fun c => c = Some v) series)
      by (by apply list_elem_of_filter).
    destruct (filter _ series); [by apply elem_of_nil in Hc |].
    simpl. eauto.
Qed.

(** *** The scope of the rule check *)

Lemma set_values_scope_ok (self : t) (b : boundaries) :
  min_max_boundaries self = Some b ->
  exists scope,
    _set_values_scope self = Ok (set_values_scope_filter self scope)
    /\ NoDup scope
    /\ forall v, v ∈ scope
                 <-> exists mn mx, b !! v = Some (mn, mx) /\ mx <> Int 0.
Proof.
  intros Hb. unfold _set_values_scope. rewrite Hb. simpl.
  eexists. split; [reflexivity |]. split.
  - rewrite map_is_fmap. apply NoDup_fmap_fst.
    + intros v p1 p2 H1 H2.
      apply list_elem_of_filter in H1 as [_ H1], H2 as [_ H2].
      apply elem_of_map_to_list in H1, H2. congruence.
    + apply NoDup_filter, NoDup_map_to_list.
  - intros v. rewrite map_is_fmap, list_elem_of_fmap. split.
    + intros ([v' [mn mx]] & -> & Hin).
      apply list_elem_of_filter in Hin as [Hmx Hin].
      apply elem_of_map_to_list in Hin. simpl in *. eauto.
    + intros (mn & mx & Hv & Hmx). exists (v, (mn, mx)).
      split; [reflexivity |]. apply list_elem_of_filter.
      split; [exact Hmx |]. by apply elem_of_map_to_list.
Qed.

(** X9. [_set_values_scope] keeps the values whose resolved maximum is not 0,
    each once, and needs the boundaries to have been resolved. *)
Theorem values_scope_excludes_forbidden (self : t) :
  (min_max_boundaries self = None ->
   _set_values_scope self = Raise AttributeError)
  /\ (forall b, min_max_boundaries self = Some b ->
      exists scope,
        _set_values_scope self = Ok (set_values_scope_filter self scope)
        /\ NoDup scope
        /\ forall v, v ∈ scope
                     <-> exists mn mx, b !! v = Some (mn, mx) /\ mx <> Int 0).
Proof.
  split.
  - intros Hnone. unfold _set_values_scope. by rewrite Hnone.
  - apply set_values_scope_ok.
Qed.

(** *** The two presence checks *)

Lemma check_all_spec (self : t) (scope : list V) (vc : gmap V nat) :
  values_scope_filter self = Some scope ->
  exists verdict,
    _check_all self vc = Ok verdict
    /\ (verdict = true <-> forall v, v ∈ scope -> is_Some (vc !! v)).
Proof.
  intros Hscope. unfold _check_all. rewrite Hscope. simpl.
  case_bool_decide as Hdiff; eexists; (split; [reflexivity |]).
  - split; [discriminate |]. intros Hall. exfalso. apply Hdiff.
    apply set_eq. intros v. rewrite elem_of_difference, elem_of_list_to_set,
      elem_of_dom. split; [| by intros ?%elem_of_empty].
    intros [Hv Hn]. exfalso. by apply Hn, Hall.
  - split; [intros _ | reflexivity]. intros v Hv.
    apply elem_of_dom. destruct (decide (v ∈ dom vc)) as [|Hn]; [done |].
    exfalso.
    assert (Hin : v ∈ (list_to_set scope : gset V) ∖ dom vc).
    { apply elem_of_difference. split; [by apply elem_of_list_to_set | done]. }
    rewrite Hdiff in Hin. by apply elem_of_empty in Hin.
Qed.

Lemma check_only_spec (self : t) (scope : list V) (vc : gmap V nat) :
  values_scope_filter self = Some scope ->
  exists verdict,
    _check_only self vc = Ok verdict
    /\ (verdict = true <-> forall v, is_Some (vc !! v) -> v ∈ scope).
Proof.
  intros Hscope. unfold _check_only. rewrite Hscope. simpl.
  case_bool_decide as Hdiff; eexists; (split; [reflexivity |]).
  - split; [discriminate |]. intros Hall. exfalso. apply Hdiff.
    apply set_eq. intros v. rewrite elem_of_difference, elem_of_list_to_set,
      elem_of_dom. split; [| by intros ?%elem_of_empty].
    intros [Hv Hn]. exfalso. by apply Hn, Hall.
  - split; [intros _ | reflexivity]. intros v Hv.
    destruct (decide (v ∈ scope)) as [|Hn]; [done |].
    exfalso.
    assert (Hin : v ∈ dom vc ∖ (list_to_set scope : gset V)).
    { apply elem_of_difference. split; [by apply elem_of_dom |].
      by rewrite elem_of_list_to_set. }
    rewrite Hdiff in Hin. by apply elem_of_empty in Hin.
Qed.

Lemma check_rule_spec (self : t) (scope : list V) (vc : gmap V nat) :
  values_scope_filter self = Some scope ->
  exists outcome,
    _check_rule self vc = Ok outcome
    /\ (default false outcome = true <->
        (rule self = "all"
         /\ forall v, v ∈ scope -> is_Some (vc !! v))
        \/ (rule self = "only"
            /\ forall v, is_Some (vc !! v) -> v ∈ scope)
        \/ (rule self = "all_and_only"
            /\ (forall v, v ∈ scope -> is_Some (vc !! v))
            /\ forall v, is_Some (vc !! v) -> v ∈ scope)).
Proof.
  intros Hscope.
  destruct (check_all_spec self scope vc Hscope) as (va & Hva & Hall).
  destruct (check_only_spec self scope vc Hscope) as (vo & Hvo & Honly).
  unfold _check_rule. rewrite Hva, Hvo. cbn [Py.bind].
  repeat case_bool_decide; eexists; (split; [reflexivity |]); cbn [default];
    unfold id.
  - rewrite Hall. split; [intros Ha; left; done |].
    intros [[_ Ha]|[[Hr _]|[Hr _]]]; [done | congruence..].
  - rewrite Honly. split; [intros Ho; right; left; done |].
    intros [[Hr _]|[[_ Ho]|[Hr _]]]; [congruence | done | congruence].
  - unfold id. rewrite andb_true_iff, Hall, Honly.
    split; [intros [Ha Ho]; right; right; done |].
    intros [[Hr _]|[[Hr _]|[_ [Ha Ho]]]]; [congruence.. | done].
  - split; [discriminate |].
    intros [[Hr _]|[[Hr _]|[Hr _]]]; congruence.
Qed.

(** How [result] puts its checks together, for an instance on which
    [report] has stored the frequency map [vc] and whose override groups
    list values of [values] only. *)
Lemma result_verdict_aux (self : t) (vc : gmap V nat) (r : report_t Ser) :
  value_count self = Some vc ->
  (forall g v, g ∈ occurrences_per_value self ->
               v ∈ occurrence_values self g -> v ∈ values self) ->
  exists b verdict self',
    result self r = Ok (verdict, self')
    /\ _set_min_max_boundaries self vc = Ok (set_min_max_boundaries self b)
    /\ min_max_boundaries self' = Some b
    /\ (verdict = true <->
        (forall v mn mx, v ∈ values self -> b !! v = Some (mn, mx) ->
           match vc !! v with
           | Some count => within mn count mx = true
           | None => ~ (rule self <> "only" /\ mx <> Int 0 /\ mn <> Int 0)
           end)
        /\ ((rule self = "all"
             /\ forall v mn mx, b !! v = Some (mn, mx) -> mx <> Int 0 ->
                                is_Some (vc !! v))
            \/ (rule self = "only"
                /\ forall v, is_Some (vc !! v) ->
                      exists mn mx, b !! v = Some (mn, mx) /\ mx <> Int 0)
            \/ (rule self = "all_and_only"
                /\ (forall v mn mx, b !! v = Some (mn, mx) -> mx <> Int 0 ->
                                    is_Some (vc !! v))
                /\ forall v, is_Some (vc !! v) ->
                      exists mn mx, b !! v = Some (mn, mx) /\ mx <> Int 0))).
Proof.
  intros Hvc Hlisted.
  destruct (dedicated_boundaries_total self (occurrences_per_value self)
              (global_boundaries self)) as [b Hb].
  { intros g v Hg Hv. rewrite global_boundaries_lookup.
    rewrite decide_True by (by apply (Hlisted g v)). eauto. }
  assert (Hset : _set_min_max_boundaries self vc
                 = Ok (set_min_max_boundaries self b)).
  { unfold _set_min_max_boundaries, dedicated_boundaries. by rewrite Hb. }
  destruct (boundaries_cover_values self _ vc Hset)
    as (b' & Hb' & _ & _ & Hcover).
  simpl in Hb'. injection Hb' as <-.
  set (self1 := set_min_max_boundaries self b) in *.
  destruct (set_values_scope_ok self1 b eq_refl)
    as (scope & Hscope_eq & _ & Hscope).
  set (self2 := set_values_scope_filter self1 scope) in *.
  destruct (check_interval_loop_spec self2 b vc (values self) eq_refl Hcover)
    as (iv & Hloop & Hiv).
  change (rule self2) with (rule self) in Hiv.
  assert (Hinterval : _check_interval self2 vc = Ok iv).
  { exact Hloop. }
  destruct (check_rule_spec self2 scope vc eq_refl)
    as (outcome & Hrule & Houtcome).
  change (rule self2) with (rule self) in Houtcome.
  assert (Hin_scope : (forall v, v ∈ scope -> is_Some (vc !! v))
            <-> forall v mn mx, b !! v = Some (mn, mx) -> mx <> Int 0 ->
                                is_Some (vc !! v)).
  { split.
    - intros Ha v mn mx Hv Hmx. apply Ha, Hscope. eauto.
    - intros Ha v Hv. apply Hscope in Hv as (mn & mx & Hv & Hmx). eauto. }
  assert (Hof_scope : (forall v, is_Some (vc !! v) -> v ∈ scope)
            <-> forall v, is_Some (vc !! v) ->
                  exists mn mx, b !! v = Some (mn, mx) /\ mx <> Int 0).
  { split.
    - intros Ho v Hv. by apply Hscope, Ho.
    - intros Ho v Hv. by apply Hscope, Ho. }
  rewrite Hin_scope, Hof_scope in Houtcome.
  exists b, (iv && default false outcome), self2.
  split.
  { unfold result. rewrite Hvc. cbn [Py.bind getattr]. rewrite Hset.
    cbn [Py.bind]. rewrite Hscope_eq. cbn [Py.bind]. rewrite Hinterval.
    cbn [Py.bind]. destruct iv; cbn [negb andb]; [| reflexivity].
    rewrite Hrule. cbn [Py.bind]. by destruct (default false outcome). }
  split; [exact Hset |]. split; [reflexivity |].
  by rewrite andb_true_iff, Hiv, Houtcome.
Qed.

(** X10. [result], once [report] has stored a frequency map and when the override
    groups list values of [values] only, returns true exactly when the
    interval check holds for every expected value and the rule holds: under
    ['all'] every expected value that is not forbidden (maximum 0) is
    observed, under ['only'] every observed value is an expected value that
    is not forbidden, under ['all_and_only'] both. *)
Theorem result_is_interval_and_rule (self : t) (vc : gmap V nat)
    (r : report_t Ser) :
  value_count self = Some vc ->
  (forall g v, g ∈ occurrences_per_value self ->
               v ∈ occurrence_values self g -> v ∈ values self) ->
  exists b verdict self',
    result self r = Ok (verdict, self')
    /\ _set_min_max_boundaries self vc = Ok (set_min_max_boundaries self b)
    /\ min_max_boundaries self' = Some b
    /\ (verdict = true <->
        (forall v mn mx, v ∈ values self -> b !! v = Some (mn, mx) ->
           match vc !! v with
           | Some count => within mn count mx = true
           | None => ~ (rule self <> "only" /\ mx <> Int 0 /\ mn <> Int 0)
           end)
        /\ ((rule self = "all"
             /\ forall v mn mx, b !! v = Some (mn, mx) -> mx <> Int 0 ->
                                is_Some (vc !! v))
            \/ (rule self = "only"
                /\ forall v, is_Some (vc !! v) ->
                      exists mn mx, b !! v = Some (mn, mx) /\ mx <> Int 0)
            \/ (rule self = "all_and_only"
                /\ (forall v mn mx, b !! v = Some (mn, mx) -> mx <> Int 0 ->
                                    is_Some (vc !! v))
                /\ forall v, is_Some (vc !! v) ->
                      exists mn mx, b !! v = Some (mn, mx) /\ mx <> Int 0))).
Proof. apply result_verdict_aux. Qed.

(** *** Errors *)

Lemma assign_group_raise (self : t) (g : occurrence Raw) (vs : list V)
    (b : boundaries) (e : exn) :
  for_each (assign_bounds self g) b vs = Raise e ->
  e = KeyError /\ exists v, v ∈ vs /\ b !! v = None.
Proof.
  revert b. induction vs as [|x vs IH]; intros b; simpl; [discriminate |].
  unfold assign_bounds at 1. destruct (b !! x) as [p|] eqn:Hx; simpl.
  - intros Hrest. destruct (IH _ Hrest) as (-> & v & Hv & Hnone).
    split; [reflexivity |]. exists v. split; [by right |].
    destruct (decide (v = x)) as [->|Hne].
    + by rewrite lookup_insert_eq in Hnone.
    + by rewrite lookup_insert_ne in Hnone.
  - intros Heq. injection Heq as <-. split; [reflexivity |].
    exists x. split; [left | exact Hx].
Qed.

Lemma dedicated_raise (self : t) (groups : list (occurrence Raw))
    (b : boundaries) (e : exn) :
  for_each (fun b g => for_each (assign_bounds self g) b
                         (occurrence_values self g)) b groups = Raise e ->
  e = KeyError
  /\ exists g v, g ∈ groups /\ v ∈ occurrence_values self g
                 /\ b !! v = None.
Proof.
  revert b. induction groups as [|o rest IH]; intros b; simpl;
    [discriminate |].
  destruct (for_each (assign_bounds self o) b (occurrence_values self o))
    as [b1|e1] eqn:Hgroup; simpl.
  - intros Hrest. destruct (IH b1 Hrest) as (-> & g & v & Hg & Hv & Hnone).
    split; [reflexivity |]. exists g, v. split; [by right |].
    split; [exact Hv |].
    destruct (assign_group_ok self o _ b b1 Hgroup) as (_ & _ & Hsome).
    destruct (b !! v) as [p|] eqn:Hb; [| reflexivity].
    exfalso. assert (Hs : is_Some (b1 !! v)) by (apply Hsome; eauto).
    rewrite Hnone in Hs. by destruct Hs.
  - intros Heq. injection Heq as <-.
    destruct (assign_group_raise self o _ b e1 Hgroup) as (-> & v & Hv & Hn).
    split; [reflexivity |]. exists o, v. split; [left | done].
Qed.

Lemma dedicated_ok_listed (self : t) (groups : list (occurrence Raw))
    (b b' : boundaries) :
  for_each (fun b g => for_each (assign_bounds self g) b
                         (occurrence_values self g)) b groups = Ok b' ->
  forall g v, g ∈ groups -> v ∈ occurrence_values self g -> is_Some (b !! v).
Proof.
  revert b. induction groups as [|o rest IH]; intros b; simpl.
  - intros _ g v Hg. by apply elem_of_nil in Hg.
  - destruct (for_each (assign_bounds self o) b (occurrence_values self o))
      as [b1|e1] eqn:Hgroup; simpl; [| discriminate].
    intros Hrest g v Hg Hv.
    destruct (assign_group_ok self o _ b b1 Hgroup) as (Hdom & _ & Hsome).
    apply elem_of_cons in Hg as [->|Hg]; [by apply Hdom |].
    apply Hsome. by apply (IH b1 Hrest g v).
Qed.

Lemma global_boundaries_None (self : t) (v : V) :
  global_boundaries self !! v = None <-> v ∉ values self.
Proof.
  rewrite global_boundaries_lookup. case_decide; split; done.
Qed.

(** X11. An override group that lists a value outside [values] makes [result]
    raise [KeyError], and nothing else makes [result] raise once [report]
    has stored a frequency map. *)
Theorem stray_override_raises_KeyError (self : t) (vc : gmap V nat)
    (r : report_t Ser) :
  value_count self = Some vc ->
  (result self r = Raise KeyError
   <-> exists g v, g ∈ occurrences_per_value self
                   /\ v ∈ occurrence_values self g /\ v ∉ values self)
  /\ (forall e, result self r = Raise e -> e = KeyError).
Proof.
  intros Hvc.
  destruct (dedicated_boundaries self (global_boundaries self))
    as [b|e] eqn:Hded.
  - assert (Hlisted : forall g v, g ∈ occurrences_per_value self ->
              v ∈ occurrence_values self g -> v ∈ values self).
    { intros g v Hg Hv.
      pose proof (dedicated_ok_listed self _ _ b Hded g v Hg Hv) as Hs.
      destruct (decide (v ∈ values self)) as [|Hn]; [done |].
      apply global_boundaries_None in Hn. rewrite Hn in Hs. by destruct Hs. }
    destruct (result_verdict_aux self vc r Hvc Hlisted)
      as (b' & verdict & self' & Hresult & _).
    rewrite Hresult. split; [| discriminate]. split; [discriminate |].
    intros (g & v & Hg & Hv & Hn). exfalso. by apply Hn, (Hlisted g v).
  - assert (Hresult : result self r = Raise e).
    { unfold result. rewrite Hvc. cbn [Py.bind getattr].
      unfold _set_min_max_boundaries. by rewrite Hded. }
    destruct (dedicated_raise self _ _ e Hded) as (-> & g & v & Hg & Hv & Hn).
    rewrite Hresult. split; [| by intros e Heq; injection Heq as <-].
    split; [intros _ | reflexivity].
    exists g, v. split; [done |]. split; [done |].
    by apply global_boundaries_None.
Qed.

Lemma init_fresh (o : options) (self : t) :
  Contain.__init__ o = Ok self ->
  value_count self = None
  /\ min_max_boundaries self = None
  /\ values_scope_filter self = None.
Proof.
  unfold Contain.__init__, BaseStatement.__init__.
  destruct (_validate_options cls (keys o)); cbn [Py.bind]; [| discriminate].
  destruct (opt_rule o) as [r|]; cbn [Py.bind getitem]; [| discriminate].
  destruct (opt_parser o) as [tr|]; cbn [Py.bind getitem]; [| discriminate].
  destruct (opt_values o) as [raw|]; cbn [Py.bind getitem]; [| discriminate].
  destruct (_set_default_minmax_occurrences r _ _) as [[mn mx]|];
    cbn [Py.bind]; [| discriminate].
  destruct (_assert_parameters r mn mx); cbn [Py.bind]; [| discriminate].
  intros Heq. injection Heq as <-. repeat split.
Qed.

(** X12. On an instance fresh from the constructor, before any [report],
    [result] raises [AttributeError], and so do [_set_values_scope] and
    [_check_rule]: the attributes they read are assigned by [report] and by
    [result]. [_check_interval] reads the boundaries inside its loop over
    the expected values: it raises [AttributeError] when the instance
    expects at least one value, and returns true, without reading
    anything, when the list of expected values is empty. *)
Theorem result_before_report_raises (o : options) (self : t)
    (r : report_t Ser) (vc : gmap V nat) :
  Contain.__init__ o = Ok self ->
  result self r = Raise AttributeError
  /\ _check_interval self vc
     = match values self with
       | [] => Ok true
       | _ :: _ => Raise AttributeError
       end
  /\ _set_values_scope self = Raise AttributeError
  /\ _check_rule self vc = Raise AttributeError.
Proof.
  intros Hinit.
  destruct (init_fresh o self Hinit) as (Hvc & Hb & Hscope).
  destruct (init_inv o self Hinit) as (_ & Hrule & _).
  repeat split.
  - unfold result. by rewrite Hvc.
  - unfold _check_interval. destruct (values self); [reflexivity |].
    simpl. by rewrite Hb.
  - unfold _set_values_scope. by rewrite Hb.
  - unfold _check_rule, _check_all, _check_only. rewrite Hscope.
    cbn [Py.bind getattr].
    repeat case_bool_decide; try reflexivity.
    exfalso. set_unfold. intuition congruence.
Qed.

(** X13. A rule outside ['all'], ['only'], ['all_and_only'] makes the
    constructor raise: [KeyError], from the table of defaults, when one of
    the two global bounds is not configured, and [AssertionError] when both
    are. A negative global bound raises [AssertionError]. *)
Theorem constructor_rejects
    (o : options (Raw:=Raw) (V:=V) (Ser:=Ser)) (r : string) :
  _validate_options cls (keys o) = Ok tt ->
  opt_rule o = Some r ->
  is_Some (opt_parser o) ->
  is_Some (opt_values o) ->
  (r ∉ ["all"; "only"; "all_and_only"] ->
   (Contain.__init__ o : Err t)
   = Raise (match opt_min_occurrences o, opt_max_occurrences o with
            | Some _, Some _ => AssertionError
            | _, _ => KeyError
            end))
  /\ (forall z, opt_min_occurrences o = Some (Int z) -> z < 0 ->
      is_Some (opt_max_occurrences o) ->
      (Contain.__init__ o : Err t) = Raise AssertionError)
  /\ (forall z, opt_max_occurrences o = Some (Int z) -> z < 0 ->
      is_Some (opt_min_occurrences o) ->
      (Contain.__init__ o : Err t) = Raise AssertionError).
Proof.
  intros Hkeys Hr [tr Htr] [raw Hraw].
  unfold Contain.__init__, BaseStatement.__init__.
  rewrite Hkeys, Hr, Htr, Hraw. cbn [Py.bind getitem].
  unfold _set_default_minmax_occurrences, min_occurrences_rule_default,
    max_occurrences_rule_default, _assert_parameters, assert.
  split; [| split].
  - intros Hrule.
    assert (Hall : r <> "all") by (intros ->; apply Hrule; set_unfold; tauto).
    assert (Honly : r <> "only")
      by (intros ->; apply Hrule; set_unfold; tauto).
    assert (Hboth : r <> "all_and_only")
      by (intros ->; apply Hrule; set_unfold; tauto).
    rewrite (bool_decide_eq_false_2 (r ∈ _)) by done.
    rewrite !(bool_decide_eq_false_2 (r = _)) by done.
    destruct (opt_min_occurrences o), (opt_max_occurrences o); reflexivity.
  - intros z Hmin Hz [mx Hmax]. rewrite Hmin, Hmax. cbn [Py.bind].
    assert (Hneg : ble (Int 0) (Int z) = false)
      by (simpl; apply Z.leb_gt; lia).
    rewrite Hneg. by case_bool_decide.
  - intros z Hmax Hz [mn Hmin]. rewrite Hmin, Hmax. cbn [Py.bind].
    assert (Hneg : ble (Int 0) (Int z) = false)
      by (simpl; apply Z.leb_gt; lia).
    rewrite Hneg. case_bool_decide; [| reflexivity].
    by destruct (ble (Int 0) mn).
Qed.

(** *** A whole run, from the frame to the verdict *)

Lemma report_ok (self : t) (df : Frame.DataFrame V)
    (series : list (option V)) :
  Frame.pooled df = Ok series ->
  exists internal_report,
    report self df
    = Ok (internal_report,
          set_value_count self (Frame.value_counts series)).
Proof.
  intros Hpooled. unfold report. rewrite Hpooled. cbn [Py.bind].
  eexists. reflexivity.
Qed.

Lemma boundaries_of_stored (self : t) (vc vc' : gmap V nat) (self1 : t)
    (b b' : boundaries) :
  _set_min_max_boundaries self vc = Ok self1 ->
  min_max_boundaries self1 = Some b ->
  _set_min_max_boundaries (set_value_count self vc') vc'
  = Ok (set_min_max_boundaries (set_value_count self vc') b') ->
  b' = b
  /\ forall g v, g ∈ occurrences_per_value self ->
                 v ∈ occurrence_values self g -> v ∈ values self.
Proof.
  unfold _set_min_max_boundaries.
  change (dedicated_boundaries (set_value_count self vc')
            (global_boundaries (set_value_count self vc')))
    with (dedicated_boundaries self (global_boundaries self)).
  destruct (dedicated_boundaries self (global_boundaries self))
    as [b0|e] eqn:Hded; cbn [Py.bind]; [| discriminate].
  intros Heq Hb Heq'. injection Heq as <-. simpl in Hb.
  injection Hb as <-. injection Heq' as <-. split; [reflexivity |].
  intros g v Hg Hv.
  pose proof (dedicated_ok_listed self _ _ b0 Hded g v Hg Hv) as Hs.
  destruct (decide (v ∈ values self)) as [|Hn]; [done |].
  apply global_boundaries_None in Hn. rewrite Hn in Hs. by destruct Hs.
Qed.

Lemma listed_of_boundaries (self : t) (vc : gmap V nat) (self1 : t) :
  _set_min_max_boundaries self vc = Ok self1 ->
  forall g v, g ∈ occurrences_per_value self ->
              v ∈ occurrence_values self g -> v ∈ values self.
Proof.
  unfold _set_min_max_boundaries.
  destruct (dedicated_boundaries self (global_boundaries self))
    as [b0|e] eqn:Hded; cbn [Py.bind]; [| discriminate].
  intros _ g v Hg Hv.
  pose proof (dedicated_ok_listed self _ _ b0 Hded g v Hg Hv) as Hs.
  destruct (decide (v ∈ values self)) as [|Hn]; [done |].
  apply global_boundaries_None in Hn. rewrite Hn in Hs. by destruct Hs.
Qed.

(** X14. An expected value whose resolved maximum is 0 and that occurs in the
    frame makes the statement fail, whatever the rule. *)
Theorem forbidden_value_fails (self self1 : t) (df : Frame.DataFrame V)
    (series : list (option V)) (v : V) (b : boundaries) (mn : bound) :
  Frame.pooled df = Ok series ->
  Some v ∈ series ->
  v ∈ values self ->
  _set_min_max_boundaries self ∅ = Ok self1 ->
  min_max_boundaries self1 = Some b ->
  b !! v = Some (mn, Int 0) ->
  exists internal_report self2,
    __call__ self df = Ok (internal_report, false, self2).
Proof.
  intros Hpooled Hobserved Hexpected Hset Hb Hzero.
  destruct (report_ok self df series Hpooled) as [internal_report Hreport].
  set (vc := Frame.value_counts series) in *.
  set (self' := set_value_count self vc) in *.
  pose proof (listed_of_boundaries self ∅ self1 Hset) as Hlisted.
  destruct (result_verdict_aux self' vc internal_report eq_refl Hlisted)
    as (b' & verdict & self2 & Hresult & Hset' & _ & Hverdict).
  destruct (boundaries_of_stored self ∅ vc self1 b b' Hset Hb Hset')
    as [-> _].
  exists internal_report, self2.
  unfold __call__. rewrite Hreport. cbn [Py.bind]. rewrite Hresult.
  cbn [Py.bind]. do 3 f_equal.
  destruct verdict; [| reflexivity]. exfalso.
  destruct (proj1 Hverdict eq_refl) as [Hinterval _].
  specialize (Hinterval v mn (Int 0) Hexpected Hzero).
  apply value_counts_observed in Hobserved as [n Hn]. fold vc in Hn.
  rewrite Hn in Hinterval.
  apply value_counts_positive in Hn.
  unfold within in Hinterval. apply andb_true_iff in Hinterval as [_ Hmax].
  simpl in Hmax. apply Z.leb_le in Hmax. lia.
Qed.

(** X15. With no bound and no override group configured, the verdict is the
    presence rule alone: under ['all'] every expected value occurs in the
    frame, under ['only'] every value of the frame is expected, under
    ['all_and_only'] both hold. *)
Theorem default_bounds_verdict
    (o : options (Raw:=Raw) (V:=V) (Ser:=Ser)) (self : t)
    (df : Frame.DataFrame V) (series : list (option V)) :
  Contain.__init__ o = Ok self ->
  opt_min_occurrences o = None ->
  opt_max_occurrences o = None ->
  occurrences_per_value self = [] ->
  Frame.pooled df = Ok series ->
  exists internal_report verdict self2,
    __call__ self df = Ok (internal_report, verdict, self2)
    /\ (verdict = true <->
        (rule self = "all"
         /\ forall v, v ∈ values self -> Some v ∈ series)
        \/ (rule self = "only"
            /\ forall v, Some v ∈ series -> v ∈ values self)
        \/ (rule self = "all_and_only"
            /\ (forall v, v ∈ values self -> Some v ∈ series)
            /\ forall v, Some v ∈ series -> v ∈ values self)).
Proof.
  intros Hinit Hmin Hmax Hgroups Hpooled.
  destruct (init_inv o self Hinit) as (_ & Hrule & Hdef & _ & _).
  destruct (report_ok self df series Hpooled) as [internal_report Hreport].
  set (vc := Frame.value_counts series) in *.
  set (self' := set_value_count self vc) in *.
  assert (Hlisted : forall g v, g ∈ occurrences_per_value self' ->
            v ∈ occurrence_values self' g -> v ∈ values self').
  { intros g v Hg. simpl in Hg. rewrite Hgroups in Hg.
    by apply elem_of_nil in Hg. }
  destruct (result_verdict_aux self' vc internal_report eq_refl Hlisted)
    as (b & verdict & self2 & Hresult & Hset & _ & Hverdict).
  exists internal_report, verdict, self2. split.
  { unfold __call__. rewrite Hreport. cbn [Py.bind]. rewrite Hresult.
    reflexivity. }
  assert (Hb : b = global_boundaries self).
  { revert Hset. unfold _set_min_max_boundaries, dedicated_boundaries.
    simpl. rewrite Hgroups. cbn [for_each Py.bind].
    intros Heq. injection Heq as Heq. symmetry. exact Heq. }
  assert (Hmx : max_occurrences self = Inf).
  { revert Hdef. unfold _set_default_minmax_occurrences,
      min_occurrences_rule_default, max_occurrences_rule_default.
    rewrite Hmin, Hmax. repeat case_bool_decide; simpl; intros Heq;
      try discriminate; by injection Heq as _ <-. }
  assert (Hmn : min_occurrences self
                = if bool_decide (rule self = "only") then Int 0 else Int 1).
  { revert Hdef. unfold _set_default_minmax_occurrences,
      min_occurrences_rule_default, max_occurrences_rule_default.
    rewrite Hmin, Hmax. repeat case_bool_decide; simpl; intros Heq;
      try discriminate; try congruence; by injection Heq as <- _. }
  assert (Hlookup : forall v mn mx, b !! v = Some (mn, mx) <->
            v ∈ values self /\ mn = min_occurrences self /\ mx = Inf).
  { intros v mn mx. rewrite Hb, global_boundaries_lookup, Hmx.
    destruct (decide (v ∈ values self)); split.
    - intros Heq. by simplify_eq.
    - intros (_ & -> & ->). done.
    - discriminate.
    - intros (? & _). contradiction. }
  assert (Hobs : forall v, is_Some (vc !! v) <-> Some v ∈ series)
    by (intros v; apply value_counts_observed).
  assert (Hpresent : (forall v mn mx, b !! v = Some (mn, mx) ->
                        mx <> Int 0 -> is_Some (vc !! v))
            <-> forall v, v ∈ values self -> Some v ∈ series).
  { split.
    - intros Ha v Hv. apply Hobs.
      apply (Ha v (min_occurrences self) Inf); [by apply Hlookup | done].
    - intros Ha v mn mx Hv _. apply Hlookup in Hv as (Hv & _).
      by apply Hobs, Ha. }
  assert (Hexpected : (forall v, is_Some (vc !! v) ->
                         exists mn mx, b !! v = Some (mn, mx) /\ mx <> Int 0)
            <-> forall v, Some v ∈ series -> v ∈ values self).
  { split.
    - intros Ho v Hv. apply Hobs in Hv.
      destruct (Ho v Hv) as (mn & mx & Hbv & _).
      by apply Hlookup in Hbv as (? & _).
    - intros Ho v Hv. exists (min_occurrences self), Inf.
      split; [| done]. apply Hlookup. split; [| done].
      by apply Ho, Hobs. }
  assert (Hinterval :
            (forall v mn mx, v ∈ values self' -> b !! v = Some (mn, mx) ->
               match vc !! v with
               | Some count => within mn count mx = true
               | None =>
                   ~ (rule self' <> "only" /\ mx <> Int 0 /\ mn <> Int 0)
               end)
            <-> (rule self = "only"
                 \/ forall v, v ∈ values self -> Some v ∈ series)).
  { change (rule self') with (rule self).
    change (values self') with (values self). split.
    - intros Hall. destruct (decide (rule self = "only")) as [|Hr];
        [by left | right].
      intros v Hv. apply Hobs.
      specialize (Hall v (min_occurrences self) Inf Hv
                    (proj2 (Hlookup v _ _) (conj Hv (conj eq_refl eq_refl)))).
      destruct (vc !! v) as [n|]; [eauto |].
      exfalso. apply Hall. split; [done |]. split; [done |].
      rewrite Hmn. by rewrite bool_decide_eq_false_2.
    - intros Hcase v mn mx Hv Hbv.
      apply Hlookup in Hbv as (_ & -> & ->).
      destruct (vc !! v) as [n|] eqn:Hn.
      + apply value_counts_positive in Hn. unfold within.
        rewrite Hmn. case_bool_decide; simpl; rewrite ?andb_true_r;
          apply Z.leb_le; lia.
      + destruct Hcase as [Hr|Hall]; [tauto |].
        exfalso. apply Hall, Hobs in Hv. rewrite Hn in Hv. by destruct Hv. }
  rewrite Hverdict, Hinterval, Hpresent, Hexpected.
  change (rule self') with (rule self).
  clear -Hrule. set_unfold. intuition congruence.
Qed.

End WithValues.

(** The instance of [Examples.contain_only_min_instance] has not resolved
    its boundaries. *)
Lemma values_scope_excludes_forbidden_witness :
  _set_values_scope Examples.contain_only_min_instance
  = Raise AttributeError.
Proof.
  exact (proj1 (values_scope_excludes_forbidden
                  Examples.contain_only_min_instance) eq_refl).
Defined.

(** The instance of [Examples.contain_only_min_instance] after a [report]
    that observed the value 1 once. *)
Lemma result_is_interval_and_rule_witness :
  exists verdict self',
    result (set_value_count Examples.contain_only_min_instance
              ({[ 1 := 1%nat ]} : gmap Z nat)) (empty_report (Ser:=Z))
    = Ok (verdict, self').
Proof.
  destruct (result_is_interval_and_rule
              (set_value_count Examples.contain_only_min_instance
                 ({[ 1 := 1%nat ]} : gmap Z nat))
              ({[ 1 := 1%nat ]} : gmap Z nat) (empty_report (Ser:=Z))
              eq_refl)
    as (b & verdict & self' & Hresult & _).
  { intros g v Hg Hv. simpl in Hg. apply list_elem_of_singleton in Hg as ->.
    vm_compute in Hv. simpl. set_unfold. tauto. }
  by exists verdict, self'.
Defined.

(** Values 1 and 2, and an override group for the value 5. *)
Lemma stray_override_raises_KeyError_witness :
  result
    {| rule := "all"; treater := Examples.int_treater; values := [1; 2];
       min_occurrences := Int 1; max_occurrences := Inf;
       occurrences_per_value :=
         [ {| occ_values := One 5; occ_min_occurrences := None;
              occ_max_occurrences := Some (Int 0) |} ];
       verbose := true;
       value_count := Some ({[ 1 := 1%nat ]} : gmap Z nat);
       min_max_boundaries := None; values_scope_filter := None |}
    (empty_report (Ser:=Z))
  = Raise KeyError.
Proof.
  match goal with
  | |- result ?s ?r = _ =>
      refine (proj2 (proj1 (stray_override_raises_KeyError s
                              ({[ 1 := 1%nat ]} : gmap Z nat) r eq_refl)) _)
  end.
  eexists _, 5. split; [left |]. split; [vm_compute; left |].
  simpl. set_unfold. lia.
Defined.

Lemma result_before_report_raises_witness :
  result Examples.contain_only_min_instance (empty_report (Ser:=Z))
  = Raise AttributeError
  /\ _check_interval Examples.contain_only_min_instance (∅ : gmap Z nat)
     = Raise AttributeError.
Proof.
  destruct (result_before_report_raises Examples.contain_only_min
              Examples.contain_only_min_instance (empty_report (Ser:=Z))
              (∅ : gmap Z nat)) as (Hresult & Hinterval & _).
  - vm_compute. reflexivity.
  - split; [exact Hresult | exact Hinterval].
Defined.

(** The rule ['any'] is not one of the three; no bound is configured. *)
Lemma constructor_rejects_witness :
  Contain.__init__ (Examples.contain_strings "any" ["a"] None)
  = Raise KeyError.
Proof.
  refine (proj1 (constructor_rejects
                   (Examples.contain_strings "any" ["a"] None) "any"
                   _ eq_refl _ _) _).
  - vm_compute. reflexivity.
  - simpl. eauto.
  - simpl. eauto.
  - by_evaluation.
Defined.

(** Rule ['only'] on ['a'] with a maximum of 0 for ['a'], and a column that
    holds ['a']. *)
Lemma forbidden_value_fails_witness :
  exists internal_report self2,
    __call__
      {| rule := "only"; treater := Examples.str_treater; values := ["a"];
         min_occurrences := Int 0; max_occurrences := Inf;
         occurrences_per_value :=
           [ {| occ_values := Many ["a"]; occ_min_occurrences := None;
                occ_max_occurrences := Some (Int 0) |} ];
         verbose := true; value_count := None;
         min_max_boundaries := None; values_scope_filter := None |}
      (Examples.one_column [Some "a"; None])
    = Ok (internal_report, false, self2).
Proof.
  match goal with
  | |- exists _ _, __call__ ?s _ = _ =>
      destruct (_set_min_max_boundaries s (∅ : gmap string nat))
        as [self1|e] eqn:Hset;
        [| vm_compute in Hset; discriminate Hset];
      destruct (min_max_boundaries self1) as [b|] eqn:Hb;
        [| vm_compute in Hset; injection Hset as <-; discriminate Hb];
      apply (forbidden_value_fails s self1
               (Examples.one_column [Some "a"; None]) [Some "a"; None]
               "a" b (Int 0))
  end.
  - reflexivity.
  - left.
  - left.
  - exact Hset.
  - exact Hb.
  - vm_compute in Hset. injection Hset as <-. injection Hb as <-.
    vm_compute. reflexivity.
Defined.

(** Rule ['all'] on ['a', 'b', 'c'] and a column without ['c']. *)
Lemma default_bounds_verdict_witness :
  exists internal_report self self2,
    Contain.__init__ (Examples.contain_strings "all" ["a"; "b"; "c"] None)
    = Ok self
    /\ __call__ self (Examples.one_column [Some "a"; Some "a"; Some "b"])
       = Ok (internal_report, false, self2).
Proof.
  destruct (Contain.__init__
              (Examples.contain_strings "all" ["a"; "b"; "c"] None))
    as [self|e] eqn:Hinit; [| vm_compute in Hinit; discriminate Hinit].
  assert (Hself : occurrences_per_value self = []
                  /\ rule self = "all" /\ values self = ["a"; "b"; "c"]).
  { vm_compute in Hinit. injection Hinit as <-. repeat split. }
  destruct Hself as (Hgroups & Hrule & Hvalues).
  destruct (default_bounds_verdict
              (Examples.contain_strings "all" ["a"; "b"; "c"] None) self
              (Examples.one_column [Some "a"; Some "a"; Some "b"])
              [Some "a"; Some "a"; Some "b"]
              Hinit eq_refl eq_refl Hgroups eq_refl)
    as (internal_report & verdict & self2 & Hcall & Hverdict).
  exists internal_report, self, self2. split; [reflexivity |].
  rewrite Hcall. do 3 f_equal.
  destruct verdict; [| reflexivity]. exfalso.
  destruct (proj1 Hverdict eq_refl) as [[_ Hall]|[[Hr _]|[Hr _]]];
    [| congruence..].
  specialize (Hall "c"). rewrite Hvalues in Hall.
  assert (Hc : Some "c" ∈ [Some "a"; Some "a"; Some "b"])
    by (apply Hall; set_unfold; tauto).
  revert Hc. by_evaluation.
Defined.

End ContainMore.

(** ** StatisticInInterval: constructor, declarative verdict, report *)

Module StatisticInIntervalMore.
Import BaseStatement StatisticInInterval StatisticInIntervalReport.
Import StatisticInIntervalFacts.

Lemma lower_ascii_idempotent (c : Ascii.ascii) :
  lower_ascii (lower_ascii c) = lower_ascii c.
Proof. destruct c as [[] [] [] [] [] [] [] []]; reflexivity. Qed.

Lemma lower_idempotent (s : string) : lower (lower s) = lower s.
Proof.
  induction s as [|c s IH]; [reflexivity |]. simpl.
  by rewrite lower_ascii_idempotent, IH.
Qed.

Lemma run_decided (al : bool) (pre rest : list (Err bool))
    (test : Err bool) :
  Forall (fun test => test = Ok al) pre -> test <> Ok al ->
  run al (pre ++ test :: rest) = test.
Proof.
  intros Hpre Htest. unfold run.
  rewrite first_exit_app, (first_exit_prefix al pre Hpre). simpl.
  destruct test as [passed|err]; [| reflexivity].
  destruct al, passed; try congruence; reflexivity.
Qed.

Lemma first_other (al : bool) (tests : list (Err bool)) :
  Forall (fun test => test = Ok al) tests
  \/ exists pre test rest,
       tests = (pre ++ test :: rest)%list
       /\ Forall (fun test => test = Ok al) pre
       /\ test <> Ok al.
Proof.
  induction tests as [|x tests IH]; [left; constructor |].
  assert (Hx : x = Ok al \/ x <> Ok al).
  { destruct x as [[|]|err], al; (by left) || (right; discriminate). }
  destruct Hx as [-> | Hx].
  - destruct IH as [IH | (pre & test & rest & -> & Hpre & Htest)].
    + left. by constructor.
    + right. exists (Ok al :: pre), test, rest.
      split; [reflexivity |]. split; [by constructor | exact Htest].
  - right. exists [], x, tests. split; [reflexivity |].
    split; [constructor | exact Hx].
Qed.

Lemma run_all_pass (al : bool) (tests : list (Err bool)) :
  run al tests = Ok al <-> Forall (fun test => test = Ok al) tests.
Proof.
  split.
  - intros Hrun.
    destruct (first_other al tests)
      as [Hall | (pre & test & rest & -> & Hpre & Htest)]; [exact Hall |].
    rewrite (run_decided al pre rest test Hpre Htest) in Hrun. contradiction.
  - intros Hall. unfold run. by rewrite (first_exit_prefix al tests Hall).
Qed.

Lemma run_first_other (al : bool) (tests : list (Err bool))
    (outcome : Err bool) :
  outcome <> Ok al ->
  (run al tests = outcome
   <-> exists pre rest,
         tests = (pre ++ outcome :: rest)%list
         /\ Forall (fun test => test = Ok al) pre).
Proof.
  intros Houtcome. split.
  - intros Hrun.
    destruct (first_other al tests)
      as [Hall | (pre & test & rest & -> & Hpre & Htest)].
    + apply run_all_pass in Hall. congruence.
    + rewrite (run_decided al pre rest test Hpre Htest) in Hrun. subst test.
      by exists pre, rest.
  - intros (pre & rest & -> & Hpre). by apply run_decided.
Qed.

Section WithNumbers.
Context {F : Type} `{Number F}.

(** X16. An instance the constructor returns has an allowed statistic and the
    logic 'and' or 'or', in lower case; the constructor does not tell apart
    the cases of the letters of [combination_logic]. *)
Theorem constructor_normalises_logic (o : options F) (self : t F) :
  StatisticInInterval.__init__ o = Ok self ->
  statistic self ∈ allowed_statistics
  /\ (combination_logic self = "and" \/ combination_logic self = "or")
  /\ combination_logic self = lower (Py.get (opt_combination_logic o) "and")
  /\ (forall logic,
        opt_combination_logic o = Some logic ->
        StatisticInInterval.__init__
          (with_combination_logic o (Some (lower logic)))
        = Ok self).
Proof.
  unfold StatisticInInterval.__init__, BaseStatement.__init__.
  destruct (_validate_options cls (keys o)) as [[]|] eqn:Hkeys;
    cbn [Py.bind]; [| discriminate].
  destruct (opt_statistic o) as [s|] eqn:Hs; cbn [Py.bind]; [| discriminate].
  unfold assert.
  destruct (bool_decide (s ∈ allowed_statistics)) eqn:Hallowed;
    cbn [Py.bind]; [| discriminate].
  destruct (bool_decide (lower (Py.get (opt_combination_logic o) "and")
                         ∈ ["and"; "or"])) eqn:Hlogic;
    cbn [Py.bind]; [| discriminate].
  intros Heq. injection Heq as <-. cbn.
  apply bool_decide_eq_true in Hallowed, Hlogic.
  split; [exact Hallowed |]. split; [set_unfold; tauto |].
  split; [reflexivity |].
  intros logic Hsome.
  assert (Hkeys' : keys (with_combination_logic o (Some (lower logic)))
                   = keys o).
  { unfold keys, with_combination_logic. cbn. by rewrite Hsome. }
  rewrite Hkeys', Hkeys. cbn [Py.bind opt_statistic with_combination_logic].
  rewrite Hs. cbn [Py.bind]. rewrite (bool_decide_eq_true_2 _ Hallowed).
  cbn [Py.bind opt_combination_logic Py.get].
  rewrite Hsome in *. cbn [Py.get] in *. rewrite lower_idempotent.
  rewrite (bool_decide_eq_true_2 _ Hlogic). reflexivity.
Qed.

(** X17. [result] is settled by the comparisons it makes, in their
    order, and by no later one. Under 'and' it returns true exactly when
    every configured comparison holds on every measured value, and any
    other outcome, false or an exception, is that of the first comparison
    that does not hold. Under 'or' it returns false exactly when every
    comparison fails on every value, and any other outcome, true or an
    exception, is that of the first comparison that does not fail. A
    comparison after the deciding one is not made: what it would return or
    raise does not matter. *)
Theorem verdict_is_all_or_any (self : t F) (report : report_t F)
    (values : list F) :
  measured_values (actual_value report) = Ok values ->
  (combination_logic self = "and" ->
     (result self report = Ok true
      <-> Forall (fun test => test = Ok true) (all_comparisons self values))
     /\ (forall outcome, outcome <> Ok true ->
         (result self report = outcome
          <-> exists pre rest,
                all_comparisons self values = (pre ++ outcome :: rest)%list
                /\ Forall (fun test => test = Ok true) pre)))
  /\ (combination_logic self <> "and" ->
       (result self report = Ok false
        <-> Forall (fun test => test = Ok false)
              (all_comparisons self values))
       /\ (forall outcome, outcome <> Ok false ->
           (result self report = outcome
            <-> exists pre rest,
                  all_comparisons self values = (pre ++ outcome :: rest)%list
                  /\ Forall (fun test => test = Ok false) pre))).
Proof.
  intros Hvalues. unfold result. rewrite Hvalues. cbn [Py.bind].
  rewrite loop_first_exit.
  pose proof (run_all_pass (and_logic self) (all_comparisons self values))
    as Hall.
  pose proof (run_first_other (and_logic self)
                (all_comparisons self values)) as Hother.
  unfold and_logic in *. split.
  - intros Hand. rewrite (bool_decide_eq_true_2 _ Hand) in *.
    split; [exact Hall | exact Hother].
  - intros Hor. rewrite (bool_decide_eq_false_2 _ Hor) in *.
    split; [exact Hall | exact Hother].
Qed.

(** X18. With both ['=='] and ['!='] configured, the two blocks test the same
    closeness and one of them fails whatever the value: on a report with a
    measured value, [result] never returns true under 'and' and never
    returns false under 'or'. *)
Theorem equal_and_not_equal_never_both (self : t F) (report : report_t F)
    (e n value : F) (rest : list F) :
  equal_to self = Some e ->
  not_equal_to self = Some n ->
  measured_values (actual_value report) = Ok (value :: rest) ->
  result self report <> Ok (and_logic self).
Proof.
  intros He Hn Hvalues. unfold result. rewrite Hvalues. cbn [Py.bind loop].
  assert (Hbody : body self value = Ok (Return (negb (and_logic self)))
                  \/ exists err, body self value = Raise err).
  { unfold body, block, equal_to_passes, not_equal_to_passes, math_isclose,
      less_than_passes, less_or_equal_to_passes.
    rewrite He, Hn.
    destruct (less_than self) as [t1|], (less_or_equal_to self) as [t2|];
      cbn [Py.bind and_then];
      repeat match goal with
             | |- context [lt ?a ?b] => destruct (lt a b)
             | |- context [le ?a ?b] => destruct (le a b)
             end;
      destruct (isclose value e (atol self) (rtol self)) as [[|]|err];
      destruct (and_logic self); cbn; eauto. }
  destruct Hbody as [-> | [err ->]]; cbn [Py.bind]; [| discriminate].
  by destruct (and_logic self).
Qed.

End WithNumbers.

Section WithStatistics.
Context {C R F : Type} `{Number F} `{Statistics C R F}.

(** X19. [report] packs the measured values by their number: one value is
    reported as a number, two or more as the list of them, and with no
    value to report (no column, or no mode in any column) [report] raises
    [IndexError]; an exception raised while the values are computed is
    raised by [report]. [result] unpacks either shape to the list that was
    measured, and iterates over it. *)
Theorem report_packs_what_result_unpacks (self : t F) (df : list C) :
  match actual_values self df with
  | Raise err => report self df = Raise err
  | Ok [] => report self df = Raise IndexError
  | Ok [v] =>
      report self df = Ok {| actual_value := Scalar v |}
      /\ measured_values (Scalar v) = Ok [v]
      /\ result self {| actual_value := Scalar v |} = loop self [v]
  | Ok (v :: v' :: vs) =>
      report self df = Ok {| actual_value := Flat (v :: v' :: vs) |}
      /\ measured_values (Flat (v :: v' :: vs)) = Ok (v :: v' :: vs)
      /\ result self {| actual_value := Flat (v :: v' :: vs) |}
         = loop self (v :: v' :: vs)
  end.
Proof.
  unfold report.
  destruct (actual_values self df) as [[|v [|v' vs]]|err]; cbn;
    try reflexivity; repeat split.
Qed.

End WithStatistics.

Import ExactNumber.

(** The options ['<': 0, '!=': 5] with the logic written ['AND']. *)
Lemma constructor_normalises_logic_witness :
  StatisticInInterval.__init__
    (with_combination_logic (Examples.interval_options (Some "AND") 0 5)
       (Some (lower "AND")))
  = Ok (Examples.interval_instance "and" 0 5).
Proof.
  refine (proj2 (proj2 (proj2
            (constructor_normalises_logic
               (Examples.interval_options (Some "AND") 0 5)
               (Examples.interval_instance "and" 0 5) _))) "AND" eq_refl).
  vm_compute. reflexivity.
Defined.

(** ['<': 0] and ['!=': 5] under 'and', on the value 1: the comparison
    with ['<'] fails first and [result] returns false; the ['!='] block,
    which would raise, is not reached. *)
Lemma verdict_is_all_or_any_witness :
  result (Examples.interval_instance "and" 0 5) Examples.one_value
  = Ok false.
Proof.
  destruct (verdict_is_all_or_any (Examples.interval_instance "and" 0 5)
              Examples.one_value [Fin 1%Q] eq_refl) as (Hand & _).
  destruct (Hand eq_refl) as (_ & Hfirst).
  apply Hfirst; [discriminate |].
  exists [], [Raise TypeError]. split; [vm_compute; reflexivity |].
  constructor.
Defined.

(** ['==': 5] and ['!=': 7] under 'or': the value 7 passes. *)
Lemma equal_and_not_equal_never_both_witness :
  result Examples.equal_and_not_equal_instance (Examples.scalar_report 7)
  <> Ok false.
Proof.
  exact (equal_and_not_equal_never_both Examples.equal_and_not_equal_instance
           (Examples.scalar_report 7) (Fin 5%Q) (Fin 7%Q) (Fin 7%Q) []
           eq_refl eq_refl eq_refl).
Defined.

End StatisticInIntervalMore.
